(** * Slack MCP server: workspace registry, mention filter, posting ledger

    A shallow embedding of the tool handlers of the server and of the two
    drizzle tables they work on.

    - [Index] embeds [src/src/index.ts], the server as it stands.
    - [PartA] embeds the first source text of [src/unnamed/part_000]
      (lines 1-629): the same tools with typed Slack responses.
    - [PartB] embeds the second source text of [src/unnamed/part_000]
      (lines 629-1180): the variant that encrypts the bot token at rest,
      lists workspaces by owner and pages through the ledger.

    Modelling conventions.

    - The D1 database is an explicit state: each table is the list of its
      rows in insertion order.  A statement fails only where a constraint
      of the schema fails (primary key, unique team id, foreign key, NOT
      NULL); a database that cannot be reached is not modelled.
    - The Slack Web API is an oracle: a record of functions from a request
      to a response or to the exception the client throws.  Every request
      a handler sends is appended to a log, so that a statement can say
      which requests were sent, and with which token.
    - A thrown JavaScript exception is the outcome [Threw]; [try]/[catch]
      reads as in the handlers.
    - What a request draws from its surroundings (clock, [randomUUID],
      the nonce) is an argument of the handler.
    - A string is a sequence of characters compared for equality; numbers
      that the tool schemas bound ([days_back], [limit], [offset]) are
      integers.
    - Optional fields of a Slack response and optional tool arguments are
      [option] values; their use as a condition follows JavaScript
      truthiness ([JS.truthy]).

    Where the three source texts differ, the main statements are about the
    text named in their comment, and lemmas record what the others do. *)

From Stdlib Require Import String Ascii List ZArith Bool Lia Arith.
From Stdlib Require Import Permutation Sorted DecimalString.
From Stdlib.Strings Require Import Byte.
Import ListNotations.
Open Scope string_scope.
Set Warnings "-register-all".

(* ================================================================== *)
(** * JavaScript strings and numbers, as the handlers use them *)
(* ================================================================== *)

Module JS.

(** The line feed a template literal writes as a backslash followed by n. *)
Definition LF : string := String (ascii_of_nat 10) EmptyString.

(** The double quote character. *)
Definition DQ : string := String (ascii_of_nat 34) EmptyString.

(** A string is falsy exactly when it is empty. *)
Definition truthy (s : string) : bool :=
  match s with EmptyString => false | String _ _ => true end.

(** An optional string ([undefined] is [None]) used as a condition. *)
Definition truthy_opt (o : option string) : bool :=
  match o with Some s => truthy s | None => false end.

(** [x || null] on an optional string. *)
Definition or_null (o : option string) : option string :=
  match o with
  | Some s => if truthy s then Some s else None
  | None => None
  end.

(** [x || d] on an optional string. *)
Definition or_else (o : option string) (d : string) : string :=
  match o with
  | Some s => if truthy s then s else d
  | None => d
  end.

(** [${x}] of an optional string in a template literal. *)
Definition show (o : option string) : string :=
  match o with Some s => s | None => "undefined" end.

(** An optional boolean used as a condition. *)
Definition truthy_bool (o : option bool) : bool :=
  match o with Some b => b | None => false end.

(** [String(n)] for an integer. *)
Definition string_of_Z (z : Z) : string := NilZero.string_of_int (Z.to_int z).

(** [String(n)] for a length. *)
Definition string_of_nat (n : nat) : string := NilZero.string_of_uint (Nat.to_uint n).

(** [hay.includes(needle)]: some suffix of [hay] starts with [needle]. *)
Fixpoint includes (needle hay : string) : bool :=
  if prefix needle hay then true
  else match hay with
       | EmptyString => false
       | String _ hay' => includes needle hay'
       end.

(** ASCII letters folded to lower case; every other character unchanged. *)
Definition lower_ascii (c : ascii) : ascii :=
  let n := nat_of_ascii c in
  if (65 <=? n)%nat && (n <=? 90)%nat then ascii_of_nat (n + 32) else c.

Fixpoint lower (s : string) : string :=
  match s with
  | EmptyString => EmptyString
  | String c s' => String (lower_ascii c) (lower s')
  end.

(** The characters that are syntax in a regular-expression source. *)
Definition syntax_char (c : ascii) : bool :=
  existsb (Ascii.eqb c)
    (list_ascii_of_string "\^$.|?*+()[]{}").

(** A source character that stands for itself in a pattern and is matched,
    under the [i] flag, by ASCII case folding alone: an ASCII character
    that is not regular-expression syntax. *)
Definition literal_char (c : ascii) : bool :=
  (nat_of_ascii c <? 128)%nat && negb (syntax_char c).

Definition literal (s : string) : bool :=
  forallb literal_char (list_ascii_of_string s).

(** [new RegExp(a1 + "|" + ... + "|" + an, flags).test(text)] for literal
    alternatives [a1 .. an]: the fragment of regular expressions the
    handlers build (a mention token around a user id, fixed broadcast
    tokens).  The definition gives the JavaScript result when every
    alternative satisfies [literal]; the theorems on matching assume it of
    the user id. *)
Definition RegExp_test (alternatives : list string) (ignoreCase : bool)
    (text : string) : bool :=
  existsb (fun a => if ignoreCase then includes (lower a) (lower text)
                    else includes a text) alternatives.

(** [s.replace(".", "")]: the first dot removed. *)
Fixpoint replace_dot (s : string) : string :=
  match s with
  | EmptyString => EmptyString
  | String c s' => if Ascii.eqb c "."%char then s' else String c (replace_dot s')
  end.

(** [s.slice(0, n)]. *)
Fixpoint slice0 (n : nat) (s : string) : string :=
  match n, s with
  | S n', String c s' => String c (slice0 n' s')
  | _, _ => EmptyString
  end.

(** [n] copies of the character [c]. *)
Fixpoint repeat_char (c : ascii) (n : nat) : string :=
  match n with
  | O => EmptyString
  | S n' => String c (repeat_char c n')
  end.

(** [s.padEnd(n, c)] for a one-character filler. *)
Definition padEnd (n : nat) (c : ascii) (s : string) : string :=
  s ++ repeat_char c (n - String.length s).

(** [xs.join(sep)]. *)
Fixpoint join (sep : string) (xs : list string) : string :=
  match xs with
  | [] => EmptyString
  | [x] => x
  | x :: rest => x ++ sep ++ join sep rest
  end.

(** [xs.slice(0, n)]. *)
Definition slice_to {A : Type} (n : nat) (xs : list A) : list A := firstn n xs.

End JS.

(* ================================================================== *)
(** * The two tables of [src/src/db/schema.ts] *)
(* ================================================================== *)

Module Workspace.
Record t : Type := mk {
  id : string;
  teamName : string;
  teamId : string;
  workspaceUrl : string;
  botToken : string;
  userId : string;
  botId : string;
  description : option string;
  createdAt : Z;
  updatedAt : Z;
  isActive : bool
}.
End Workspace.

Module PostedMessage.
Record t : Type := mk {
  id : string;
  workspaceId : string;
  channelId : string;
  channelName : string;
  messageText : string;
  messageTs : string;
  slackMessageId : option string;
  userId : string;
  createdAt : Z
}.
End PostedMessage.

(** The database: each table is the list of its rows in insertion order. *)
Record DB : Type := mkDB {
  workspaces : list Workspace.t;
  postedMessages : list PostedMessage.t
}.

(** What a request reads from its surroundings: the clock of the worker
    ([Date.now()], milliseconds), the clock of the database
    ([CURRENT_TIMESTAMP], the column default) and the identifier that
    [crypto.randomUUID()] draws for the row the request inserts.  The
    default is kept as the value the database stores and orders rows by;
    whether the runtime reads it back as a date it can print is the
    matter of the conversions the handlers call. *)
Record Env : Type := mkEnv {
  Date_now : Z;
  CURRENT_TIMESTAMP : Z;
  randomUUID : string
}.

(** The result of running code that may throw. *)
Inductive Outcome (A : Type) : Type :=
| Val (a : A)
| Threw (message : string).
Arguments Val {A} a.
Arguments Threw {A} message.

Module Sql.

(** [db.select().from(workspaces).where(p)]. *)
Definition select_workspaces (p : Workspace.t -> bool) (d : DB) : list Workspace.t :=
  filter p (workspaces d).

(** [.limit(1)] followed by [const [row] = ...] or by [.get()]. *)
Definition first_row {A : Type} (rows : list A) : option A := hd_error rows.

(** [db.update(workspaces).set(f).where(p).returning()]: every row that
    satisfies [p] is rewritten in place; the rewritten rows are returned. *)
Definition update_workspaces (p : Workspace.t -> bool)
    (f : Workspace.t -> Workspace.t) (d : DB) : list Workspace.t * DB :=
  (map f (filter p (workspaces d)),
   mkDB (map (fun r => if p r then f r else r) (workspaces d)) (postedMessages d)).

(** [db.insert(workspaces).values(row).returning()]: the primary key [id]
    and the unique column [team_id] are checked by the database. *)
Definition insert_workspace (row : Workspace.t) (d : DB)
  : Outcome (Workspace.t * DB) :=
  if existsb (fun r => Workspace.id r =? Workspace.id row) (workspaces d) then
    Threw "UNIQUE constraint failed: workspaces.id"
  else if existsb (fun r => Workspace.teamId r =? Workspace.teamId row) (workspaces d) then
    Threw "UNIQUE constraint failed: workspaces.team_id"
  else
    Val (row, mkDB (workspaces d ++ [row])%list (postedMessages d)).

(** [db.insert(postedMessages).values(row).returning()]: the primary key
    and the foreign key to [workspaces.id] are checked by the database. *)
Definition insert_postedMessage (row : PostedMessage.t) (d : DB)
  : Outcome (PostedMessage.t * DB) :=
  if existsb (fun r => PostedMessage.id r =? PostedMessage.id row) (postedMessages d) then
    Threw "UNIQUE constraint failed: posted_messages.id"
  else if negb (existsb (fun w => Workspace.id w =? PostedMessage.workspaceId row)
                  (workspaces d)) then
    Threw "FOREIGN KEY constraint failed"
  else
    Val (row, mkDB (workspaces d) (postedMessages d ++ [row])%list).

(** Insertion of a row into a list already ordered by [createdAt]
    descending; a row goes before the rows of the same timestamp, so that
    rows of one timestamp come out in the order of the table. *)
Fixpoint insert_desc (x : PostedMessage.t) (l : list PostedMessage.t)
  : list PostedMessage.t :=
  match l with
  | [] => [x]
  | y :: l' =>
      if (PostedMessage.createdAt x <? PostedMessage.createdAt y)%Z
      then y :: insert_desc x l'
      else x :: y :: l'
  end.

(** [.orderBy(desc(postedMessages.createdAt))]. *)
Definition orderBy_createdAt_desc (l : list PostedMessage.t) : list PostedMessage.t :=
  fold_right insert_desc [] l.

Fixpoint insert_ws_desc (x : Workspace.t) (l : list Workspace.t) : list Workspace.t :=
  match l with
  | [] => [x]
  | y :: l' =>
      if (Workspace.createdAt x <? Workspace.createdAt y)%Z
      then y :: insert_ws_desc x l'
      else x :: y :: l'
  end.

(** [.orderBy(desc(workspaces.createdAt))]. *)
Definition orderBy_ws_createdAt_desc (l : list Workspace.t) : list Workspace.t :=
  fold_right insert_ws_desc [] l.

(** [.limit(n).offset(k)] on an ordered result. *)
Definition limit_offset {A : Type} (n k : nat) (rows : list A) : list A :=
  firstn n (skipn k rows).

End Sql.

(* ================================================================== *)
(** * The Slack Web API, as far as the handlers read its responses *)
(* ================================================================== *)

Module SlackApi.

(** [auth.test]. Every field but [ok] is optional in the client's types. *)
Record AuthTestResponse : Type := mkAuth {
  auth_ok : bool;
  team : option string;
  team_id : option string;
  url : option string;
  user_id : option string;
  bot_id : option string
}.

(** One message of [conversations.history]. *)
Record Message : Type := mkMessage {
  msg_text : option string;
  msg_user : option string;
  msg_ts : option string
}.

(** The arguments object of [conversations.history]. *)
Record HistoryArgs : Type := mkHistoryArgs {
  channel : string;
  oldest : option string;
  limit : option nat;
  cursor : option string
}.

(** [conversations.history]: one page and, when the history goes on, the
    cursor of the next page. *)
Record HistoryResponse : Type := mkHistory {
  history_ok : bool;
  messages : option (list Message);
  has_more : bool;
  next_cursor : option string
}.

Record Channel : Type := mkChannel {
  ch_id : option string;
  ch_name : option string;
  is_member : option bool;
  is_private : option bool
}.

(** [conversations.list]. *)
Record ListResponse : Type := mkList {
  list_ok : bool;
  channels : option (list Channel)
}.

(** [conversations.info]. *)
Record InfoResponse : Type := mkInfo {
  info_ok : bool;
  info_channel : option Channel
}.

(** The [message] object of a [chat.postMessage] response. *)
Record PostedInfo : Type := mkPostedInfo {
  client_msg_id : option string;
  message_ts : option string
}.

(** [chat.postMessage]. *)
Record PostMessageResponse : Type := mkPost {
  post_ok : bool;
  ts : option string;
  message : option PostedInfo;
  error : option string
}.

(** One match of [search.messages]. *)
Record Match : Type := mkMatch {
  match_channel_name : option string;
  match_user : option string;
  match_text : option string;
  match_ts : option string;
  match_permalink : option string
}.

(** [search.messages]. *)
Record SearchResponse : Type := mkSearch {
  search_ok : bool;
  matches : option (list Match)
}.

(** A request sent to Slack. The first argument is the token the
    [WebClient] was built with. *)
Inductive Call : Type :=
| auth_test_call (token : string)
| conversations_history_call (token : string) (args : HistoryArgs)
| conversations_list_call (token types : string) (limit : nat)
| conversations_info_call (token channel : string)
| chat_postMessage_call (token channel text : string) (thread_ts : option string)
| search_messages_call (token query : string) (count : nat).

(** The workspace on the other side: what each request is answered with
    (a response, or an exception the client throws).  The client of
    [@slack/web-api] throws on an answer whose [ok] is false, so that the
    responses a handler receives have [ok] set and may lack any other
    field; the handlers test [ok] all the same. *)
Record Slack : Type := mkSlack {
  auth_test : string -> Outcome AuthTestResponse;
  conversations_history : string -> HistoryArgs -> Outcome HistoryResponse;
  conversations_list : string -> string -> nat -> Outcome ListResponse;
  conversations_info : string -> string -> Outcome InfoResponse;
  chat_postMessage :
    string -> string -> string -> option string -> Outcome PostMessageResponse;
  search_messages : string -> string -> nat -> Outcome SearchResponse
}.

End SlackApi.

(* ================================================================== *)
(** * Request handlers as state transformers *)
(* ================================================================== *)

(** What a handler can change or leave a trace in: the database and the
    requests sent to Slack so far (most recent last). *)
Record World : Type := mkWorld {
  database : DB;
  slack_log : list SlackApi.Call
}.

(** What a tool returns to the MCP client: [content[0].text] and
    [isError] (absent reads as [false]). *)
Record ToolResult : Type := mkResult {
  text : string;
  isError : bool
}.

Module Eff.

Definition M (A : Type) : Type := World -> Outcome A * World.

Definition ret {A : Type} (a : A) : M A := fun w => (Val a, w).

Definition bind {A B : Type} (m : M A) (k : A -> M B) : M B :=
  fun w => match m w with
           | (Val a, w') => k a w'
           | (Threw e, w') => (Threw e, w')
           end.

Definition throw {A : Type} (e : string) : M A := fun w => (Threw e, w).

(** [try { m } catch (error) { h(error.message) }]. What [m] wrote before
    it threw stays written: the handlers open no transaction. *)
Definition try_catch {A : Type} (m : M A) (h : string -> M A) : M A :=
  fun w => match m w with
           | (Val a, w') => (Val a, w')
           | (Threw e, w') => h e w'
           end.

(** A read of the database. *)
Definition query {A : Type} (q : DB -> A) : M A :=
  fun w => (Val (q (database w)), w).

(** A statement that writes and returns rows. *)
Definition statement {A : Type} (s : DB -> A * DB) : M A :=
  fun w => let (a, d) := s (database w) in (Val a, mkWorld d (slack_log w)).

(** A statement the database may refuse. *)
Definition checked_statement {A : Type} (s : DB -> Outcome (A * DB)) : M A :=
  fun w => match s (database w) with
           | Val (a, d) => (Val a, mkWorld d (slack_log w))
           | Threw e => (Threw e, w)
           end.

(** A request to Slack: logged, then answered. *)
Definition request {A : Type} (c : SlackApi.Call) (answer : Outcome A) : M A :=
  fun w => (answer, mkWorld (database w) (slack_log w ++ [c])%list).

(** A pure computation that may throw. *)
Definition lift {A : Type} (o : Outcome A) : M A := fun w => (o, w).

(** [xs.map(f)] for a callback that may throw: the first exception ends
    the loop. *)
Fixpoint map_outcome {A B : Type} (f : A -> Outcome B) (xs : list A)
  : Outcome (list B) :=
  match xs with
  | [] => Val []
  | x :: xs' =>
      match f x with
      | Threw e => Threw e
      | Val y => match map_outcome f xs' with
                 | Threw e => Threw e
                 | Val ys => Val (y :: ys)
                 end
      end
  end.

Definition ok_result (t : string) : ToolResult := mkResult t false.
Definition error_result (t : string) : ToolResult := mkResult t true.

End Eff.

Declare Scope eff_scope.
Delimit Scope eff_scope with eff.
Notation "x <- m ;; k" := (Eff.bind m (fun x => k))
  (at level 61, m at next level, right associativity) : eff_scope.

(* ================================================================== *)
(** * [src/src/index.ts] *)
(* ================================================================== *)

Module Index.
Import Eff.
Local Open Scope eff_scope.

Section Handlers.

Variable slack : SlackApi.Slack.
Variable env : Env.

(** [new Date(Number.parseFloat(ts) * 1000).toISOString()]: the runtime's
    date formatting of a Slack timestamp; it throws on an invalid date. *)
Variable ts_toISOString : string -> Outcome string.

(** [date.toISOString()] of a stored [createdAt]; it throws on an invalid
    date, which is what a value written by the column default
    [CURRENT_TIMESTAMP] (a text, in an integer column) is read back as. *)
Variable Date_toISOString : Z -> Outcome string.

(** The lookup every tool but registration starts with:
    [where(and(eq(id, workspace_id), eq(isActive, true))).limit(1)]. *)
Definition find_active_workspace (workspace_id : string) : M (option Workspace.t) :=
  query (fun d => Sql.first_row (Sql.select_workspaces
    (fun r => (Workspace.id r =? workspace_id) && Bool.eqb (Workspace.isActive r) true) d)).

Definition not_found_result : ToolResult :=
  error_result "Workspace not found or inactive".

(** ** configure_workspace *)

(** [.set({...})] of the update branch. *)
Definition set_on_update (teamName workspaceUrl bot_token user_id botId : string)
    (description : option string) (r : Workspace.t) : Workspace.t :=
  Workspace.mk
    (Workspace.id r)
    teamName
    (Workspace.teamId r)
    workspaceUrl
    bot_token
    user_id
    botId
    (JS.or_null description)
    (Workspace.createdAt r)
    (Date_now env / 1000)%Z
    true.

(** [.values({...})] of the insert branch, with the column defaults. *)
Definition new_workspace (teamName teamId workspaceUrl bot_token user_id botId : string)
    (description : option string) : Workspace.t :=
  Workspace.mk
    (randomUUID env)
    teamName
    teamId
    workspaceUrl
    bot_token
    user_id
    botId
    (JS.or_null description)
    (CURRENT_TIMESTAMP env)
    (CURRENT_TIMESTAMP env)
    true.

Definition updated_text (w : Workspace.t) : string :=
  "Workspace updated successfully!" ++ JS.LF ++ JS.LF ++
  "Workspace ID: " ++ Workspace.id w ++ JS.LF ++
  "Team: " ++ Workspace.teamName w ++ JS.LF ++
  "URL: " ++ Workspace.workspaceUrl w ++ JS.LF ++
  "Description: " ++ JS.or_else (Workspace.description w) "None".

Definition configured_text (w : Workspace.t) : string :=
  "Workspace configured successfully!" ++ JS.LF ++ JS.LF ++
  "Workspace ID: " ++ Workspace.id w ++ JS.LF ++
  "Team: " ++ Workspace.teamName w ++ JS.LF ++
  "URL: " ++ Workspace.workspaceUrl w ++ JS.LF ++
  "Description: " ++ JS.or_else (Workspace.description w) "None" ++ JS.LF ++ JS.LF ++
  "You can now use this workspace ID for other Slack operations.".

(** The fields of a verified [auth.test] response: [ok] and a non-empty
    team name, team id, URL and user id, in that order. *)
Definition verified (a : SlackApi.AuthTestResponse)
  : option (string * string * string * string) :=
  match SlackApi.team a, SlackApi.team_id a, SlackApi.url a, SlackApi.user_id a with
  | Some team, Some team_id, Some url, Some user =>
      if SlackApi.auth_ok a && JS.truthy team && JS.truthy team_id
         && JS.truthy url && JS.truthy user
      then Some (team, team_id, url, user)
      else None
  | _, _, _, _ => None
  end.

Definition configure_workspace (bot_token user_id : string)
    (description : option string) : M ToolResult :=
  try_catch
    (authTest <- request (SlackApi.auth_test_call bot_token)
                   (SlackApi.auth_test slack bot_token) ;;
     match verified authTest with
     | None =>
         ret (error_result "Invalid bot token or missing workspace information")
     | Some (team, team_id, url, bot_user) =>
         existingWorkspace <- query (fun d => firstn 1
           (Sql.select_workspaces (fun r => Workspace.teamId r =? team_id) d)) ;;
         if (0 <? List.length existingWorkspace)%nat then
           updated <- statement (Sql.update_workspaces
             (fun r => Workspace.teamId r =? team_id)
             (set_on_update team url bot_token user_id bot_user description)) ;;
           match updated with
           | updatedWorkspace :: _ => ret (ok_result (updated_text updatedWorkspace))
           | [] => throw "Cannot read properties of undefined (reading 'id')"
           end
         else
           inserted <- checked_statement (Sql.insert_workspace
             (new_workspace team team_id url bot_token user_id bot_user description)) ;;
           ret (ok_result (configured_text inserted))
     end)
    (fun message => ret (error_result ("Error configuring workspace: " ++ message))).

(** ** list_workspaces *)

Definition workspace_line (ws : string * option string) : string :=
  "• " ++ fst ws ++
  (if JS.truthy_opt (snd ws) then " - " ++ JS.show (snd ws) else EmptyString).

Definition list_workspaces : M ToolResult :=
  try_catch
    (rows <- query (fun d =>
       map (fun r => (Workspace.teamName r, Workspace.description r))
         (Sql.select_workspaces (fun r => Bool.eqb (Workspace.isActive r) true) d)) ;;
     if (List.length rows =? 0)%nat then
       ret (ok_result "No workspaces configured yet. Use configure_workspace to add one.")
     else
       ret (ok_result ("Configured Workspaces:" ++ JS.LF ++ JS.LF ++
                       JS.join JS.LF (map workspace_line rows))))
    (fun message => ret (error_result ("Error listing workspaces: " ++ message))).

(** ** get_mentions *)

Record Mention : Type := mkMention {
  mention_text : string;
  mention_user : string;
  mention_timestamp : string;
  mention_permalink : string
}.

(** The [filter] callback: the owner's mention token or the channel
    notification token, both matched with the [i] flag. *)
Definition is_mention (owner : string) (msg : SlackApi.Message) : bool :=
  let text := JS.or_else (SlackApi.msg_text msg) EmptyString in
  JS.RegExp_test ["<@" ++ owner ++ ">"] true text
  || JS.RegExp_test ["<!channel>"] true text.

(** The [map] callback. *)
Definition to_mention (workspace : Workspace.t) (channel_id : string)
    (msg : SlackApi.Message) : Outcome Mention :=
  match (match SlackApi.msg_ts msg with
         | Some t => if JS.truthy t then ts_toISOString t else Val "Unknown"
         | None => Val "Unknown"
         end) with
  | Threw e => Threw e
  | Val timestamp =>
      Val (mkMention
             (JS.or_else (SlackApi.msg_text msg) EmptyString)
             (JS.or_else (SlackApi.msg_user msg) "Unknown")
             timestamp
             (Workspace.workspaceUrl workspace ++ "archives/" ++ channel_id ++ "/p" ++
              match SlackApi.msg_ts msg with
              | Some t => JS.replace_dot t
              | None => "undefined"
              end))
  end.

(** The messages kept: filtered, cut to [limit], in the order of the page. *)
Definition select_mentions (owner : string) (limit : nat)
    (page : list SlackApi.Message) : list SlackApi.Message :=
  JS.slice_to limit (filter (is_mention owner) page).

Definition mention_entry (m : Mention) : string :=
  "• " ++ mention_text m ++ JS.LF ++
  "  User: " ++ mention_user m ++ JS.LF ++
  "  Time: " ++ mention_timestamp m ++ JS.LF ++
  "  Link: " ++ mention_permalink m.

Definition mentions_result (days_back : Z) (mentions : list Mention) : ToolResult :=
  if (List.length mentions =? 0)%nat then
    ok_result ("No mentions or channel notifications found in the last " ++
               JS.string_of_Z days_back ++ " day(s)")
  else
    ok_result ("Found " ++ JS.string_of_nat (List.length mentions) ++
               " mention(s) in the last " ++ JS.string_of_Z days_back ++ " day(s):" ++
               JS.LF ++ JS.LF ++ JS.join (JS.LF ++ JS.LF) (map mention_entry mentions)).

(** [Math.floor((Date.now() - days_back * 24 * 60 * 60 * 1000) / 1000)]. *)
Definition oldestTimestamp (days_back : Z) : Z :=
  ((Date_now env - days_back * 24 * 60 * 60 * 1000) / 1000)%Z.

(** The one request for history the handler sends. *)
Definition history_args (channel_id : string) (days_back : Z) : SlackApi.HistoryArgs :=
  SlackApi.mkHistoryArgs channel_id
    (Some (JS.string_of_Z (oldestTimestamp days_back))) (Some 200%nat) None.

Definition get_mentions (workspace_id channel_id : string) (days_back : Z)
    (limit : nat) : M ToolResult :=
  try_catch
    (found <- find_active_workspace workspace_id ;;
     match found with
     | None => ret not_found_result
     | Some workspace =>
         let args := history_args channel_id days_back in
         history <- request
           (SlackApi.conversations_history_call (Workspace.botToken workspace) args)
           (SlackApi.conversations_history slack (Workspace.botToken workspace) args) ;;
         match SlackApi.history_ok history, SlackApi.messages history with
         | true, Some page =>
             mentions <- lift (map_outcome (to_mention workspace channel_id)
                           (select_mentions (Workspace.userId workspace) limit page)) ;;
             ret (mentions_result days_back mentions)
         | _, _ =>
             ret (error_result "Failed to retrieve channel history or no messages found")
         end
     end)
    (fun message => ret (error_result ("Error getting mentions: " ++ message))).

(** ** list_user_channels *)

Record ChannelRow : Type := mkChannelRow {
  row_id : option string;
  row_name : option string;
  row_type : string;
  row_is_member : option bool
}.

Definition channel_rows (type : string) (r : SlackApi.ListResponse) : list ChannelRow :=
  match SlackApi.list_ok r, SlackApi.channels r with
  | true, Some chs =>
      map (fun ch => mkChannelRow (SlackApi.ch_id ch) (SlackApi.ch_name ch) type
                       (SlackApi.is_member ch)) chs
  | _, _ => []
  end.

Definition channel_line (ch : ChannelRow) : string :=
  "• #" ++ JS.show (row_name ch) ++ " (" ++ row_type ch ++ ") - ID: " ++ JS.show (row_id ch) ++
  (if JS.truthy_bool (row_is_member ch) then " ✓" else EmptyString).

Definition list_user_channels (workspace_id : string) (limit : nat)
    (private_only : bool) : M ToolResult :=
  try_catch
    (found <- find_active_workspace workspace_id ;;
     match found with
     | None => ret not_found_result
     | Some workspace =>
         let token := Workspace.botToken workspace in
         public <-
           (if negb private_only then
              publicChannels <- request
                (SlackApi.conversations_list_call token "public_channel" limit)
                (SlackApi.conversations_list slack token "public_channel" limit) ;;
              ret (channel_rows "public" publicChannels)
            else ret []) ;;
         let private_limit :=
           if private_only then limit else Nat.max 1 (limit - List.length public) in
         privateChannels <- request
           (SlackApi.conversations_list_call token "private_channel" private_limit)
           (SlackApi.conversations_list slack token "private_channel" private_limit) ;;
         let channels := (public ++ channel_rows "private" privateChannels)%list in
         if (List.length channels =? 0)%nat then
           ret (ok_result "No channels found")
         else
           ret (ok_result ("Channels (✓ = member):" ++ JS.LF ++ JS.LF ++
                  JS.join JS.LF (map channel_line (JS.slice_to limit channels))))
     end)
    (fun message => ret (error_result ("Error listing channels: " ++ message))).

(** ** post_message *)

(** [channelInfo.ok && channelInfo.channel ? channelInfo.channel.name || channel_id
    : channel_id]. *)
Definition channel_name_of (channelInfo : SlackApi.InfoResponse) (channel_id : string)
  : string :=
  match SlackApi.info_ok channelInfo, SlackApi.info_channel channelInfo with
  | true, Some ch => JS.or_else (SlackApi.ch_name ch) channel_id
  | _, _ => channel_id
  end.

(** [.values({...})] of the ledger insert, with the column defaults. *)
Definition new_postedMessage (workspace : Workspace.t)
    (workspace_id channel_id channelName message_text ts : string)
    (result : SlackApi.PostMessageResponse) : PostedMessage.t :=
  PostedMessage.mk
    (randomUUID env)
    workspace_id
    channel_id
    channelName
    message_text
    ts
    (JS.or_null (match SlackApi.message result with
                 | Some m => SlackApi.client_msg_id m
                 | None => None
                 end))
    (Workspace.userId workspace)
    (CURRENT_TIMESTAMP env).

Definition posted_text (workspace : Workspace.t)
    (channel_id channelName message_text ts : string) (row : PostedMessage.t) : string :=
  "Message posted successfully!" ++ JS.LF ++ JS.LF ++
  "Channel: #" ++ channelName ++ JS.LF ++
  "Message: " ++ message_text ++ JS.LF ++
  "Link: " ++ Workspace.workspaceUrl workspace ++ "archives/" ++ channel_id ++ "/p" ++
    JS.replace_dot ts ++ JS.LF ++
  "Message ID: " ++ PostedMessage.id row.

(** The timestamp of a response the handler takes for a success:
    [result.ok] and a non-empty [result.ts]. *)
Definition sent_ts (result : SlackApi.PostMessageResponse) : option string :=
  match SlackApi.ts result with
  | Some t => if SlackApi.post_ok result && JS.truthy t then Some t else None
  | None => None
  end.

Definition post_message (workspace_id channel_id message_text : string) : M ToolResult :=
  try_catch
    (found <- find_active_workspace workspace_id ;;
     match found with
     | None => ret not_found_result
     | Some workspace =>
         let token := Workspace.botToken workspace in
         channelInfo <- request (SlackApi.conversations_info_call token channel_id)
                          (SlackApi.conversations_info slack token channel_id) ;;
         let channelName := channel_name_of channelInfo channel_id in
         result <- request
           (SlackApi.chat_postMessage_call token channel_id message_text None)
           (SlackApi.chat_postMessage slack token channel_id message_text None) ;;
         match sent_ts result with
         | None => ret (error_result "Failed to post message to Slack")
         | Some ts =>
             postedMessage <- checked_statement (Sql.insert_postedMessage
               (new_postedMessage workspace workspace_id channel_id channelName
                  message_text ts result)) ;;
             ret (ok_result (posted_text workspace channel_id channelName
                               message_text ts postedMessage))
         end
     end)
    (fun message => ret (error_result ("Error posting message: " ++ message))).

(** ** get_posted_messages *)

(** The [map] callback; [msg.createdAt.toISOString()] may throw. *)
Definition posted_entry (workspace : Workspace.t) (msg : PostedMessage.t)
  : Outcome string :=
  match Date_toISOString (PostedMessage.createdAt msg) with
  | Threw e => Threw e
  | Val timestamp =>
      Val ("• #" ++ PostedMessage.channelName msg ++ ": " ++
           PostedMessage.messageText msg ++ JS.LF ++
           "  Posted: " ++ timestamp ++ JS.LF ++
           "  Link: " ++ Workspace.workspaceUrl workspace ++ "archives/" ++
             PostedMessage.channelId msg ++ "/p" ++
             JS.replace_dot (PostedMessage.messageTs msg))
  end.

(** The ledger query of the handler. *)
Definition posted_rows (workspace_id : string) (limit : nat) (d : DB)
  : list PostedMessage.t :=
  Sql.limit_offset limit 0
    (Sql.orderBy_createdAt_desc
       (filter (fun m => PostedMessage.workspaceId m =? workspace_id) (postedMessages d))).

Definition get_posted_messages (workspace_id : string) (limit : nat) : M ToolResult :=
  try_catch
    (found <- find_active_workspace workspace_id ;;
     match found with
     | None => ret not_found_result
     | Some workspace =>
         messages <- query (posted_rows workspace_id limit) ;;
         if (List.length messages =? 0)%nat then
           ret (ok_result "No messages have been posted through this MCP server yet")
         else
           entries <- lift (map_outcome (posted_entry workspace) messages) ;;
           ret (ok_result ("Posted Messages (" ++ JS.string_of_nat (List.length messages) ++
                  "):" ++ JS.LF ++ JS.LF ++ JS.join (JS.LF ++ JS.LF) entries))
     end)
    (fun message => ret (error_result ("Error getting posted messages: " ++ message))).

End Handlers.
End Index.

(* ================================================================== *)
(** * [src/unnamed/part_000], first source text (lines 1-629) *)
(* ================================================================== *)

Module PartA.
Import Eff.
Local Open Scope eff_scope.

Section Handlers.

Variable slack : SlackApi.Slack.
Variable env : Env.

(** [new Date(Number.parseFloat(ts) * 1000).toLocaleString()]. *)
Variable ts_toLocaleString : string -> string.

(** The lookup of this variant: [where(eq(id, workspace_id)).limit(1)]. *)
Definition find_workspace (workspace_id : string) : M (option Workspace.t) :=
  query (fun d => Sql.first_row
    (Sql.select_workspaces (fun r => Workspace.id r =? workspace_id) d)).

Record Mention : Type := mkMention {
  mention_text : string;
  mention_timestamp : string;
  mention_user : option string;
  mention_permalink : string
}.

(** The [filter] callback: [msg.text && mentionPattern.test(msg.text)]
    with the pattern [<@owner>|<!channel>|<!here>] and no flag. *)
Definition is_mention (owner : string) (msg : SlackApi.Message) : bool :=
  match SlackApi.msg_text msg with
  | Some text =>
      JS.truthy text
      && JS.RegExp_test ["<@" ++ owner ++ ">"; "<!channel>"; "<!here>"] false text
  | None => false
  end.

(** The [map] callback; [msg.ts.replace] throws on a message without
    timestamp. *)
Definition to_mention (workspace : Workspace.t) (channel_id : string)
    (msg : SlackApi.Message) : Outcome Mention :=
  match SlackApi.msg_ts msg with
  | None => Threw "Cannot read properties of undefined (reading 'replace')"
  | Some ts =>
      Val (mkMention
             (JS.or_else (SlackApi.msg_text msg) EmptyString)
             ts
             (SlackApi.msg_user msg)
             (Workspace.workspaceUrl workspace ++ "archives/" ++ channel_id ++ "/p" ++
              JS.replace_dot ts))
  end.

Definition select_mentions (owner : string) (limit : nat)
    (page : list SlackApi.Message) : list SlackApi.Message :=
  JS.slice_to limit (filter (is_mention owner) page).

(** [text.substring(0, 100)] followed by three dots when text is longer;
    characters are counted as the string holds them. *)
Definition preview (s : string) : string :=
  JS.slice0 100 s ++ (if (100 <? String.length s)%nat then "..." else EmptyString).

Definition mention_entry (m : Mention) : string :=
  "• " ++ preview (mention_text m) ++ JS.LF ++
  "  User: " ++ JS.or_else (mention_user m) "Unknown" ++
  " | Time: " ++ ts_toLocaleString (mention_timestamp m) ++ JS.LF ++
  "  Link: " ++ mention_permalink m.

Definition mentions_result (days_back : Z) (mentions : list Mention) : ToolResult :=
  if (List.length mentions =? 0)%nat then
    ok_result ("No mentions found in the last " ++ JS.string_of_Z days_back ++
               " day(s) in this channel.")
  else
    ok_result ("Found " ++ JS.string_of_nat (List.length mentions) ++
               " mention(s) in the last " ++ JS.string_of_Z days_back ++ " day(s):" ++
               JS.LF ++ JS.LF ++ JS.join (JS.LF ++ JS.LF) (map mention_entry mentions)).

Definition oldest (days_back : Z) : Z :=
  ((Date_now env - days_back * 24 * 60 * 60 * 1000) / 1000)%Z.

Definition history_args (channel_id : string) (days_back : Z) : SlackApi.HistoryArgs :=
  SlackApi.mkHistoryArgs channel_id
    (Some (JS.string_of_Z (oldest days_back))) (Some 100%nat) None.

Definition get_mentions (workspace_id channel_id : string) (days_back : Z)
    (limit : nat) : M ToolResult :=
  try_catch
    (found <- find_workspace workspace_id ;;
     match found with
     | None => ret (error_result "Workspace not found. Please check the workspace ID.")
     | Some workspace =>
         let args := history_args channel_id days_back in
         result <- request
           (SlackApi.conversations_history_call (Workspace.botToken workspace) args)
           (SlackApi.conversations_history slack (Workspace.botToken workspace) args) ;;
         if negb (SlackApi.history_ok result) then
           ret (error_result
             "Failed to retrieve messages. Check if the bot has access to this channel.")
         else
           match SlackApi.messages result with
           | None => throw "Cannot read properties of undefined (reading 'filter')"
           | Some page =>
               mentions <- lift (map_outcome (to_mention workspace channel_id)
                             (select_mentions (Workspace.userId workspace) limit page)) ;;
               ret (mentions_result days_back mentions)
           end
     end)
    (fun message => ret (error_result ("Error retrieving mentions: " ++ message))).

(** ** list_workspaces *)

Definition workspace_line (ws : Workspace.t) : string :=
  "• " ++ Workspace.teamName ws ++ " (ID: " ++ Workspace.id ws ++ ")" ++
  (if JS.truthy_opt (Workspace.description ws)
   then " - " ++ JS.show (Workspace.description ws) else EmptyString).

(** The rows the handler selects: the active ones, by creation time
    descending. *)
Definition listed_workspaces (d : DB) : list Workspace.t :=
  Sql.orderBy_ws_createdAt_desc
    (Sql.select_workspaces (fun r => Bool.eqb (Workspace.isActive r) true) d).

Definition list_workspaces : M ToolResult :=
  try_catch
    (rows <- query listed_workspaces ;;
     if (List.length rows =? 0)%nat then
       ret (ok_result "No workspaces configured. Use configure_workspace to add a workspace.")
     else
       ret (ok_result ("Configured Workspaces:" ++ JS.LF ++ JS.LF ++
                       JS.join JS.LF (map workspace_line rows))))
    (fun message => ret (error_result ("Error listing workspaces: " ++ message))).

(** ** list_user_channels *)

(** [channel.topic?.value], a field of the channel object that the record
    of channels does not carry. *)
Variable topic_value : SlackApi.Channel -> option string.

(** The two [filter] calls and the [slice]. *)
Definition listed_channels (private_only : bool) (limit : nat)
    (channels : list SlackApi.Channel) : list SlackApi.Channel :=
  JS.slice_to limit
    (filter (fun channel => JS.truthy_bool (SlackApi.is_member channel))
       (filter (fun channel => if private_only
                               then JS.truthy_bool (SlackApi.is_private channel)
                               else true) channels)).

Definition channel_line (channel : SlackApi.Channel) : string :=
  "• #" ++ JS.show (SlackApi.ch_name channel) ++ " (" ++ JS.show (SlackApi.ch_id channel) ++
  ") - " ++ (if JS.truthy_bool (SlackApi.is_private channel) then "Private" else "Public") ++
  (if JS.truthy_opt (topic_value channel)
   then " - " ++ JS.show (topic_value channel) else EmptyString).

(** The [types] argument of the one request. *)
Definition channel_types (private_only : bool) : string :=
  if private_only then "private_channel" else "public_channel,private_channel".

Definition list_user_channels (workspace_id : string) (limit : nat)
    (private_only : bool) : M ToolResult :=
  try_catch
    (found <- find_workspace workspace_id ;;
     match found with
     | None => ret (error_result "Workspace not found. Please check the workspace ID.")
     | Some workspace =>
         let token := Workspace.botToken workspace in
         result <- request
           (SlackApi.conversations_list_call token (channel_types private_only) limit)
           (SlackApi.conversations_list slack token (channel_types private_only) limit) ;;
         if negb (SlackApi.list_ok result) then
           ret (error_result "Failed to retrieve channels.")
         else
           match SlackApi.channels result with
           | None => throw "Cannot read properties of undefined (reading 'filter')"
           | Some all_channels =>
               let channels := listed_channels private_only limit all_channels in
               if (List.length channels =? 0)%nat then
                 ret (ok_result
                   (if private_only
                    then "No private channels found that the bot is a member of."
                    else "No channels found that the bot is a member of."))
               else
                 ret (ok_result ("Channels (" ++ JS.string_of_nat (List.length channels) ++
                        "):" ++ JS.LF ++ JS.LF ++ JS.join JS.LF (map channel_line channels)))
           end
     end)
    (fun message => ret (error_result ("Error listing channels: " ++ message))).

(** ** post_message *)

(** A value stored in a NOT NULL column must not be [undefined]. *)
Definition not_null (column : string) (o : option string) : Outcome string :=
  match o with
  | Some s => Val s
  | None => Threw ("NOT NULL constraint failed: " ++ column)
  end.

Definition posted_text (channel : SlackApi.Channel) (workspace : Workspace.t)
    (channel_id message_text ts : string) (row : PostedMessage.t) : string :=
  "Message posted successfully!" ++ JS.LF ++ JS.LF ++
  "Channel: #" ++ JS.show (SlackApi.ch_name channel) ++ JS.LF ++
  "Message: " ++ message_text ++ JS.LF ++
  "Timestamp: " ++ ts ++ JS.LF ++
  "Link: " ++ Workspace.workspaceUrl workspace ++ "archives/" ++ channel_id ++ "/p" ++
    JS.replace_dot ts ++ JS.LF ++ JS.LF ++
  "Message ID: " ++ PostedMessage.id row.

Definition post_message (workspace_id channel_id message_text : string) : M ToolResult :=
  try_catch
    (found <- find_workspace workspace_id ;;
     match found with
     | None => ret (error_result "Workspace not found. Please check the workspace ID.")
     | Some workspace =>
         let token := Workspace.botToken workspace in
         channelInfo <- request (SlackApi.conversations_info_call token channel_id)
                          (SlackApi.conversations_info slack token channel_id) ;;
         match SlackApi.info_ok channelInfo, SlackApi.info_channel channelInfo with
         | true, Some channel =>
             result <- request
               (SlackApi.chat_postMessage_call token channel_id message_text None)
               (SlackApi.chat_postMessage slack token channel_id message_text None) ;;
             if negb (SlackApi.post_ok result) then
               ret (error_result
                 "Failed to post message. Check if the bot has permission to post in this channel.")
             else
               match SlackApi.message result with
               | None => throw "Cannot read properties of undefined (reading 'ts')"
               | Some posted =>
                   ts <- lift (not_null "posted_messages.message_ts" (SlackApi.ts result)) ;;
                   postedMessage <- checked_statement (Sql.insert_postedMessage
                     (PostedMessage.mk (randomUUID env) workspace_id channel_id
                        (JS.or_else (SlackApi.ch_name channel) "unknown")
                        message_text ts (SlackApi.message_ts posted)
                        (Workspace.userId workspace) (CURRENT_TIMESTAMP env))) ;;
                   ret (ok_result (posted_text channel workspace channel_id message_text ts
                                     postedMessage))
               end
         | _, _ =>
             ret (error_result
               "Channel not found or bot doesn't have access to this channel.")
         end
     end)
    (fun message => ret (error_result ("Error posting message: " ++ message))).

(** ** get_posted_messages *)

(** [date.toLocaleString()] of a stored [createdAt]. *)
Variable Date_toLocaleString : Z -> string.

Definition posted_entry (workspace : Workspace.t) (msg : PostedMessage.t) : string :=
  "• #" ++ PostedMessage.channelName msg ++ ": " ++ preview (PostedMessage.messageText msg) ++
  JS.LF ++
  "  Posted: " ++ Date_toLocaleString (PostedMessage.createdAt msg) ++ JS.LF ++
  "  Link: " ++ Workspace.workspaceUrl workspace ++ "archives/" ++
    PostedMessage.channelId msg ++ "/p" ++ JS.replace_dot (PostedMessage.messageTs msg).

Definition posted_rows (workspace_id : string) (limit : nat) (d : DB)
  : list PostedMessage.t :=
  Sql.limit_offset limit 0
    (Sql.orderBy_createdAt_desc
       (filter (fun m => PostedMessage.workspaceId m =? workspace_id) (postedMessages d))).

Definition get_posted_messages (workspace_id : string) (limit : nat) : M ToolResult :=
  try_catch
    (found <- find_workspace workspace_id ;;
     match found with
     | None => ret (error_result "Workspace not found. Please check the workspace ID.")
     | Some workspace =>
         messages <- query (posted_rows workspace_id limit) ;;
         if (List.length messages =? 0)%nat then
           ret (ok_result
             "No messages have been posted through this MCP server for this workspace.")
         else
           ret (ok_result ("Posted Messages (" ++ JS.string_of_nat (List.length messages) ++
                  "):" ++ JS.LF ++ JS.LF ++
                  JS.join (JS.LF ++ JS.LF) (map (posted_entry workspace) messages)))
     end)
    (fun message => ret (error_result ("Error retrieving posted messages: " ++ message))).

End Handlers.
End PartA.

(* ================================================================== *)
(** * [src/unnamed/part_000], second source text (lines 629-1180) *)
(* ================================================================== *)

(** The values the handlers of this variant pass to [JSON.stringify]. *)
Inductive JSON : Type :=
| JUndefined
| JNull
| JBool (b : bool)
| JString (s : string)
| JDate (seconds : Z)
| JArray (items : list JSON)
| JObject (fields : list (string * JSON)).

Definition JSON_of_option (o : option string) : JSON :=
  match o with Some s => JString s | None => JUndefined end.

Definition JSON_of_nullable (o : option string) : JSON :=
  match o with Some s => JString s | None => JNull end.

Module PartB.
Import Eff.
Local Open Scope eff_scope.

(** What [encrypt] and [decrypt] use of the Web platform, with the part
    of each interface's contract the code relies on.  [btoa] and [atob]
    stand for the conversion between bytes and base64 text that the code
    writes with [String.fromCharCode] and [charCodeAt]; [subtle_encrypt]
    and [subtle_decrypt] are AES-GCM under an imported key, the
    ciphertext ending in the 16-byte authentication tag. *)
Record Platform : Type := mkPlatform {
  TextEncoder_encode : string -> list byte;
  TextDecoder_decode : list byte -> string;
  btoa : list byte -> string;
  atob : string -> Outcome (list byte);
  subtle_encrypt : list byte -> list byte -> list byte -> list byte;
  subtle_decrypt : list byte -> list byte -> list byte -> Outcome (list byte);
  (** The strings that survive encoding and decoding: no unpaired
      surrogate, no leading byte-order mark. *)
  scalar : string -> bool;
  decode_encode : forall s, scalar s = true -> TextDecoder_decode (TextEncoder_encode s) = s;
  atob_btoa : forall bytes, atob (btoa bytes) = Val bytes;
  decrypt_encrypt : forall key iv data,
    subtle_decrypt key iv (subtle_encrypt key iv data) = Val data;
  tag_length : forall key iv data,
    (List.length data < 16)%nat -> exists e, subtle_decrypt key iv data = Threw e
}.

(** [crypto.subtle.importKey('raw', keyData, { name: 'AES-GCM' }, ...)]:
    an AES key is 128, 192 or 256 bits long. *)
Definition importKey (keyData : list byte) : Outcome (list byte) :=
  let n := List.length keyData in
  if (n =? 16)%nat || (n =? 24)%nat || (n =? 32)%nat then Val keyData
  else Threw "DataError: Invalid key length".

(** [key.slice(0, 32).padEnd(32, '0')].  Characters are counted as the
    string holds them; for a key of ASCII characters this is the count
    JavaScript makes. *)
Definition key_text (key : string) : string :=
  JS.padEnd 32 "0"%char (JS.slice0 32 key).

Section Cipher.

Variable platform : Platform.

Definition encrypt (text key : string) (iv : list byte) : Outcome string :=
  let data := TextEncoder_encode platform text in
  let keyData := TextEncoder_encode platform (key_text key) in
  match importKey keyData with
  | Threw e => Threw e
  | Val cryptoKey =>
      let encrypted := subtle_encrypt platform cryptoKey iv data in
      Val (btoa platform (iv ++ encrypted)%list)
  end.

Definition decrypt (encryptedText key : string) : Outcome string :=
  match atob platform encryptedText with
  | Threw e => Threw e
  | Val data =>
      let keyData := TextEncoder_encode platform (key_text key) in
      match importKey keyData with
      | Threw e => Threw e
      | Val cryptoKey =>
          let iv := firstn 12 data in
          let encrypted := skipn 12 data in
          match subtle_decrypt platform cryptoKey iv encrypted with
          | Threw e => Threw e
          | Val decrypted => Val (TextDecoder_decode platform decrypted)
          end
      end
  end.

End Cipher.

Section Handlers.

Variable platform : Platform.
Variable slack : SlackApi.Slack.
Variable env : Env.

(** [env.ENCRYPTION_KEY]. *)
Variable ENCRYPTION_KEY : string.

(** [crypto.getRandomValues(new Uint8Array(12))] of this request. *)
Variable getRandomValues : list byte.

(** [JSON.stringify(value, null, 2)]. *)
Variable JSON_stringify : JSON -> string.

(** [Number.parseFloat(ts) >= oldest]. *)
Variable parseFloat_ge : option string -> Z -> bool.

(** A value bound to a statement must not be [undefined]. *)
Definition bound (column : string) (o : option string) : Outcome string :=
  match o with
  | Some s => Val s
  | None => Threw ("NOT NULL constraint failed: " ++ column)
  end.

(** [where(eq(id, workspace_id)).get()]. *)
Definition find_workspace (workspace_id : string) : M (option Workspace.t) :=
  query (fun d => Sql.first_row
    (Sql.select_workspaces (fun r => Workspace.id r =? workspace_id) d)).

(** ** configure_workspace *)

(** A column of [.set({...})]: an [undefined] value leaves the column as
    it is. *)
Definition set_column (o : option string) (old : string) : string :=
  match o with Some s => s | None => old end.

Definition set_on_update (a : SlackApi.AuthTestResponse) (encryptedToken : string)
    (description : option string) (r : Workspace.t) : Workspace.t :=
  Workspace.mk
    (Workspace.id r)
    (set_column (SlackApi.team a) (Workspace.teamName r))
    (Workspace.teamId r)
    (set_column (SlackApi.url a) (Workspace.workspaceUrl r))
    encryptedToken
    (set_column (SlackApi.user_id a) (Workspace.userId r))
    (set_column (SlackApi.bot_id a) (Workspace.botId r))
    (JS.or_null description)
    (Workspace.createdAt r)
    (Date_now env / 1000)%Z
    (Workspace.isActive r).

Definition new_workspace (a : SlackApi.AuthTestResponse) (team_id encryptedToken : string)
    (description : option string) : Outcome Workspace.t :=
  match bound "workspaces.team_name" (SlackApi.team a) with
  | Threw e => Threw e
  | Val team =>
  match bound "workspaces.workspace_url" (SlackApi.url a) with
  | Threw e => Threw e
  | Val url =>
  match bound "workspaces.user_id" (SlackApi.user_id a) with
  | Threw e => Threw e
  | Val user_id =>
  match bound "workspaces.bot_id" (SlackApi.bot_id a) with
  | Threw e => Threw e
  | Val bot_id =>
      Val (Workspace.mk (randomUUID env) team team_id url encryptedToken user_id bot_id
             (JS.or_null description) (CURRENT_TIMESTAMP env) (CURRENT_TIMESTAMP env) true)
  end end end end.

Definition configured_text (w : Workspace.t) : string :=
  "Workspace configured successfully:" ++ JS.LF ++
  "- Name: " ++ Workspace.teamName w ++ JS.LF ++
  "- ID: " ++ Workspace.id w ++ JS.LF ++
  "- URL: " ++ Workspace.workspaceUrl w ++ JS.LF ++
  "- Description: " ++ JS.or_else (Workspace.description w) "None".

Definition configure_workspace (bot_token : string) (description : option string)
  : M ToolResult :=
  try_catch
    (authResponse <- request (SlackApi.auth_test_call bot_token)
                       (SlackApi.auth_test slack bot_token) ;;
     if negb (SlackApi.auth_ok authResponse) then
       ret (error_result "Invalid Slack bot token")
     else
       encryptedToken <- lift (encrypt platform bot_token ENCRYPTION_KEY getRandomValues) ;;
       team_id <- lift (bound "workspaces.team_id" (SlackApi.team_id authResponse)) ;;
       existingWorkspace <- query (fun d => Sql.first_row
         (Sql.select_workspaces (fun r => Workspace.teamId r =? team_id) d)) ;;
       workspace <-
         match existingWorkspace with
         | Some _ =>
             updated <- statement (Sql.update_workspaces
               (fun r => Workspace.teamId r =? team_id)
               (set_on_update authResponse encryptedToken description)) ;;
             match updated with
             | w :: _ => ret w
             | [] => throw "Cannot read properties of undefined (reading 'teamName')"
             end
         | None =>
             row <- lift (new_workspace authResponse team_id encryptedToken description) ;;
             checked_statement (Sql.insert_workspace row)
         end ;;
       ret (ok_result (configured_text workspace)))
    (fun message => ret (error_result ("Error configuring workspace: " ++ message))).

(** ** list_workspaces *)

Definition workspace_summary (ws : Workspace.t) : JSON :=
  JObject [("id", JString (Workspace.id ws));
           ("name", JString (Workspace.teamName ws));
           ("url", JString (Workspace.workspaceUrl ws));
           ("description", JSON_of_nullable (Workspace.description ws));
           ("created_at", JDate (Workspace.createdAt ws))].

(** The rows the handler selects:
    [where(and(eq(userId, user_context), eq(isActive, true)))]. *)
Definition owned_workspaces (user_context : string) (d : DB) : list Workspace.t :=
  Sql.select_workspaces
    (fun r => (Workspace.userId r =? user_context) && Bool.eqb (Workspace.isActive r) true) d.

Definition list_workspaces (user_context : string) : M ToolResult :=
  try_catch
    (rows <- query (owned_workspaces user_context) ;;
     ret (ok_result ("Found " ++ JS.string_of_nat (List.length rows) ++ " workspace(s):" ++
                     JS.LF ++ JSON_stringify (JArray (map workspace_summary rows)))))
    (fun message => ret (error_result ("Error listing workspaces: " ++ message))).

(** ** get_mentions *)

Definition oldest (days_back : Z) : Z :=
  ((Date_now env - days_back * 24 * 60 * 60 * 1000) / 1000)%Z.

Definition match_summary (m : SlackApi.Match) : JSON :=
  JObject [("channel", JSON_of_option (SlackApi.match_channel_name m));
           ("user", JSON_of_option (SlackApi.match_user m));
           ("text", JSON_of_option (SlackApi.match_text m));
           ("timestamp", JSON_of_option (SlackApi.match_ts m));
           ("permalink", JSON_of_option (SlackApi.match_permalink m))].

Definition get_mentions (workspace_id : string) (days_back : Z) (limit : nat)
  : M ToolResult :=
  try_catch
    (found <- find_workspace workspace_id ;;
     match found with
     | None => ret (error_result "Workspace not found")
     | Some workspace =>
         botToken <- lift (decrypt platform (Workspace.botToken workspace) ENCRYPTION_KEY) ;;
         let query_text := "<@" ++ Workspace.userId workspace ++ ">" in
         searchResult <- request (SlackApi.search_messages_call botToken query_text limit)
                           (SlackApi.search_messages slack botToken query_text limit) ;;
         match SlackApi.search_ok searchResult, SlackApi.matches searchResult with
         | true, Some found_matches =>
             let mentions := JS.slice_to limit
               (filter (fun m => parseFloat_ge (SlackApi.match_ts m) (oldest days_back))
                  found_matches) in
             ret (ok_result ("Found " ++ JS.string_of_nat (List.length mentions) ++
                    " mention(s) in the last " ++ JS.string_of_Z days_back ++ " day(s):" ++
                    JS.LF ++ JSON_stringify (JArray (map match_summary mentions))))
         | _, _ => ret (ok_result "No mentions found or search failed")
         end
     end)
    (fun message => ret (error_result ("Error getting mentions: " ++ message))).

(** ** post_message *)

Definition channel_name_of (channelInfo : SlackApi.InfoResponse) (channel_id : string)
  : string :=
  match SlackApi.info_ok channelInfo, SlackApi.info_channel channelInfo with
  | true, Some ch => JS.or_else (SlackApi.ch_name ch) channel_id
  | _, _ => channel_id
  end.

Definition new_postedMessage (workspace : Workspace.t)
    (workspace_id channel_id channelName message_text ts : string)
    (result : SlackApi.PostMessageResponse) : PostedMessage.t :=
  PostedMessage.mk
    (randomUUID env)
    workspace_id
    channel_id
    channelName
    message_text
    ts
    (JS.or_null (match SlackApi.message result with
                 | Some m => SlackApi.client_msg_id m
                 | None => None
                 end))
    (Workspace.userId workspace)
    (CURRENT_TIMESTAMP env).

Definition posted_text (channelName message_text : string)
    (result : SlackApi.PostMessageResponse) (row : PostedMessage.t) : string :=
  "Message posted successfully to #" ++ channelName ++ ":" ++ JS.LF ++
  "- Message ID: " ++ PostedMessage.id row ++ JS.LF ++
  "- Slack TS: " ++ JS.show (SlackApi.ts result) ++ JS.LF ++
  "- Content: " ++ JS.DQ ++ message_text ++ JS.DQ.

Definition post_message (workspace_id channel_id message_text : string)
    (thread_ts : option string) : M ToolResult :=
  try_catch
    (found <- find_workspace workspace_id ;;
     match found with
     | None => ret (error_result "Workspace not found")
     | Some workspace =>
         botToken <- lift (decrypt platform (Workspace.botToken workspace) ENCRYPTION_KEY) ;;
         channelInfo <- request (SlackApi.conversations_info_call botToken channel_id)
                          (SlackApi.conversations_info slack botToken channel_id) ;;
         let channelName := channel_name_of channelInfo channel_id in
         result <- request
           (SlackApi.chat_postMessage_call botToken channel_id message_text thread_ts)
           (SlackApi.chat_postMessage slack botToken channel_id message_text thread_ts) ;;
         if negb (SlackApi.post_ok result) then
           ret (error_result ("Failed to post message: " ++
                              JS.show (SlackApi.error result)))
         else
           ts <- lift (bound "posted_messages.message_ts" (SlackApi.ts result)) ;;
           postedMessage <- checked_statement (Sql.insert_postedMessage
             (new_postedMessage workspace workspace_id channel_id channelName
                message_text ts result)) ;;
           ret (ok_result (posted_text channelName message_text result postedMessage))
     end)
    (fun message => ret (error_result ("Error posting message: " ++ message))).

(** ** get_posted_messages *)

(** What [if (argument) conditions.push(eq(column, argument))] pushes: a
    filter when the argument is truthy, nothing otherwise. *)
Definition condition (column : PostedMessage.t -> string) (argument : option string)
  : list (PostedMessage.t -> bool) :=
  match argument with
  | Some s => if JS.truthy s then [fun m => column m =? s] else []
  | None => []
  end.

(** The [conditions] array. *)
Definition conditions (workspace_id channel_id : option string)
  : list (PostedMessage.t -> bool) :=
  (condition PostedMessage.workspaceId workspace_id
   ++ condition PostedMessage.channelId channel_id)%list.

(** [and(...conditions)]. *)
Definition and_all (cs : list (PostedMessage.t -> bool)) (m : PostedMessage.t) : bool :=
  forallb (fun c => c m) cs.

(** The query: ordered, paginated, filtered when a condition was pushed. *)
Definition posted_rows (workspace_id channel_id : option string) (limit offset : nat)
    (d : DB) : list PostedMessage.t :=
  let cs := conditions workspace_id channel_id in
  if (0 <? List.length cs)%nat then
    Sql.limit_offset limit offset
      (Sql.orderBy_createdAt_desc (filter (and_all cs) (postedMessages d)))
  else
    Sql.limit_offset limit offset (Sql.orderBy_createdAt_desc (postedMessages d)).

Definition posted_summary (msg : PostedMessage.t) : JSON :=
  JObject [("id", JString (PostedMessage.id msg));
           ("workspace_id", JString (PostedMessage.workspaceId msg));
           ("channel_id", JString (PostedMessage.channelId msg));
           ("channel_name", JString (PostedMessage.channelName msg));
           ("message_text", JString (PostedMessage.messageText msg));
           ("message_ts", JString (PostedMessage.messageTs msg));
           ("slack_message_id", JSON_of_nullable (PostedMessage.slackMessageId msg));
           ("user_id", JString (PostedMessage.userId msg));
           ("created_at", JDate (PostedMessage.createdAt msg))].

Definition get_posted_messages (workspace_id channel_id : option string)
    (limit offset : nat) : M ToolResult :=
  try_catch
    (messages <- query (posted_rows workspace_id channel_id limit offset) ;;
     ret (ok_result ("Found " ++ JS.string_of_nat (List.length messages) ++
                     " posted message(s):" ++ JS.LF ++
                     JSON_stringify (JArray (map posted_summary messages)))))
    (fun message => ret (error_result ("Error getting posted messages: " ++ message))).

(** ** list_user_channels *)

(** [ch.purpose?.value], a field of the channel object that the record of
    channels does not carry. *)
Variable purpose_value : SlackApi.Channel -> option string.

Definition channel_summary (is_private : bool) (ch : SlackApi.Channel) : JSON :=
  JObject [("id", JSON_of_option (SlackApi.ch_id ch));
           ("name", JSON_of_option (SlackApi.ch_name ch));
           ("is_private", JBool is_private);
           ("is_member", match SlackApi.is_member ch with
                         | Some b => JBool b
                         | None => JUndefined
                         end);
           ("purpose", JSON_of_option (purpose_value ch))].

(** What one answer of [conversations.list] adds to [channels]. *)
Definition pushed (is_private : bool) (r : SlackApi.ListResponse) : list JSON :=
  match SlackApi.list_ok r, SlackApi.channels r with
  | true, Some chs => map (channel_summary is_private) chs
  | _, _ => []
  end.

Definition list_user_channels (workspace_id : string) (limit : nat)
    (include_private : bool) : M ToolResult :=
  try_catch
    (found <- find_workspace workspace_id ;;
     match found with
     | None => ret (error_result "Workspace not found")
     | Some workspace =>
         botToken <- lift (decrypt platform (Workspace.botToken workspace) ENCRYPTION_KEY) ;;
         publicChannels <- request
           (SlackApi.conversations_list_call botToken "public_channel" limit)
           (SlackApi.conversations_list slack botToken "public_channel" limit) ;;
         private <-
           (if include_private then
              privateChannels <- request
                (SlackApi.conversations_list_call botToken "private_channel" limit)
                (SlackApi.conversations_list slack botToken "private_channel" limit) ;;
              ret (pushed true privateChannels)
            else ret []) ;;
         let channels := (pushed false publicChannels ++ private)%list in
         ret (ok_result ("Found " ++ JS.string_of_nat (List.length channels) ++
                " channel(s):" ++ JS.LF ++
                JSON_stringify (JArray (JS.slice_to limit channels))))
     end)
    (fun message => ret (error_result ("Error listing channels: " ++ message))).

End Handlers.
End PartB.

(* ================================================================== *)
(** * [src/src/index.ts]: the REST endpoint for posting *)
(* ================================================================== *)

Module Rest.
Import Eff.
Local Open Scope eff_scope.

(** What the handler reads of the request body: three fields, each a
    string or absent. *)
Record PostBody : Type := mkBody {
  workspace_id : option string;
  channel_id : option string;
  message_text : option string
}.

(** [c.json(body, status)]. *)
Record Response : Type := mkResponse {
  status : nat;
  body : JSON
}.

Section Endpoint.

Variable slack : SlackApi.Slack.
Variable env : Env.

(** [new Date().toISOString()], from the clock in milliseconds. *)
Variable now_toISOString : Z -> string.

Definition success_body (workspace : Workspace.t) (channel_id channelName message_text
    ts : string) (row : PostedMessage.t) : JSON :=
  JObject [("success", JBool true);
           ("data", JObject
              [("message_id", JString (PostedMessage.id row));
               ("channel_name", JString channelName);
               ("channel_id", JString channel_id);
               ("message_text", JString message_text);
               ("slack_timestamp", JString ts);
               ("permalink", JString (Workspace.workspaceUrl workspace ++ "archives/" ++
                                      channel_id ++ "/p" ++ JS.replace_dot ts));
               ("posted_at", JString (now_toISOString (Date_now env)))])].

(** [app.post("/api/post-message", ...)]; the argument is what
    [await c.req.json()] gives, or the exception it throws. *)
Definition post_message (request_body : Outcome PostBody) : M Response :=
  try_catch
    (fields <- lift request_body ;;
     match workspace_id fields, channel_id fields, message_text fields with
     | Some workspace_id, Some channel_id, Some message_text =>
         if negb (JS.truthy workspace_id && JS.truthy channel_id && JS.truthy message_text)
         then ret (mkResponse 400 (JObject [("error",
                JString "Missing required fields: workspace_id, channel_id, message_text")]))
         else
           found <- Index.find_active_workspace workspace_id ;;
           match found with
           | None =>
               ret (mkResponse 404
                      (JObject [("error", JString "Workspace not found or inactive")]))
           | Some workspace =>
               let token := Workspace.botToken workspace in
               channelInfo <- request (SlackApi.conversations_info_call token channel_id)
                                (SlackApi.conversations_info slack token channel_id) ;;
               let channelName := Index.channel_name_of channelInfo channel_id in
               result <- request
                 (SlackApi.chat_postMessage_call token channel_id message_text None)
                 (SlackApi.chat_postMessage slack token channel_id message_text None) ;;
               match Index.sent_ts result with
               | None =>
                   ret (mkResponse 500
                          (JObject [("error", JString "Failed to post message to Slack");
                                    ("slack_error", JSON_of_option (SlackApi.error result))]))
               | Some ts =>
                   postedMessage <- checked_statement (Sql.insert_postedMessage
                     (Index.new_postedMessage env workspace workspace_id channel_id
                        channelName message_text ts result)) ;;
                   ret (mkResponse 200
                          (success_body workspace channel_id channelName message_text ts
                             postedMessage))
               end
           end
     | _, _, _ =>
         ret (mkResponse 400 (JObject [("error",
                JString "Missing required fields: workspace_id, channel_id, message_text")]))
     end)
    (fun message =>
       ret (mkResponse 500 (JObject [("error", JString "Internal server error");
                                     ("details", JString message)]))).

End Endpoint.
End Rest.

(* ================================================================== *)
(** * Predicates of the statements, and a small workspace to run on *)
(* ================================================================== *)

Module Spec.

(** A row of team [T] carries what a registration writes: name, URL,
    credential, owner, bot id, description, update time, and it is
    active. *)
Definition written_by (T name url token owner bot : string)
    (description : option string) (time : Z) (r : Workspace.t) : Prop :=
  Workspace.teamId r = T ->
  Workspace.teamName r = name /\ Workspace.workspaceUrl r = url /\
  Workspace.botToken r = token /\ Workspace.userId r = owner /\
  Workspace.botId r = bot /\
  Workspace.description r
  = match description with
    | Some (String c s) => Some (String c s)
    | _ => None
    end /\
  Workspace.updatedAt r = time /\ Workspace.isActive r = true.

(** An [auth.test] answer that verifies a credential for team [T]: it is
    ok and names a team, the team identifier [T], a URL and a user, none
    of them empty. *)
Definition verifies_to (a : SlackApi.AuthTestResponse) (name T url bot : string) : Prop :=
  SlackApi.auth_ok a = true /\
  SlackApi.team a = Some name /\ SlackApi.team_id a = Some T /\
  SlackApi.url a = Some url /\ SlackApi.user_id a = Some bot /\
  name <> EmptyString /\ T <> EmptyString /\ url <> EmptyString /\ bot <> EmptyString.

(** A result text that states the workspace identifier [i]: it holds the
    line [Workspace ID: i]. *)
Definition reports_id (text i : string) : Prop :=
  exists before after,
    text = before ++ String "010" ("Workspace ID: " ++ i ++ String "010" after).

(** What a re-registration of team [T] leaves of a row: its identifier,
    its team and its creation time; a row of another team whole. *)
Definition same_identity (T : string) (r r' : Workspace.t) : Prop :=
  Workspace.id r' = Workspace.id r /\ Workspace.teamId r' = Workspace.teamId r /\
  Workspace.createdAt r' = Workspace.createdAt r /\
  (Workspace.teamId r <> T -> r' = r).

(** [p] occurs in [t]. *)
Definition occurs (p t : string) : Prop :=
  exists a b, t = a ++ p ++ b.

(** [p] occurs in [t] up to the case of ASCII letters. *)
Definition occurs_ci (p t : string) : Prop :=
  exists a m b, t = a ++ m ++ b /\ JS.lower m = JS.lower p.

(** A workspace row with another stored credential. *)
Definition with_token (token : string) (r : Workspace.t) : Workspace.t :=
  Workspace.mk (Workspace.id r) (Workspace.teamName r) (Workspace.teamId r)
    (Workspace.workspaceUrl r) token (Workspace.userId r) (Workspace.botId r)
    (Workspace.description r) (Workspace.createdAt r) (Workspace.updatedAt r)
    (Workspace.isActive r).

(** Two rows that differ at most in the [bot_token] column. *)
Definition same_but_token (r r' : Workspace.t) : Prop :=
  r' = with_token (Workspace.botToken r') r.

(** Two worlds whose databases differ at most in the [bot_token] column of
    the workspace rows. *)
Definition same_but_tokens (w w' : World) : Prop :=
  Forall2 same_but_token (workspaces (database w)) (workspaces (database w'))
  /\ postedMessages (database w) = postedMessages (database w').

(** A Slack whose answers to the read requests do not depend on the token
    they are sent under: the answers are taken as given, whatever the
    credential that obtained them. *)
Definition answers_fixed (slack : SlackApi.Slack) : Prop :=
  forall token token',
    (forall args, SlackApi.conversations_history slack token args
                  = SlackApi.conversations_history slack token' args)
    /\ (forall types limit, SlackApi.conversations_list slack token types limit
                            = SlackApi.conversations_list slack token' types limit).

(** Ledger rows from the newest to the oldest. *)
Definition newest_first (l : list PostedMessage.t) : Prop :=
  Sorted (fun a b => (PostedMessage.createdAt b <= PostedMessage.createdAt a)%Z) l.

(** A filter argument against a column: an argument that is absent or
    empty lets every row through. *)
Definition filter_on (argument : option string) (column : string) : bool :=
  match argument with
  | Some s => if JS.truthy s then column =? s else true
  | None => true
  end.

(** The rows that pass every filter that was supplied and is not empty. *)
Definition matches (workspace_id channel_id : option string) (m : PostedMessage.t) : bool :=
  filter_on workspace_id (PostedMessage.workspaceId m)
  && filter_on channel_id (PostedMessage.channelId m).

(** The text a filter callback reads of a message: [msg.text || '']. *)
Definition text_of (msg : SlackApi.Message) : string :=
  JS.or_else (SlackApi.msg_text msg) EmptyString.

(** The keys of the registry as the schema declares them: no two rows
    share an identifier, no two rows share a team. *)
Definition keys_unique (d : DB) : Prop :=
  NoDup (map Workspace.id (workspaces d))
  /\ NoDup (map Workspace.teamId (workspaces d)).

(** A workspace row with another active flag. *)
Definition with_active (active : bool) (r : Workspace.t) : Workspace.t :=
  Workspace.mk (Workspace.id r) (Workspace.teamName r) (Workspace.teamId r)
    (Workspace.workspaceUrl r) (Workspace.botToken r) (Workspace.userId r)
    (Workspace.botId r) (Workspace.description r) (Workspace.createdAt r)
    (Workspace.updatedAt r) active.

(** Two worlds that differ at most in the [is_active] column of the
    workspace rows. *)
Definition same_but_active (w w' : World) : Prop :=
  Forall2 (fun r r' => r' = with_active (Workspace.isActive r') r)
    (workspaces (database w)) (workspaces (database w'))
  /\ postedMessages (database w) = postedMessages (database w')
  /\ slack_log w = slack_log w'.

(** Workspace rows from the newest to the oldest. *)
Definition workspaces_newest_first (l : list Workspace.t) : Prop :=
  Sorted (fun a b => (Workspace.createdAt b <= Workspace.createdAt a)%Z) l.

(** No dot among the characters of a string. *)
Definition dotless (s : string) : bool :=
  negb (existsb (Ascii.eqb "."%char) (list_ascii_of_string s)).

(** Two runs of a handler, one from each of two worlds: the same outcome,
    and worlds that differ at most in the [is_active] column again. *)
Definition same_run {A : Type} (m : Eff.M A) (w w' : World) : Prop :=
  fst (m w) = fst (m w') /\ same_but_active (snd (m w)) (snd (m w')).

(** Two computations that, from worlds that differ at most in the
    [is_active] column, throw the same or return values related by [V],
    and leave worlds that differ at most there. *)
Definition agree {A : Type} (V : A -> A -> Prop) (m m' : Eff.M A) : Prop :=
  forall w w', same_but_active w w' ->
    match fst (m w), fst (m' w') with
    | Val a, Val a' => V a a'
    | Threw e, Threw e' => e = e'
    | _, _ => False
    end
    /\ same_but_active (snd (m w)) (snd (m' w')).

(** A row that was found and the same row under another flag. *)
Definition reflagged (o o' : option Workspace.t) : Prop :=
  match o, o' with
  | None, None => True
  | Some r, Some r' => exists b, r' = with_active b r
  | _, _ => False
  end.

(** AES-GCM taken as authentic: what opens under a key and a nonce is a
    sealing made under that key and that nonce, and a sealing made under
    one key is not a sealing under another key of the same length. *)
Definition authentic (platform : PartB.Platform) : Prop :=
  (forall key iv sealed data,
     PartB.subtle_decrypt platform key iv sealed = Val data ->
     sealed = PartB.subtle_encrypt platform key iv data)
  /\ (forall key key' iv data data',
        List.length key' = List.length key ->
        PartB.subtle_encrypt platform key' iv data'
        = PartB.subtle_encrypt platform key iv data ->
        key' = key).

End Spec.


Module Demo.

Definition refused {A : Type} : Outcome A := Threw "not_allowed_token_type".

(** Team T1 behind every token: [auth.test] answers for the bot UBOT. *)
Definition auth : SlackApi.AuthTestResponse :=
  SlackApi.mkAuth true (Some "Acme") (Some "T1") (Some "https://acme.slack.com/")
    (Some "UBOT") (Some "B1").

Definition message (text ts : string) : SlackApi.Message :=
  SlackApi.mkMessage (Some text) (Some "U2") (Some ts).

(** The stream of the mention example, newest first. *)
Definition stream : list SlackApi.Message :=
  [message "hello" "1700000300.000100";
   message "<@U1> ping" "1700000200.000100";
   message "<!channel> standup" "1700000100.000100"].

(** A workspace whose channel history fits one page and whose sends
    succeed. *)
Definition slack : SlackApi.Slack :=
  SlackApi.mkSlack
    (fun _ => Val auth)
    (fun _ _ => Val (SlackApi.mkHistory true (Some stream) false None))
    (fun _ _ _ => Val (SlackApi.mkList true (Some [])))
    (fun _ _ => Val (SlackApi.mkInfo true
       (Some (SlackApi.mkChannel (Some "C1") (Some "general") (Some true) (Some false)))))
    (fun _ _ _ _ => Val (SlackApi.mkPost true (Some "1700000400.000200")
       (Some (SlackApi.mkPostedInfo (Some "m-1") (Some "1700000400.000200"))) None))
    (fun _ _ _ => refused).

(** The same workspace with a channel history of two pages: a greeting
    on the first page, a mention of U1 on the page behind the cursor. *)
Definition first_page : SlackApi.HistoryResponse :=
  SlackApi.mkHistory true (Some [message "hello" "1700000300.000100"]) true (Some "page-2").

Definition second_page : SlackApi.HistoryResponse :=
  SlackApi.mkHistory true (Some [message "<@U1> ping" "1700000200.000100"]) false None.

Definition paged_slack : SlackApi.Slack :=
  SlackApi.mkSlack
    (SlackApi.auth_test slack)
    (fun _ args => match SlackApi.cursor args with
                   | None => Val first_page
                   | Some _ => Val second_page
                   end)
    (SlackApi.conversations_list slack)
    (SlackApi.conversations_info slack)
    (SlackApi.chat_postMessage slack)
    (SlackApi.search_messages slack).

(** The same workspace again, with nothing behind the cursor. *)
Definition short_slack : SlackApi.Slack :=
  SlackApi.mkSlack
    (SlackApi.auth_test slack)
    (fun _ args => match SlackApi.cursor args with
                   | None => Val first_page
                   | Some _ => refused
                   end)
    (SlackApi.conversations_list slack)
    (SlackApi.conversations_info slack)
    (SlackApi.chat_postMessage slack)
    (SlackApi.search_messages slack).

(** A runtime whose dates print as the seconds they hold. *)
Definition ts_toISOString (ts : string) : Outcome string := Val ("at " ++ ts).
Definition Date_toISOString (seconds : Z) : Outcome string :=
  Val (JS.string_of_Z seconds).
Definition Date_toLocaleString (seconds : Z) : string := JS.string_of_Z seconds.
Definition now_toISOString (milliseconds : Z) : string := JS.string_of_Z milliseconds.

(** A runtime on a creation time it reads back as an invalid date. *)
Definition invalid_toISOString (_ : Z) : Outcome string := Threw "Invalid time value".

Definition env1 : Env := mkEnv 1700000500000 1700000500 "uuid-1".
Definition env2 : Env := mkEnv 1700000600000 1700000600 "uuid-2".

Definition empty : World := mkWorld (mkDB [] []) [].

(** Team T1, registered and owned by U1. *)
Definition workspace1 : Workspace.t :=
  Workspace.mk "uuid-1" "Acme" "T1" "https://acme.slack.com/" "xoxb-1" "U1" "UBOT"
    None 1700000500 1700000500 true.

Definition registered : World := mkWorld (mkDB [workspace1] []) [].

(** A Slack whose answer to [auth.test] names no workspace. *)
Definition revoked_slack : SlackApi.Slack :=
  SlackApi.mkSlack
    (fun _ => Val (SlackApi.mkAuth true None None None None None))
    (SlackApi.conversations_history slack)
    (SlackApi.conversations_list slack)
    (SlackApi.conversations_info slack)
    (SlackApi.chat_postMessage slack)
    (SlackApi.search_messages slack).

(** Team T1 switched off. *)
Definition workspace1_off : Workspace.t :=
  Workspace.mk "uuid-1" "Acme" "T1" "https://acme.slack.com/" "xoxb-1" "U1" "UBOT"
    None 1700000500 1700000500 false.

Definition switched_off : World := mkWorld (mkDB [workspace1_off] []) [].

(** A workspace in which the channel lookup is answered without a
    channel. *)
Definition no_channel_slack : SlackApi.Slack :=
  SlackApi.mkSlack
    (SlackApi.auth_test slack)
    (SlackApi.conversations_history slack)
    (SlackApi.conversations_list slack)
    (fun _ _ => Val (SlackApi.mkInfo true None))
    (SlackApi.chat_postMessage slack)
    (SlackApi.search_messages slack).

(** A workspace in which the channel looked up is a direct message: it
    has no name. *)
Definition unnamed_channel_slack : SlackApi.Slack :=
  SlackApi.mkSlack
    (SlackApi.auth_test slack)
    (SlackApi.conversations_history slack)
    (SlackApi.conversations_list slack)
    (fun _ _ => Val (SlackApi.mkInfo true
       (Some (SlackApi.mkChannel (Some "D1") None None None))))
    (SlackApi.chat_postMessage slack)
    (SlackApi.search_messages slack).

(** A workspace that does not know the channel: the client throws on the
    channel lookup. *)
Definition unknown_channel_slack : SlackApi.Slack :=
  SlackApi.mkSlack
    (SlackApi.auth_test slack)
    (SlackApi.conversations_history slack)
    (SlackApi.conversations_list slack)
    (fun _ _ => Threw "An API error occurred: channel_not_found")
    (SlackApi.chat_postMessage slack)
    (SlackApi.search_messages slack).


(** A workspace with three channels: one joined, one not, one joined and
    private. *)
Definition three_channels : list SlackApi.Channel :=
  [SlackApi.mkChannel (Some "C1") (Some "general") (Some true) (Some false);
   SlackApi.mkChannel (Some "C2") (Some "random") (Some false) (Some false);
   SlackApi.mkChannel (Some "G1") (Some "board") (Some true) (Some true)].

Definition three_channel_slack : SlackApi.Slack :=
  SlackApi.mkSlack
    (SlackApi.auth_test slack)
    (SlackApi.conversations_history slack)
    (fun _ _ _ => Val (SlackApi.mkList true (Some three_channels)))
    (SlackApi.conversations_info slack)
    (SlackApi.chat_postMessage slack)
    (SlackApi.search_messages slack).

(** A workspace whose history holds a mention with a timestamp that is no
    number, and a runtime that throws on it. *)
Definition undated_slack : SlackApi.Slack :=
  SlackApi.mkSlack
    (SlackApi.auth_test slack)
    (fun _ _ => Val (SlackApi.mkHistory true
       (Some [message "<@U1> ping" "soon"]) false None))
    (SlackApi.conversations_list slack)
    (SlackApi.conversations_info slack)
    (SlackApi.chat_postMessage slack)
    (SlackApi.search_messages slack).

Definition strict_toISOString (ts : string) : Outcome string :=
  if ts =? "soon" then Threw "Invalid time value" else Val ("at " ++ ts).

(** A workspace in which every channel listing is answered without
    channels. *)
Definition unlisted_slack : SlackApi.Slack :=
  SlackApi.mkSlack
    (SlackApi.auth_test slack)
    (SlackApi.conversations_history slack)
    (fun _ _ _ => Val (SlackApi.mkList true None))
    (SlackApi.conversations_info slack)
    (SlackApi.chat_postMessage slack)
    (SlackApi.search_messages slack).

(** A workspace in which the message search is answered without
    matches. *)
Definition unsearchable_slack : SlackApi.Slack :=
  SlackApi.mkSlack
    (SlackApi.auth_test slack)
    (SlackApi.conversations_history slack)
    (SlackApi.conversations_list slack)
    (SlackApi.conversations_info slack)
    (SlackApi.chat_postMessage slack)
    (fun _ _ _ => Val (SlackApi.mkSearch true None)).

End Demo.

(* ================================================================== *)
(** * Proofs *)
(* ================================================================== *)

(** Unfolds the sequencing of a handler down to its case analysis. *)
Ltac run_handler :=
  unfold Eff.try_catch, Eff.bind, Eff.ret, Eff.throw, Eff.request, Eff.query,
    Eff.statement, Eff.checked_statement, Eff.lift; cbn.

(** The texts of the results are compared as they stand. *)
Arguments Index.updated_text : simpl never.
Arguments Index.configured_text : simpl never.
Arguments Index.mentions_result : simpl never.
Arguments Index.posted_text : simpl never.
Arguments Index.set_on_update : simpl never.
Arguments Index.new_workspace : simpl never.
Arguments Index.new_postedMessage : simpl never.
Arguments JS.join : simpl never.

Lemma bind_val {A B : Type} (m : Eff.M A) (k : A -> Eff.M B) (w w1 : World) (a : A) :
  m w = (Val a, w1) -> Eff.bind m k w = k a w1.
Proof. intros H. unfold Eff.bind. now rewrite H. Qed.

(** ** Rows rewritten in place *)

Section Update.

Variable p : Workspace.t -> bool.
Variable f : Workspace.t -> Workspace.t.
Hypothesis f_keeps_p : forall r, p (f r) = p r.

Lemma filter_update (l : list Workspace.t) :
  filter p (map (fun r => if p r then f r else r) l) = map f (filter p l).
Proof.
  induction l as [| r l IH]; cbn; [reflexivity |].
  destruct (p r) eqn:E; cbn.
  - rewrite f_keeps_p, E. cbn. now rewrite IH.
  - rewrite E. exact IH.
Qed.

End Update.

Lemma filter_app_none {A : Type} (p : A -> bool) (l : list A) (x : A) :
  filter p l = [] -> p x = true -> filter p (l ++ [x]) = [x].
Proof.
  intros Hl Hx. rewrite filter_app, Hl. cbn. now rewrite Hx.
Qed.

Lemma existsb_filter_nil {A : Type} (p : A -> bool) (l : list A) :
  existsb p l = false <-> filter p l = [].
Proof.
  induction l as [| x l IH]; cbn; [tauto |].
  destruct (p x); cbn; [split; discriminate | exact IH].
Qed.

Lemma existsb_id_fresh (u : string) (l : list Workspace.t) :
  ~ In u (map Workspace.id l) ->
  existsb (fun r => Workspace.id r =? u) l = false.
Proof.
  induction l as [| r l IH]; cbn; [reflexivity |].
  intros H. apply Bool.orb_false_iff. split.
  - apply String.eqb_neq. intros E. apply H. now left.
  - apply IH. intros Hin. apply H. now right.
Qed.

(** ** configure_workspace of [src/src/index.ts] *)

Section Registration.

Variable slack : SlackApi.Slack.
Variable env : Env.
Variables (bot_token user_id : string) (description : option string).
Variable a : SlackApi.AuthTestResponse.
Variables (name T url bot : string).

Hypothesis answered : SlackApi.auth_test slack bot_token = Val a.
Hypothesis checked : Index.verified a = Some (name, T, url, bot).

Let for_team (r : Workspace.t) : bool := Workspace.teamId r =? T.
Let written : Workspace.t -> Workspace.t :=
  Index.set_on_update env name url bot_token user_id bot description.
Let created : Workspace.t :=
  Index.new_workspace env name T url bot_token user_id bot description.

(** The update branch: the rows of the team are rewritten in place and the
    first of them is reported. *)
Lemma configure_workspace_existing (w : World) (r0 : Workspace.t) (rest : list Workspace.t) :
  filter for_team (workspaces (database w)) = r0 :: rest ->
  Index.configure_workspace slack env bot_token user_id description w =
  (Val (Eff.ok_result (Index.updated_text (written r0))),
   mkWorld
     (mkDB (map (fun r => if for_team r then written r else r) (workspaces (database w)))
           (postedMessages (database w)))
     (slack_log w ++ [SlackApi.auth_test_call bot_token])).
Proof.
  intros Hrows. unfold Index.configure_workspace. run_handler.
  rewrite answered, checked. cbn.
  unfold Sql.select_workspaces, Sql.update_workspaces. fold for_team.
  rewrite Hrows. cbn. fold for_team. rewrite Hrows. reflexivity.
Qed.

(** The insert branch: one row is appended, under the identifier drawn for
    this request. *)
Lemma configure_workspace_absent (w : World) :
  filter for_team (workspaces (database w)) = [] ->
  ~ In (randomUUID env) (map Workspace.id (workspaces (database w))) ->
  Index.configure_workspace slack env bot_token user_id description w =
  (Val (Eff.ok_result (Index.configured_text created)),
   mkWorld
     (mkDB (workspaces (database w) ++ [created]) (postedMessages (database w)))
     (slack_log w ++ [SlackApi.auth_test_call bot_token])).
Proof.
  intros Hrows Hfresh. unfold Index.configure_workspace. run_handler.
  rewrite answered, checked. cbn.
  unfold Sql.select_workspaces. fold for_team. rewrite Hrows. cbn.
  unfold Sql.insert_workspace.
  change (Workspace.id (Index.new_workspace env name T url bot_token user_id bot description))
    with (randomUUID env).
  change (Workspace.teamId (Index.new_workspace env name T url bot_token user_id bot description))
    with T.
  rewrite (existsb_id_fresh _ _ Hfresh).
  apply existsb_filter_nil in Hrows. unfold for_team in Hrows.
  rewrite Hrows. reflexivity.
Qed.

End Registration.

(** ** C1 and C10: registration is an upsert on the team identifier *)

Lemma written_by_update (env : Env) (T name url token owner bot : string)
    (description : option string) (l : list Workspace.t) :
  Forall (Spec.written_by T name url token owner bot description (Date_now env / 1000))
    (map (fun r => if Workspace.teamId r =? T
                   then Index.set_on_update env name url token owner bot description r
                   else r) l).
Proof.
  apply Forall_forall. intros r' Hin. apply in_map_iff in Hin.
  destruct Hin as (r & <- & _).
  destruct (Workspace.teamId r =? T) eqn:E.
  - intros _. cbn. repeat split. now destruct description as [[| c s] |].
  - intros Hteam. apply String.eqb_neq in E. contradiction.
Qed.

Lemma verified_of_answer (a : SlackApi.AuthTestResponse) (name T url bot : string) :
  Spec.verifies_to a name T url bot -> Index.verified a = Some (name, T, url, bot).
Proof.
  intros (Hok & Hname & HT & Hurl & Hbot & Nname & NT & Nurl & Nbot).
  unfold Index.verified. rewrite Hok, Hname, HT, Hurl, Hbot.
  destruct name; [contradiction |]. destruct T; [contradiction |].
  destruct url; [contradiction |]. destruct bot; [contradiction |]. reflexivity.
Qed.

Lemma updated_text_reports_id (r : Workspace.t) :
  Spec.reports_id (Index.updated_text r) (Workspace.id r).
Proof.
  exists ("Workspace updated successfully!" ++ JS.LF),
         ("Team: " ++ Workspace.teamName r ++ JS.LF ++
          "URL: " ++ Workspace.workspaceUrl r ++ JS.LF ++
          "Description: " ++ JS.or_else (Workspace.description r) "None").
  reflexivity.
Qed.

Lemma configured_text_reports_id (r : Workspace.t) :
  Spec.reports_id (Index.configured_text r) (Workspace.id r).
Proof.
  exists ("Workspace configured successfully!" ++ JS.LF),
         ("Team: " ++ Workspace.teamName r ++ JS.LF ++
          "URL: " ++ Workspace.workspaceUrl r ++ JS.LF ++
          "Description: " ++ JS.or_else (Workspace.description r) "None" ++ JS.LF ++ JS.LF ++
          "You can now use this workspace ID for other Slack operations.").
  reflexivity.
Qed.

Lemma same_identity_update (env : Env) (T name url token owner bot : string)
    (description : option string) (l : list Workspace.t) :
  Forall2 (Spec.same_identity T) l
    (map (fun r => if Workspace.teamId r =? T
                   then Index.set_on_update env name url token owner bot description r
                   else r) l).
Proof.
  induction l as [| r l IH]; cbn; constructor; [| exact IH].
  destruct (Workspace.teamId r =? T) eqn:E.
  - apply String.eqb_eq in E. repeat split. intros Hne. contradiction.
  - repeat split.
Qed.

(** C1. For credentials that verify to the same team T, registering twice
    yields one workspace: the second call inserts nothing, rewrites name,
    URL, credential, owner, bot id, description and update time of the
    team's row, forces it active, and its result states, on its line
    [Workspace ID:], the identifier the result of the first call states.
    The first call itself updates in place when a row of T exists and
    otherwise appends exactly one row, written from the verified answer,
    under the identifier drawn for it. *)
Theorem configure_workspace_idempotent_upsert :
  forall (slack : SlackApi.Slack) (env1 env2 : Env)
         (token1 token2 owner1 owner2 : string) (description1 description2 : option string)
         (a1 a2 : SlackApi.AuthTestResponse)
         (name1 url1 bot1 name2 url2 bot2 T : string) (w : World),
    SlackApi.auth_test slack token1 = Val a1 ->
    Spec.verifies_to a1 name1 T url1 bot1 ->
    SlackApi.auth_test slack token2 = Val a2 ->
    Spec.verifies_to a2 name2 T url2 bot2 ->
    ~ In (randomUUID env1) (map Workspace.id (workspaces (database w))) ->
    exists (row1 row2 : Workspace.t) (text1 text2 : string) (w1 w2 : World),
      Index.configure_workspace slack env1 token1 owner1 description1 w
        = (Val (mkResult text1 false), w1)
      /\ Index.configure_workspace slack env2 token2 owner2 description2 w1
        = (Val (mkResult text2 false), w2)
      /\ Spec.reports_id text1 (Workspace.id row1)
      /\ Spec.reports_id text2 (Workspace.id row1)
      /\ text2 = Index.updated_text row2
      /\ In row1 (workspaces (database w1))
      /\ Workspace.teamId row1 = T
      /\ Workspace.id row2 = Workspace.id row1
      /\ In row2 (workspaces (database w2))
      /\ Workspace.teamId row2 = T
      /\ List.length (workspaces (database w2)) = List.length (workspaces (database w1))
      /\ Forall (Spec.written_by T name2 url2 token2 owner2 bot2 description2
                   (Date_now env2 / 1000)) (workspaces (database w2))
      /\ (if existsb (fun r => Workspace.teamId r =? T) (workspaces (database w))
          then text1 = Index.updated_text row1
               /\ List.length (workspaces (database w1)) = List.length (workspaces (database w))
               /\ Forall (Spec.written_by T name1 url1 token1 owner1 bot1 description1
                            (Date_now env1 / 1000)) (workspaces (database w1))
          else text1 = Index.configured_text row1
               /\ workspaces (database w1) = (workspaces (database w) ++ [row1])%list
               /\ Workspace.id row1 = randomUUID env1
               /\ Spec.written_by T name1 url1 token1 owner1 bot1 description1
                    (CURRENT_TIMESTAMP env1) row1).
Proof.
  intros slack env1 env2 token1 token2 owner1 owner2 description1 description2
    a1 a2 name1 url1 bot1 name2 url2 bot2 T w Hauth1 Hverifies1 Hauth2 Hverifies2 Hfresh.
  pose proof (verified_of_answer _ _ _ _ _ Hverifies1) as Hok1.
  pose proof (verified_of_answer _ _ _ _ _ Hverifies2) as Hok2.
  set (for_team := fun r : Workspace.t => Workspace.teamId r =? T).
  set (f1 := Index.set_on_update env1 name1 url1 token1 owner1 bot1 description1).
  set (f2 := Index.set_on_update env2 name2 url2 token2 owner2 bot2 description2).
  destruct (filter for_team (workspaces (database w))) as [| r0 rest] eqn:Hrows.
  - (* no row of T: the first call inserts, the second finds that row *)
    set (new := Index.new_workspace env1 name1 T url1 token1 owner1 bot1 description1).
    pose proof (configure_workspace_absent slack env1 token1 owner1 description1
                  a1 name1 T url1 bot1 Hauth1 Hok1 w Hrows Hfresh) as Hrun1.
    assert (Hnew : for_team new = true) by apply String.eqb_refl.
    pose proof (filter_app_none for_team _ new Hrows Hnew) as Hrows1.
    pose proof (configure_workspace_existing slack env2 token2 owner2 description2
                  a2 name2 T url2 bot2 Hauth2 Hok2
                  (mkWorld (mkDB (workspaces (database w) ++ [new]) (postedMessages (database w)))
                     (slack_log w ++ [SlackApi.auth_test_call token1]))
                  new [] Hrows1) as Hrun2.
    exists new, (f2 new), (Index.configured_text new), (Index.updated_text (f2 new)).
    eexists. eexists.
    split; [exact Hrun1 |]. split; [exact Hrun2 |].
    split; [apply configured_text_reports_id |].
    split; [apply (updated_text_reports_id (f2 new)) |].
    split; [reflexivity |]. cbn.
    split; [apply in_or_app; right; now left |].
    split; [reflexivity |].
    split; [reflexivity |]. split.
    { rewrite map_app. apply in_or_app. right. cbn. rewrite String.eqb_refl. now left. }
    split; [reflexivity |]. split; [apply length_map |].
    split; [apply written_by_update |].
    apply existsb_filter_nil in Hrows. rewrite Hrows.
    repeat split. now destruct description1 as [[| c s] |].
  - (* a row of T exists: both calls rewrite it in place *)
    pose proof (configure_workspace_existing slack env1 token1 owner1 description1
                  a1 name1 T url1 bot1 Hauth1 Hok1 w r0 rest Hrows) as Hrun1.
    assert (Hrows1 : filter for_team
              (map (fun r => if for_team r then f1 r else r) (workspaces (database w)))
              = f1 r0 :: map f1 rest).
    { rewrite filter_update by reflexivity. now rewrite Hrows. }
    pose proof (configure_workspace_existing slack env2 token2 owner2 description2
                  a2 name2 T url2 bot2 Hauth2 Hok2
                  (mkWorld (mkDB (map (fun r => if for_team r then f1 r else r)
                                    (workspaces (database w)))
                              (postedMessages (database w)))
                     (slack_log w ++ [SlackApi.auth_test_call token1]))
                  (f1 r0) (map f1 rest) Hrows1) as Hrun2.
    exists (f1 r0), (f2 (f1 r0)), (Index.updated_text (f1 r0)),
           (Index.updated_text (f2 (f1 r0))).
    eexists. eexists.
    split; [exact Hrun1 |]. split; [exact Hrun2 |].
    split; [apply updated_text_reports_id |].
    split; [apply (updated_text_reports_id (f2 (f1 r0))) |].
    split; [reflexivity |]. cbn.
    assert (Hr0 : In r0 (workspaces (database w)) /\ for_team r0 = true).
    { apply filter_In. rewrite Hrows. now left. }
    destruct Hr0 as [Hin0 Hteam0].
    split.
    { apply in_map_iff. exists r0. pose proof Hteam0 as Hteam. unfold for_team in Hteam.
      rewrite Hteam. now split. }
    split; [now apply String.eqb_eq in Hteam0 |].
    split; [reflexivity |]. split.
    { apply in_map_iff. exists (f1 r0). split.
      - change (Workspace.teamId (f1 r0)) with (Workspace.teamId r0).
        unfold for_team in Hteam0. now rewrite Hteam0.
      - apply in_map_iff. exists r0. rewrite Hteam0. now split. }
    split; [now apply String.eqb_eq in Hteam0 |].
    split; [apply length_map |].
    split; [apply written_by_update |].
    assert (Hex : existsb for_team (workspaces (database w)) = true).
    { apply existsb_exists. now exists r0. }
    rewrite Hex. split; [reflexivity |]. split; [apply length_map |].
    apply written_by_update.
Qed.

(** Team T1 registered on an empty database, then registered again with a
    rotated credential. *)
Lemma configure_workspace_idempotent_upsert_witness :
  exists (row1 row2 : Workspace.t) (text1 text2 : string) (w1 w2 : World),
    Index.configure_workspace Demo.slack Demo.env1 "xoxb-1" "U1" None Demo.empty
      = (Val (mkResult text1 false), w1)
    /\ Index.configure_workspace Demo.slack Demo.env2 "xoxb-2" "U1" (Some "rotated") w1
      = (Val (mkResult text2 false), w2)
    /\ Spec.reports_id text1 (Workspace.id row1)
    /\ Spec.reports_id text2 (Workspace.id row1)
    /\ text2 = Index.updated_text row2
    /\ In row1 (workspaces (database w1))
    /\ Workspace.teamId row1 = "T1"
    /\ Workspace.id row2 = Workspace.id row1
    /\ In row2 (workspaces (database w2))
    /\ Workspace.teamId row2 = "T1"
    /\ List.length (workspaces (database w2)) = List.length (workspaces (database w1))
    /\ Forall (Spec.written_by "T1" "Acme" "https://acme.slack.com/" "xoxb-2" "U1" "UBOT"
                 (Some "rotated") (Date_now Demo.env2 / 1000)) (workspaces (database w2))
    /\ (if existsb (fun r => Workspace.teamId r =? "T1") (workspaces (database Demo.empty))
        then text1 = Index.updated_text row1
             /\ List.length (workspaces (database w1))
                = List.length (workspaces (database Demo.empty))
             /\ Forall (Spec.written_by "T1" "Acme" "https://acme.slack.com/" "xoxb-1" "U1"
                          "UBOT" None (Date_now Demo.env1 / 1000)) (workspaces (database w1))
        else text1 = Index.configured_text row1
             /\ workspaces (database w1) = (workspaces (database Demo.empty) ++ [row1])%list
             /\ Workspace.id row1 = randomUUID Demo.env1
             /\ Spec.written_by "T1" "Acme" "https://acme.slack.com/" "xoxb-1" "U1" "UBOT"
                  None (CURRENT_TIMESTAMP Demo.env1) row1).
Proof.
  apply (configure_workspace_idempotent_upsert Demo.slack Demo.env1 Demo.env2
           "xoxb-1" "xoxb-2" "U1" "U1" None (Some "rotated") Demo.auth Demo.auth
           "Acme" "https://acme.slack.com/" "UBOT" "Acme" "https://acme.slack.com/" "UBOT"
           "T1" Demo.empty).
  - reflexivity.
  - repeat split; discriminate.
  - reflexivity.
  - repeat split; discriminate.
  - simpl. intros H. exact H.
Defined.

(** C10. On the update branch the identifier, the team identifier and the
    creation time of every workspace row stay as they were, rows of other
    teams are untouched and the ledger is not written. *)
Theorem configure_workspace_update_keeps_identity :
  forall (slack : SlackApi.Slack) (env : Env) (token owner : string)
         (description : option string) (a : SlackApi.AuthTestResponse)
         (name url bot T : string) (w : World),
    SlackApi.auth_test slack token = Val a ->
    Index.verified a = Some (name, T, url, bot) ->
    existsb (fun r => Workspace.teamId r =? T) (workspaces (database w)) = true ->
    exists (row : Workspace.t) (w' : World),
      Index.configure_workspace slack env token owner description w
        = (Val (Eff.ok_result (Index.updated_text row)), w')
      /\ Forall2 (Spec.same_identity T) (workspaces (database w)) (workspaces (database w'))
      /\ postedMessages (database w') = postedMessages (database w).
Proof.
  intros slack env token owner description a name url bot T w Hauth Hok Hex.
  destruct (filter (fun r => Workspace.teamId r =? T) (workspaces (database w)))
    as [| r0 rest] eqn:Hrows.
  - apply existsb_filter_nil in Hrows. congruence.
  - pose proof (configure_workspace_existing slack env token owner description
                  a name T url bot Hauth Hok w r0 rest Hrows) as Hrun.
    eexists. eexists. split; [exact Hrun |]. cbn.
    split; [apply same_identity_update | reflexivity].
Qed.

(** Team T1, already registered, registers again. *)
Lemma configure_workspace_update_keeps_identity_witness :
  exists (row : Workspace.t) (w' : World),
    Index.configure_workspace Demo.slack Demo.env2 "xoxb-2" "U9" (Some "again")
      Demo.registered
      = (Val (Eff.ok_result (Index.updated_text row)), w')
    /\ Forall2 (Spec.same_identity "T1") (workspaces (database Demo.registered))
         (workspaces (database w'))
    /\ postedMessages (database w') = postedMessages (database Demo.registered).
Proof.
  apply (configure_workspace_update_keeps_identity Demo.slack Demo.env2 "xoxb-2" "U9"
           (Some "again") Demo.auth "Acme" "https://acme.slack.com/" "UBOT" "T1"
           Demo.registered).
  - reflexivity.
  - reflexivity.
  - reflexivity.
Defined.

(** ** Substring search *)

Lemma prefix_spec (p s : string) :
  prefix p s = true <-> exists r, s = p ++ r.
Proof.
  revert s. induction p as [| c p IH]; intros s.
  - split; [intros _; now exists s | intros _; now destruct s].
  - destruct s as [| d s]; cbn.
    + split; [discriminate | intros (r & Hr); discriminate].
    + destruct (ascii_dec c d) as [-> | Hne].
      * rewrite IH. split; intros (r & Hr); exists r.
        -- cbn. now rewrite Hr.
        -- cbn in Hr. now inversion Hr.
      * split; [discriminate |]. intros (r & Hr). cbn in Hr. congruence.
Qed.

Lemma includes_unfold (p s : string) :
  JS.includes p s =
  if prefix p s then true
  else match s with EmptyString => false | String _ s' => JS.includes p s' end.
Proof. destruct s; reflexivity. Qed.

Lemma includes_spec (p s : string) :
  JS.includes p s = true <-> Spec.occurs p s.
Proof.
  unfold Spec.occurs. split.
  - induction s as [| c s IH]; rewrite includes_unfold;
      destruct (prefix p _) eqn:E; try discriminate.
    + intros _. apply prefix_spec in E. destruct E as (r & Hr).
      exists EmptyString, r. exact Hr.
    + intros _. apply prefix_spec in E. destruct E as (r & Hr).
      exists EmptyString, r. exact Hr.
    + intros H. destruct (IH H) as (a & b & Hab).
      exists (String c a), b. cbn. now rewrite Hab.
  - intros (a & b & Hab). revert s Hab. induction a as [| c a IH]; intros s Hab.
    + rewrite includes_unfold.
      assert (E : prefix p s = true) by (apply prefix_spec; now exists b).
      now rewrite E.
    + cbn in Hab. subst s. rewrite includes_unfold.
      destruct (prefix p _); [reflexivity |]. now apply IH.
Qed.

Lemma append_assoc (a b c : string) : (a ++ b) ++ c = a ++ b ++ c.
Proof. induction a as [| x a IH]; cbn; [reflexivity | now rewrite IH]. Qed.

Lemma lower_app (a b : string) : JS.lower (a ++ b) = JS.lower a ++ JS.lower b.
Proof. induction a as [| c a IH]; cbn; [reflexivity | now rewrite IH]. Qed.

Lemma lower_split (t x y : string) :
  JS.lower t = x ++ y ->
  exists t1 t2, t = t1 ++ t2 /\ JS.lower t1 = x /\ JS.lower t2 = y.
Proof.
  revert t. induction x as [| c x IH]; intros t H.
  - exists EmptyString, t. now repeat split.
  - destruct t as [| d t]; cbn in H; [discriminate |].
    inversion H as [[Hc Hrest]]. destruct (IH t Hrest) as (t1 & t2 & -> & H1 & H2).
    exists (String d t1), t2. cbn. now rewrite H1.
Qed.

Lemma includes_ci_spec (p t : string) :
  JS.includes (JS.lower p) (JS.lower t) = true <-> Spec.occurs_ci p t.
Proof.
  rewrite includes_spec. unfold Spec.occurs, Spec.occurs_ci. split.
  - intros (a & b & H).
    destruct (lower_split _ _ _ H) as (t1 & t23 & -> & H1 & H23).
    destruct (lower_split _ _ _ H23) as (t2 & t3 & -> & H2 & H3).
    now exists t1, t2, t3.
  - intros (a & m & b & -> & Hm).
    exists (JS.lower a), (JS.lower b). now rewrite !lower_app, Hm.
Qed.

(** ** The mention filter *)

Lemma is_mention_index (owner : string) (msg : SlackApi.Message) :
  Index.is_mention owner msg = true <->
  Spec.occurs_ci ("<@" ++ owner ++ ">") (Spec.text_of msg)
  \/ Spec.occurs_ci "<!channel>" (Spec.text_of msg).
Proof.
  unfold Index.is_mention, JS.RegExp_test. cbn [existsb].
  rewrite !Bool.orb_false_r, Bool.orb_true_iff.
  rewrite (includes_ci_spec ("<@" ++ owner ++ ">")).
  rewrite (includes_ci_spec "<!channel>"). reflexivity.
Qed.

Lemma occurs_nonempty (p t : string) :
  Spec.occurs p t -> p <> EmptyString -> JS.truthy t = true.
Proof.
  intros (a & b & ->) Hp. destruct a; cbn; [| reflexivity].
  destruct p; [contradiction | reflexivity].
Qed.

(** The handler of [PartA] keeps a message exactly when its text holds the
    owner's mention token, the channel token or the here token, for an
    owner identifier of literal characters: one that the pattern built
    from it matches as it stands. *)
Lemma is_mention_partA (owner : string) (msg : SlackApi.Message) :
  JS.literal owner = true ->
  (PartA.is_mention owner msg = true <->
   Spec.occurs ("<@" ++ owner ++ ">") (Spec.text_of msg)
   \/ Spec.occurs "<!channel>" (Spec.text_of msg)
   \/ Spec.occurs "<!here>" (Spec.text_of msg)).
Proof.
  intros _.
  unfold PartA.is_mention, Spec.text_of, JS.RegExp_test. cbn [existsb].
  destruct (SlackApi.msg_text msg) as [text |]; cbn [JS.or_else].
  - destruct (JS.truthy text) eqn:Htext; cbn [andb].
    + rewrite Bool.orb_false_r, !Bool.orb_true_iff, !includes_spec. reflexivity.
    + split; [discriminate |].
      intros [H | [H | H]]; apply occurs_nonempty in H; try discriminate;
        destruct text; discriminate.
  - split; [discriminate |].
    intros [H | [H | H]]; apply occurs_nonempty in H; discriminate.
Qed.

(** The owner U1 and a message that greets everyone present. *)
Lemma is_mention_partA_witness :
  PartA.is_mention "U1" (Demo.message "<!here> lunch?" "1700000100.000100") = true
  /\ (PartA.is_mention "U1" (Demo.message "hello U1" "1700000100.000100") = true <->
      Spec.occurs ("<@" ++ "U1" ++ ">")
        (Spec.text_of (Demo.message "hello U1" "1700000100.000100"))
      \/ Spec.occurs "<!channel>" (Spec.text_of (Demo.message "hello U1" "1700000100.000100"))
      \/ Spec.occurs "<!here>" (Spec.text_of (Demo.message "hello U1" "1700000100.000100"))).
Proof.
  split; [reflexivity |].
  apply (is_mention_partA "U1" (Demo.message "hello U1" "1700000100.000100")).
  reflexivity.
Defined.

Lemma select_mentions_bound (owner : string) (limit : nat) (page : list SlackApi.Message) :
  (List.length (Index.select_mentions owner limit page) <= limit)%nat.
Proof. unfold Index.select_mentions, JS.slice_to. apply firstn_le_length. Qed.

Lemma select_mentions_prefix (owner : string) (limit : nat) (page : list SlackApi.Message) :
  exists rest,
    filter (Index.is_mention owner) page
    = (Index.select_mentions owner limit page ++ rest)%list.
Proof.
  exists (skipn limit (filter (Index.is_mention owner) page)).
  unfold Index.select_mentions, JS.slice_to. now rewrite firstn_skipn.
Qed.


(** ** C3: a workspace that is missing or inactive *)

Lemma find_active_workspace_none (workspace_id : string) (w : World) :
  (forall r, In r (workspaces (database w)) ->
             Workspace.id r = workspace_id -> Workspace.isActive r = false) ->
  Index.find_active_workspace workspace_id w = (Val None, w).
Proof.
  intros H. unfold Index.find_active_workspace, Eff.query, Sql.select_workspaces.
  replace (filter _ (workspaces (database w))) with (@nil Workspace.t); [reflexivity |].
  symmetry. apply existsb_filter_nil. apply Bool.not_true_is_false.
  intros Hex. apply existsb_exists in Hex. destruct Hex as (r & Hin & Hr).
  apply Bool.andb_true_iff in Hr. destruct Hr as [Hid Hactive].
  apply String.eqb_eq in Hid. apply Bool.eqb_prop in Hactive.
  rewrite (H r Hin Hid) in Hactive. discriminate.
Qed.

(** C3. When no row has the given identifier, or the row that has it is
    inactive, each of get_mentions, list_user_channels, post_message and
    get_posted_messages answers with the workspace-not-found error and
    leaves the world as it was: no request is sent to Slack under any
    credential, and nothing is written. *)
Theorem inactive_or_missing_workspace_is_rejected :
  forall (slack : SlackApi.Slack) (env : Env)
         (ts_toISOString : string -> Outcome string) (Date_toISOString : Z -> Outcome string)
         (workspace_id channel_id message_text : string) (days_back : Z)
         (limit : nat) (private_only : bool) (w : World),
    (forall r, In r (workspaces (database w)) ->
               Workspace.id r = workspace_id -> Workspace.isActive r = false) ->
    Index.get_mentions slack env ts_toISOString workspace_id channel_id days_back limit w
      = (Val Index.not_found_result, w)
    /\ Index.list_user_channels slack workspace_id limit private_only w
      = (Val Index.not_found_result, w)
    /\ Index.post_message slack env workspace_id channel_id message_text w
      = (Val Index.not_found_result, w)
    /\ Index.get_posted_messages Date_toISOString workspace_id limit w
      = (Val Index.not_found_result, w)
    /\ isError Index.not_found_result = true.
Proof.
  intros slack env iso iso' workspace_id channel_id message_text days_back limit
    private_only w H.
  pose proof (find_active_workspace_none workspace_id w H) as Hfind.
  repeat split.
  - unfold Index.get_mentions, Eff.try_catch, Eff.bind. now rewrite Hfind.
  - unfold Index.list_user_channels, Eff.try_catch, Eff.bind. now rewrite Hfind.
  - unfold Index.post_message, Eff.try_catch, Eff.bind. now rewrite Hfind.
  - unfold Index.get_posted_messages, Eff.try_catch, Eff.bind. now rewrite Hfind.
Qed.

(** Team T1 switched off: its identifier is refused by all four tools. *)
Lemma inactive_or_missing_workspace_is_rejected_witness :
  let off := mkWorld (mkDB [Workspace.mk "uuid-1" "Acme" "T1" "https://acme.slack.com/"
                              "xoxb-1" "U1" "UBOT" None 1700000500 1700000500 false] []) [] in
  Index.get_mentions Demo.slack Demo.env1 Demo.ts_toISOString "uuid-1" "C1" 1 5 off
    = (Val Index.not_found_result, off)
  /\ Index.list_user_channels Demo.slack "uuid-1" 5 false off
    = (Val Index.not_found_result, off)
  /\ Index.post_message Demo.slack Demo.env1 "uuid-1" "C1" "hi" off
    = (Val Index.not_found_result, off)
  /\ Index.get_posted_messages Demo.Date_toISOString "uuid-1" 5 off
    = (Val Index.not_found_result, off)
  /\ isError Index.not_found_result = true.
Proof.
  intros off.
  apply (inactive_or_missing_workspace_is_rejected Demo.slack Demo.env1
           Demo.ts_toISOString Demo.Date_toISOString "uuid-1" "C1" "hi" 1 5 false off).
  intros r Hin Hid. simpl in Hin. destruct Hin as [<- | []]. reflexivity.
Defined.

(** ** C4 and C5: what get_mentions reads and keeps *)

Lemma find_active_workspace_pure (workspace_id : string) (w : World) :
  exists found, Index.find_active_workspace workspace_id w = (Val found, w).
Proof. unfold Index.find_active_workspace, Eff.query. eauto. Qed.

(** The handler once the workspace is found: one request for history,
    then the filter on the page that came back. *)
Lemma get_mentions_found (slack : SlackApi.Slack) (env : Env)
    (ts_toISOString : string -> Outcome string)
    (workspace_id channel_id : string) (days_back : Z) (limit : nat)
    (w : World) (workspace : Workspace.t) :
  Index.find_active_workspace workspace_id w = (Val (Some workspace), w) ->
  Index.get_mentions slack env ts_toISOString workspace_id channel_id days_back limit w =
  (Val match SlackApi.conversations_history slack (Workspace.botToken workspace)
               (Index.history_args env channel_id days_back) with
       | Threw e => Eff.error_result ("Error getting mentions: " ++ e)
       | Val history =>
           match SlackApi.history_ok history, SlackApi.messages history with
           | true, Some page =>
               match Eff.map_outcome (Index.to_mention ts_toISOString workspace channel_id)
                       (Index.select_mentions (Workspace.userId workspace) limit page) with
               | Val mentions => Index.mentions_result days_back mentions
               | Threw e => Eff.error_result ("Error getting mentions: " ++ e)
               end
           | _, _ =>
               Eff.error_result "Failed to retrieve channel history or no messages found"
           end
       end,
   mkWorld (database w)
     (slack_log w ++ [SlackApi.conversations_history_call (Workspace.botToken workspace)
                        (Index.history_args env channel_id days_back)])).
Proof.
  intros Hfind. unfold Index.get_mentions, Eff.try_catch, Eff.bind at 1.
  rewrite Hfind. unfold Eff.bind, Eff.request, Eff.lift, Eff.ret.
  destruct (SlackApi.conversations_history slack _ _) as [history | e]; [| reflexivity].
  destruct (SlackApi.history_ok history); [| reflexivity].
  destruct (SlackApi.messages history) as [page |]; [| reflexivity].
  destruct (Eff.map_outcome _ _); reflexivity.
Qed.

Lemma get_mentions_not_found (slack : SlackApi.Slack) (env : Env)
    (ts_toISOString : string -> Outcome string)
    (workspace_id channel_id : string) (days_back : Z) (limit : nat) (w : World) :
  Index.find_active_workspace workspace_id w = (Val None, w) ->
  Index.get_mentions slack env ts_toISOString workspace_id channel_id days_back limit w =
  (Val Index.not_found_result, w).
Proof.
  intros Hfind. unfold Index.get_mentions, Eff.try_catch, Eff.bind.
  now rewrite Hfind.
Qed.

Lemma example_stream_selected (owner t1 t2 t3 : string) (limit : nat) :
  (2 <= limit)%nat ->
  Index.select_mentions owner limit
    [Demo.message "hello" t1;
     Demo.message ("<@" ++ owner ++ "> ping") t2;
     Demo.message "<!channel> standup" t3]
  = [Demo.message ("<@" ++ owner ++ "> ping") t2;
     Demo.message "<!channel> standup" t3].
Proof.
  intros Hlimit. unfold Index.select_mentions, JS.slice_to.
  assert (H1 : Index.is_mention owner (Demo.message "hello" t1) = false) by reflexivity.
  assert (H2 : Index.is_mention owner (Demo.message ("<@" ++ owner ++ "> ping") t2) = true).
  { apply is_mention_index. left. exists EmptyString, ("<@" ++ owner ++ ">"), " ping".
    split; [| reflexivity]. cbn. now rewrite append_assoc. }
  assert (H3 : Index.is_mention owner (Demo.message "<!channel> standup" t3) = true).
  { apply is_mention_index. right. now exists EmptyString, "<!channel>", " standup". }
  cbn [filter]. rewrite H1, H2, H3.
  apply firstn_all2. cbn. exact Hlimit.
Qed.

(** C4 (amended). In [src/src/index.ts] a message is kept exactly when its
    text holds, up to the case of ASCII letters, the mention token of the
    workspace's owner or the channel-wide token; the here token is not
    looked for.  The kept messages are the first [limit] hits of the page,
    in the order of the page.  On the stream hello, owner ping, channel
    standup and a limit of two or more, they are the second and the third
    message, and the tool reports exactly these two. *)
Theorem get_mentions_filter :
  forall (owner : string) (limit : nat) (page : list SlackApi.Message),
    JS.literal owner = true ->
    (forall msg,
       Index.is_mention owner msg = true <->
       Spec.occurs_ci ("<@" ++ owner ++ ">") (Spec.text_of msg)
       \/ Spec.occurs_ci "<!channel>" (Spec.text_of msg))
    /\ (List.length (Index.select_mentions owner limit page) <= limit)%nat
    /\ (exists rest, filter (Index.is_mention owner) page
                     = (Index.select_mentions owner limit page ++ rest)%list)
    /\ (forall t1 t2 t3,
          (2 <= limit)%nat ->
          Index.select_mentions owner limit
            [Demo.message "hello" t1;
             Demo.message ("<@" ++ owner ++ "> ping") t2;
             Demo.message "<!channel> standup" t3]
          = [Demo.message ("<@" ++ owner ++ "> ping") t2;
             Demo.message "<!channel> standup" t3])
    /\ ((2 <= limit)%nat ->
        fst (Index.get_mentions Demo.slack Demo.env1 Demo.ts_toISOString
               "uuid-1" "C1" 1 limit Demo.registered)
        = Val (Index.mentions_result 1
                 [Index.mkMention "<@U1> ping" "U2" "at 1700000200.000100"
                    "https://acme.slack.com/archives/C1/p1700000200000100";
                  Index.mkMention "<!channel> standup" "U2" "at 1700000100.000100"
                    "https://acme.slack.com/archives/C1/p1700000100000100"])).
Proof.
  intros owner limit page _. split; [intros msg; apply is_mention_index |].
  split; [apply select_mentions_bound |].
  split; [apply select_mentions_prefix |].
  split; [intros t1 t2 t3; apply example_stream_selected |].
  intros Hlimit.
  rewrite (get_mentions_found Demo.slack Demo.env1 Demo.ts_toISOString "uuid-1" "C1" 1
             limit Demo.registered Demo.workspace1) by reflexivity.
  cbn [fst Demo.slack SlackApi.conversations_history SlackApi.history_ok
       SlackApi.messages Demo.workspace1 Workspace.userId].
  change Demo.stream with
    [Demo.message "hello" "1700000300.000100";
     Demo.message ("<@" ++ "U1" ++ "> ping") "1700000200.000100";
     Demo.message "<!channel> standup" "1700000100.000100"].
  rewrite (example_stream_selected "U1" _ _ _ limit Hlimit). reflexivity.
Qed.

(** The owner U1 and a limit of five, on the stream of the example. *)
Lemma get_mentions_filter_witness :
  (forall msg,
     Index.is_mention "U1" msg = true <->
     Spec.occurs_ci ("<@" ++ "U1" ++ ">") (Spec.text_of msg)
     \/ Spec.occurs_ci "<!channel>" (Spec.text_of msg))
  /\ (List.length (Index.select_mentions "U1" 5 Demo.stream) <= 5)%nat
  /\ fst (Index.get_mentions Demo.slack Demo.env1 Demo.ts_toISOString
            "uuid-1" "C1" 1 5 Demo.registered)
     = Val (Index.mentions_result 1
              [Index.mkMention "<@U1> ping" "U2" "at 1700000200.000100"
                 "https://acme.slack.com/archives/C1/p1700000200000100";
               Index.mkMention "<!channel> standup" "U2" "at 1700000100.000100"
                 "https://acme.slack.com/archives/C1/p1700000100000100"]).
Proof.
  destruct (get_mentions_filter "U1" 5 Demo.stream eq_refl)
    as (Hiff & Hbound & _ & _ & Hrun).
  split; [exact Hiff |]. split; [exact Hbound |]. apply Hrun. repeat constructor.
Defined.

(** C4 (as stated) fails on [src/src/index.ts]: a message that holds the
    here token is not kept, and a message that holds the owner's token in
    another case, not the literal token, is kept. *)
Lemma get_mentions_here_token_counterexample :
  Spec.occurs "<!here>" "<!here> lunch"
  /\ Index.is_mention "U1" (Demo.message "<!here> lunch" "1700000000.000100") = false
  /\ ~ Spec.occurs "<@U1>" "<@u1> thanks"
  /\ Index.is_mention "U1" (Demo.message "<@u1> thanks" "1700000000.000200") = true.
Proof.
  split; [now exists EmptyString, " lunch" |].
  split; [reflexivity |].
  split; [| reflexivity].
  intros H. apply includes_spec in H. discriminate.
Qed.

(** C5 (amended). get_mentions sends at most one request for history, for
    up to 200 messages and without a cursor, and its result is a function
    of the page that request returns: what Slack would answer to a request
    that carries a cursor has no influence on it. *)
Theorem get_mentions_reads_one_page :
  forall (slack1 slack2 : SlackApi.Slack) (env : Env)
         (ts_toISOString : string -> Outcome string)
         (workspace_id channel_id : string) (days_back : Z) (limit : nat) (w : World),
    (forall token args,
       SlackApi.cursor args = None ->
       SlackApi.conversations_history slack1 token args
       = SlackApi.conversations_history slack2 token args) ->
    Index.get_mentions slack1 env ts_toISOString workspace_id channel_id days_back limit w
    = Index.get_mentions slack2 env ts_toISOString workspace_id channel_id days_back limit w
    /\ (exists calls,
          slack_log (snd (Index.get_mentions slack1 env ts_toISOString workspace_id
                            channel_id days_back limit w))
          = (slack_log w ++ calls)%list
          /\ (calls = []
              \/ exists token,
                   calls = [SlackApi.conversations_history_call token
                              (Index.history_args env channel_id days_back)]))
    /\ SlackApi.cursor (Index.history_args env channel_id days_back) = None
    /\ SlackApi.limit (Index.history_args env channel_id days_back) = Some 200%nat.
Proof.
  intros slack1 slack2 env iso workspace_id channel_id days_back limit w Hagree.
  destruct (find_active_workspace_pure workspace_id w) as ([workspace |] & Hfind).
  - rewrite !(get_mentions_found _ env iso workspace_id channel_id days_back limit w
                workspace Hfind).
    rewrite (Hagree (Workspace.botToken workspace)
               (Index.history_args env channel_id days_back) eq_refl).
    split; [reflexivity |].
    split; [| split; reflexivity].
    eexists. split; [reflexivity |]. right. eexists. reflexivity.
  - rewrite !(get_mentions_not_found _ env iso workspace_id channel_id days_back limit w
                Hfind).
    split; [reflexivity |]. split; [| split; reflexivity].
    exists []. split; [cbn; now rewrite app_nil_r | now left].
Qed.

(** Two workspaces that differ only behind the cursor of the first page. *)
Lemma get_mentions_reads_one_page_witness :
  Index.get_mentions Demo.paged_slack Demo.env1 Demo.ts_toISOString "uuid-1" "C1" 1 5
    Demo.registered
  = Index.get_mentions Demo.short_slack Demo.env1 Demo.ts_toISOString "uuid-1" "C1" 1 5
      Demo.registered
  /\ SlackApi.cursor (Index.history_args Demo.env1 "C1" 1) = None.
Proof.
  destruct (get_mentions_reads_one_page Demo.paged_slack Demo.short_slack Demo.env1
              Demo.ts_toISOString "uuid-1" "C1" 1 5 Demo.registered)
    as (Hsame & _ & Hcursor & _).
  - intros token args Hcursor. simpl. rewrite Hcursor. reflexivity.
  - split; [exact Hsame | exact Hcursor].
Defined.

(** C5 (as stated) fails: the first page of the channel names a cursor,
    the page behind it holds a mention of the owner inside the window, and
    get_mentions answers from the first page alone, after one request. *)
Lemma get_mentions_pagination_counterexample :
  SlackApi.conversations_history Demo.paged_slack "xoxb-1"
    (Index.history_args Demo.env1 "C1" 1) = Val Demo.first_page
  /\ SlackApi.has_more Demo.first_page = true
  /\ SlackApi.next_cursor Demo.first_page = Some "page-2"
  /\ SlackApi.conversations_history Demo.paged_slack "xoxb-1"
       (SlackApi.mkHistoryArgs "C1" (SlackApi.oldest (Index.history_args Demo.env1 "C1" 1))
          (Some 200%nat) (Some "page-2")) = Val Demo.second_page
  /\ SlackApi.messages Demo.second_page = Some [Demo.message "<@U1> ping" "1700000200.000100"]
  /\ Index.is_mention "U1" (Demo.message "<@U1> ping" "1700000200.000100") = true
  /\ Index.get_mentions Demo.paged_slack Demo.env1 Demo.ts_toISOString "uuid-1" "C1" 1 5
       Demo.registered
     = (Val (Index.mentions_result 1 []),
        mkWorld (database Demo.registered)
          [SlackApi.conversations_history_call "xoxb-1"
             (Index.history_args Demo.env1 "C1" 1)]).
Proof. repeat split. Qed.

(** The handler of [PartA] asks for history once as well, for up to 100
    messages and without a cursor. *)
Lemma partA_get_mentions_one_request (slack : SlackApi.Slack) (env : Env)
    (ts_toLocaleString : string -> string)
    (workspace_id channel_id : string) (days_back : Z) (limit : nat) (w : World) :
  exists calls,
    slack_log (snd (PartA.get_mentions slack env ts_toLocaleString workspace_id channel_id
                      days_back limit w))
    = (slack_log w ++ calls)%list
    /\ (calls = []
        \/ exists token,
             calls = [SlackApi.conversations_history_call token
                        (SlackApi.mkHistoryArgs channel_id
                           (Some (JS.string_of_Z (PartA.oldest env days_back)))
                           (Some 100%nat) None)]).
Proof.
  unfold PartA.get_mentions, PartA.find_workspace, Eff.try_catch, Eff.bind, Eff.query.
  destruct (Sql.first_row _) as [workspace |].
  - unfold Eff.request, Eff.lift, Eff.ret, Eff.throw.
    eexists. split; [| right; eexists; reflexivity].
    destruct (SlackApi.conversations_history slack _ _) as [result | e]; [| reflexivity].
    destruct (SlackApi.history_ok result); [| reflexivity]. cbn [negb].
    destruct (SlackApi.messages result) as [page |]; [| reflexivity].
    destruct (Eff.map_outcome _ _); reflexivity.
  - exists []. split; [cbn; now rewrite app_nil_r | now left].
Qed.

(** ** C6: the ledger row of a post *)

Lemma find_active_workspace_some (workspace_id : string) (w : World)
    (workspace : Workspace.t) :
  Index.find_active_workspace workspace_id w = (Val (Some workspace), w) ->
  In workspace (workspaces (database w))
  /\ Workspace.id workspace = workspace_id
  /\ Workspace.isActive workspace = true.
Proof.
  unfold Index.find_active_workspace, Eff.query, Sql.first_row, Sql.select_workspaces.
  intros H. inversion H as [Hhd]. clear H.
  destruct (filter _ _) as [| r rest] eqn:Hrows; [discriminate |].
  cbn in Hhd. inversion Hhd; subst r.
  assert (Hin : In workspace (workspace :: rest)) by now left.
  rewrite <- Hrows in Hin. apply filter_In in Hin. destruct Hin as [Hin Hp].
  apply Bool.andb_true_iff in Hp. destruct Hp as [Hid Hactive].
  apply String.eqb_eq in Hid. apply Bool.eqb_prop in Hactive. now repeat split.
Qed.

Lemma existsb_posted_id_fresh (u : string) (l : list PostedMessage.t) :
  ~ In u (map PostedMessage.id l) ->
  existsb (fun r => PostedMessage.id r =? u) l = false.
Proof.
  induction l as [| r l IH]; cbn; [reflexivity |].
  intros H. apply Bool.orb_false_iff. split.
  - apply String.eqb_neq. intros E. apply H. now left.
  - apply IH. intros Hin. apply H. now right.
Qed.

(** C6. For a workspace that is found, post_message appends a ledger row
    exactly when the send is confirmed, that is when Slack answers [ok]
    with a message timestamp.  A send that throws, is answered without
    [ok] or without timestamp, or is never attempted because the channel
    lookup threw, gives an error result and leaves the ledger as it was.
    A confirmed send appends exactly one row, which records that
    timestamp and the client message identifier when Slack gave one. *)
Theorem post_message_records_confirmed_sends :
  forall (slack : SlackApi.Slack) (env : Env)
         (workspace_id channel_id message_text : string) (w : World)
         (workspace : Workspace.t),
    Index.find_active_workspace workspace_id w = (Val (Some workspace), w) ->
    ~ In (randomUUID env) (map PostedMessage.id (postedMessages (database w))) ->
    exists (res : ToolResult) (w' : World),
      Index.post_message slack env workspace_id channel_id message_text w = (Val res, w')
      /\ workspaces (database w') = workspaces (database w)
      /\ match SlackApi.conversations_info slack (Workspace.botToken workspace) channel_id with
         | Threw _ =>
             isError res = true
             /\ postedMessages (database w') = postedMessages (database w)
         | Val channelInfo =>
             match SlackApi.chat_postMessage slack (Workspace.botToken workspace)
                     channel_id message_text None with
             | Threw _ =>
                 isError res = true
                 /\ postedMessages (database w') = postedMessages (database w)
             | Val result =>
                 match Index.sent_ts result with
                 | None =>
                     isError res = true
                     /\ postedMessages (database w') = postedMessages (database w)
                 | Some ts =>
                     isError res = false
                     /\ SlackApi.post_ok result = true
                     /\ SlackApi.ts result = Some ts
                     /\ exists row,
                          postedMessages (database w')
                          = (postedMessages (database w) ++ [row])%list
                          /\ row = Index.new_postedMessage env workspace workspace_id
                                     channel_id
                                     (Index.channel_name_of channelInfo channel_id)
                                     message_text ts result
                          /\ PostedMessage.messageTs row = ts
                          /\ PostedMessage.slackMessageId row
                             = JS.or_null match SlackApi.message result with
                                          | Some m => SlackApi.client_msg_id m
                                          | None => None
                                          end
                          /\ PostedMessage.workspaceId row = workspace_id
                          /\ PostedMessage.channelId row = channel_id
                          /\ PostedMessage.messageText row = message_text
                 end
             end
         end.
Proof.
  intros slack env workspace_id channel_id message_text w workspace Hfind Hfresh.
  destruct (find_active_workspace_some _ _ _ Hfind) as (Hin & Hid & _).
  unfold Index.post_message, Eff.try_catch, Eff.bind at 1. rewrite Hfind.
  unfold Eff.bind, Eff.request, Eff.ret, Eff.checked_statement.
  destruct (SlackApi.conversations_info slack _ _) as [channelInfo | e].
  2:{ eexists. eexists. split; [reflexivity |]. now repeat split. }
  destruct (SlackApi.chat_postMessage slack _ _ _ _) as [result | e].
  2:{ eexists. eexists. split; [reflexivity |]. now repeat split. }
  destruct (Index.sent_ts result) as [ts |] eqn:Hsent.
  2:{ eexists. eexists. split; [reflexivity |]. now repeat split. }
  cbn [database slack_log]. unfold Sql.insert_postedMessage.
  change (PostedMessage.id (Index.new_postedMessage env workspace workspace_id channel_id
            (Index.channel_name_of channelInfo channel_id) message_text ts result))
    with (randomUUID env).
  change (PostedMessage.workspaceId (Index.new_postedMessage env workspace workspace_id
            channel_id (Index.channel_name_of channelInfo channel_id) message_text ts result))
    with workspace_id.
  rewrite (existsb_posted_id_fresh _ _ Hfresh).
  assert (Hfk : existsb (fun r => Workspace.id r =? workspace_id) (workspaces (database w))
                = true).
  { apply existsb_exists. exists workspace. split; [exact Hin |]. now apply String.eqb_eq. }
  rewrite Hfk. cbn [negb].
  eexists. eexists. split; [reflexivity |]. cbn.
  split; [reflexivity |]. split; [reflexivity |].
  unfold Index.sent_ts in Hsent.
  destruct (SlackApi.ts result) as [t |] eqn:Hts; [| discriminate].
  destruct (SlackApi.post_ok result); [| discriminate].
  destruct (JS.truthy t); [| discriminate]. cbn in Hsent. inversion Hsent; subst t.
  split; [reflexivity |]. split; [reflexivity |].
  eexists. split; [reflexivity |]. now repeat split.
Qed.

(** Team T1 posts to channel C1 and Slack confirms the send. *)
Lemma post_message_records_confirmed_sends_witness :
  exists (res : ToolResult) (w' : World),
    Index.post_message Demo.slack Demo.env2 "uuid-1" "C1" "launch" Demo.registered
      = (Val res, w')
    /\ isError res = false
    /\ exists row,
         postedMessages (database w') = [row]
         /\ PostedMessage.messageTs row = "1700000400.000200"
         /\ PostedMessage.slackMessageId row = Some "m-1".
Proof.
  destruct (post_message_records_confirmed_sends Demo.slack Demo.env2 "uuid-1" "C1"
              "launch" Demo.registered Demo.workspace1)
    as (res & w' & Hrun & _ & H).
  - reflexivity.
  - simpl. intros F. exact F.
  - simpl in H. destruct H as (Herr & _ & _ & row & Hrows & _ & Hts & Hid & _).
    exists res, w'. split; [exact Hrun |]. split; [exact Herr |].
    exists row. split; [exact Hrows |]. split; [exact Hts | exact Hid].
Defined.

(** ** C7 and C8: the read side of the ledger and of the registry *)

Lemma insert_desc_perm (x : PostedMessage.t) (l : list PostedMessage.t) :
  Permutation (Sql.insert_desc x l) (x :: l).
Proof.
  induction l as [| y l IH]; cbn; [reflexivity |].
  destruct (PostedMessage.createdAt x <? PostedMessage.createdAt y)%Z; [| reflexivity].
  rewrite IH. apply perm_swap.
Qed.

Lemma orderBy_perm (l : list PostedMessage.t) :
  Permutation (Sql.orderBy_createdAt_desc l) l.
Proof.
  induction l as [| x l IH]; cbn; [reflexivity |].
  rewrite insert_desc_perm. now constructor.
Qed.

Lemma insert_desc_sorted (x : PostedMessage.t) (l : list PostedMessage.t) :
  Spec.newest_first l -> Spec.newest_first (Sql.insert_desc x l).
Proof.
  unfold Spec.newest_first. induction l as [| y l IH]; intros Hs; cbn.
  - repeat constructor.
  - inversion Hs as [| ? ? Htail Hhead]; subst.
    destruct (PostedMessage.createdAt x <? PostedMessage.createdAt y)%Z eqn:E.
    + apply Z.ltb_lt in E. constructor; [now apply IH |].
      destruct l as [| z l]; cbn.
      * constructor. lia.
      * destruct (PostedMessage.createdAt x <? PostedMessage.createdAt z)%Z;
          constructor; [now inversion Hhead | lia].
    + apply Z.ltb_ge in E. constructor; [exact Hs |]. constructor. lia.
Qed.

Lemma orderBy_sorted (l : list PostedMessage.t) :
  Spec.newest_first (Sql.orderBy_createdAt_desc l).
Proof.
  induction l as [| x l IH]; cbn; [constructor | now apply insert_desc_sorted].
Qed.

Lemma filter_all {A : Type} (p : A -> bool) (l : list A) :
  (forall x, p x = true) -> filter p l = l.
Proof.
  intros H. induction l as [| x l IH]; cbn; [reflexivity |]. now rewrite H, IH.
Qed.

(** The query of [PartB] is the page of the ordered rows that pass the
    non-empty filters. *)
Lemma partB_posted_rows (workspace_id channel_id : option string) (limit offset : nat)
    (d : DB) :
  PartB.posted_rows workspace_id channel_id limit offset d
  = firstn limit (skipn offset
      (Sql.orderBy_createdAt_desc
         (filter (Spec.matches workspace_id channel_id) (postedMessages d)))).
Proof.
  unfold PartB.posted_rows, PartB.conditions, PartB.condition, Sql.limit_offset,
    Spec.matches, Spec.filter_on.
  destruct workspace_id as [ws |], channel_id as [ch |];
    try destruct (JS.truthy ws); try destruct (JS.truthy ch); cbn;
    try (rewrite (filter_all (fun _ => true)) by reflexivity; reflexivity);
    do 3 f_equal; apply filter_ext; intros m; unfold PartB.and_all; cbn;
    rewrite ?Bool.andb_true_r; reflexivity.
Qed.

(** C7 (amended). get_posted_messages returns the page, cut by limit and
    offset, of the ledger rows that pass every filter that is supplied and
    not empty, ordered by creation time descending; an empty string given
    as a filter is treated like an absent one.  The world is left as it
    was: nothing is written and Slack is not called. *)
Theorem get_posted_messages_filtered_page :
  forall (JSON_stringify : JSON -> string) (workspace_id channel_id : option string)
         (limit offset : nat) (w : World),
    exists ordered : list PostedMessage.t,
      Permutation ordered
        (filter (Spec.matches workspace_id channel_id) (postedMessages (database w)))
      /\ Spec.newest_first ordered
      /\ PartB.posted_rows workspace_id channel_id limit offset (database w)
         = firstn limit (skipn offset ordered)
      /\ PartB.get_posted_messages JSON_stringify workspace_id channel_id limit offset w
         = (Val (Eff.ok_result
                   ("Found " ++ JS.string_of_nat
                       (List.length (firstn limit (skipn offset ordered))) ++
                    " posted message(s):" ++ JS.LF ++
                    JSON_stringify
                      (JArray (map PartB.posted_summary
                                 (firstn limit (skipn offset ordered)))))),
            w).
Proof.
  intros JSON_stringify workspace_id channel_id limit offset w.
  exists (Sql.orderBy_createdAt_desc
            (filter (Spec.matches workspace_id channel_id) (postedMessages (database w)))).
  split; [apply orderBy_perm |]. split; [apply orderBy_sorted |].
  split; [apply partB_posted_rows |].
  unfold PartB.get_posted_messages, Eff.try_catch, Eff.bind, Eff.query, Eff.ret.
  now rewrite partB_posted_rows.
Qed.

(** C7 (as stated) fails: with the empty string supplied as workspace
    filter, a row of workspace W1 is returned although it does not match
    the filter. *)
Lemma get_posted_messages_empty_filter_counterexample :
  let row := PostedMessage.mk "p1" "W1" "C1" "general" "hi" "1700000400.000200" None
               "U1" 1700000600 in
  PartB.posted_rows (Some EmptyString) None 10 0 (mkDB [] [row]) = [row]
  /\ PostedMessage.workspaceId row <> EmptyString.
Proof. split; [reflexivity | discriminate]. Qed.

(** get_posted_messages of [src/src/index.ts], for a workspace that is
    found: the rows it reads are the first [limit] of the workspace's
    ledger rows from the newest to the oldest; it answers that none was
    posted when there is none, with the error of the date conversion when
    the creation time of one of them does not print, and otherwise with
    the entries of these rows in that order; it leaves the world as it
    was. *)
Lemma index_get_posted_messages_page :
  forall (Date_toISOString : Z -> Outcome string) (workspace_id : string) (limit : nat)
         (w : World) (workspace : Workspace.t),
    Index.find_active_workspace workspace_id w = (Val (Some workspace), w) ->
    exists ordered : list PostedMessage.t,
      Permutation ordered
        (filter (fun m => PostedMessage.workspaceId m =? workspace_id)
           (postedMessages (database w)))
      /\ Spec.newest_first ordered
      /\ Index.get_posted_messages Date_toISOString workspace_id limit w
         = (Val match firstn limit ordered with
                | [] => Eff.ok_result
                          "No messages have been posted through this MCP server yet"
                | page =>
                    match Eff.map_outcome (Index.posted_entry Date_toISOString workspace)
                            page with
                    | Threw e => Eff.error_result ("Error getting posted messages: " ++ e)
                    | Val entries =>
                        Eff.ok_result
                          ("Posted Messages (" ++ JS.string_of_nat (List.length page) ++
                           "):" ++ JS.LF ++ JS.LF ++ JS.join (JS.LF ++ JS.LF) entries)
                    end
                end, w).
Proof.
  intros Date_toISOString workspace_id limit w workspace Hfind.
  eexists. split; [apply orderBy_perm |]. split; [apply orderBy_sorted |].
  unfold Index.get_posted_messages, Eff.try_catch.
  rewrite (bind_val _ _ _ _ _ Hfind).
  unfold Eff.bind, Eff.query, Eff.ret, Eff.lift, Index.posted_rows, Sql.limit_offset.
  cbn [skipn].
  destruct (firstn limit _) as [| m page]; [reflexivity |]. cbn [List.length Nat.eqb].
  now destruct (Eff.map_outcome _ (m :: page)).
Qed.

(** Team T1 with one recorded message, under a runtime that does not
    print its creation time. *)
Lemma index_get_posted_messages_page_witness :
  let row := PostedMessage.mk "p1" "uuid-1" "C1" "general" "hi" "1700000400.000200" None
               "U1" 1700000600 in
  let w := mkWorld (mkDB [Demo.workspace1] [row]) [] in
  (exists ordered : list PostedMessage.t,
     Permutation ordered
       (filter (fun m => PostedMessage.workspaceId m =? "uuid-1")
          (postedMessages (database w)))
     /\ Spec.newest_first ordered
     /\ Index.get_posted_messages Demo.invalid_toISOString "uuid-1" 5 w
        = (Val match firstn 5 ordered with
               | [] => Eff.ok_result
                         "No messages have been posted through this MCP server yet"
               | page =>
                   match Eff.map_outcome
                           (Index.posted_entry Demo.invalid_toISOString Demo.workspace1)
                           page with
                   | Threw e => Eff.error_result ("Error getting posted messages: " ++ e)
                   | Val entries =>
                       Eff.ok_result
                         ("Posted Messages (" ++ JS.string_of_nat (List.length page) ++
                          "):" ++ JS.LF ++ JS.LF ++ JS.join (JS.LF ++ JS.LF) entries)
                   end
               end, w))
  /\ Index.get_posted_messages Demo.invalid_toISOString "uuid-1" 5 w
     = (Val (Eff.error_result ("Error getting posted messages: " ++ "Invalid time value")),
        w).
Proof.
  intros row w. split; [| reflexivity].
  apply (index_get_posted_messages_page Demo.invalid_toISOString "uuid-1" 5 w
           Demo.workspace1).
  reflexivity.
Defined.

(** C8. Listing workspaces for an owner returns summaries of rows of the
    table whose owner is that user and which are active, and nothing
    else; the world is left as it was. *)
Theorem list_workspaces_owned_and_active :
  forall (JSON_stringify : JSON -> string) (user_context : string) (w : World),
    exists rows : list Workspace.t,
      PartB.list_workspaces JSON_stringify user_context w
      = (Val (Eff.ok_result
                ("Found " ++ JS.string_of_nat (List.length rows) ++ " workspace(s):" ++
                 JS.LF ++ JSON_stringify (JArray (map PartB.workspace_summary rows)))),
         w)
      /\ Forall (fun r => In r (workspaces (database w))
                          /\ Workspace.userId r = user_context
                          /\ Workspace.isActive r = true) rows.
Proof.
  intros JSON_stringify user_context w.
  exists (PartB.owned_workspaces user_context (database w)). split; [reflexivity |].
  apply Forall_forall. intros r Hin.
  unfold PartB.owned_workspaces, Sql.select_workspaces in Hin.
  apply filter_In in Hin. destruct Hin as [Hin Hp].
  apply Bool.andb_true_iff in Hp. destruct Hp as [Howner Hactive].
  apply String.eqb_eq in Howner. apply Bool.eqb_prop in Hactive. now repeat split.
Qed.

(** The listing of [src/src/index.ts] takes no owner: the rows it shows
    are active rows of the table, every active row of the table is among
    them, and the text is built from their names and descriptions; the
    world is left as it was. *)
Lemma index_list_workspaces_active_only (w : World) :
  exists rows : list Workspace.t,
    Forall (fun r => In r (workspaces (database w)) /\ Workspace.isActive r = true) rows
    /\ (forall r, In r (workspaces (database w)) -> Workspace.isActive r = true ->
                  In r rows)
    /\ Index.list_workspaces w
       = (Val (Eff.ok_result
                 (if (List.length rows =? 0)%nat
                  then "No workspaces configured yet. Use configure_workspace to add one."
                  else "Configured Workspaces:" ++ JS.LF ++ JS.LF ++
                       JS.join JS.LF
                         (map (fun r => Index.workspace_line
                                          (Workspace.teamName r, Workspace.description r))
                            rows))),
          w).
Proof.
  exists (filter (fun r => Bool.eqb (Workspace.isActive r) true) (workspaces (database w))).
  split; [| split].
  - apply Forall_forall. intros r Hin. apply filter_In in Hin.
    destruct Hin as [Hin Hp]. apply Bool.eqb_prop in Hp. now split.
  - intros r Hin Hactive. apply filter_In. split; [exact Hin |]. now rewrite Hactive.
  - unfold Index.list_workspaces, Eff.try_catch, Eff.bind, Eff.query, Eff.ret,
      Sql.select_workspaces.
    rewrite length_map, map_map. now destruct (List.length _ =? 0)%nat.
Qed.

(** ** C9: the stored credential and the read paths *)

Section TokenBlind.

Variable A : Type.
Variable p : Workspace.t -> bool.
Variable g : Workspace.t -> A.
Hypothesis p_blind : forall token r, p (Spec.with_token token r) = p r.
Hypothesis g_blind : forall token r, g (Spec.with_token token r) = g r.

Lemma select_blind (l l' : list Workspace.t) :
  Forall2 Spec.same_but_token l l' ->
  map g (filter p l) = map g (filter p l').
Proof.
  induction 1 as [| r r' l l' Hr _ IH]; [reflexivity |].
  cbn. rewrite Hr, p_blind. destruct (p r); cbn; [rewrite g_blind |]; now rewrite IH.
Qed.

End TokenBlind.

Lemma find_active_workspace_blind (workspace_id : string) (w w' : World) :
  Spec.same_but_tokens w w' ->
  (Index.find_active_workspace workspace_id w = (Val None, w)
   /\ Index.find_active_workspace workspace_id w' = (Val None, w'))
  \/ exists r token,
       Index.find_active_workspace workspace_id w = (Val (Some r), w)
       /\ Index.find_active_workspace workspace_id w'
          = (Val (Some (Spec.with_token token r)), w').
Proof.
  intros [Hrows _]. unfold Index.find_active_workspace, Eff.query, Sql.first_row,
    Sql.select_workspaces.
  induction Hrows as [| r r' l l' Hr _ IH]; [now left |].
  cbn [filter]. rewrite Hr.
  change (Workspace.id (Spec.with_token (Workspace.botToken r') r)) with (Workspace.id r).
  change (Workspace.isActive (Spec.with_token (Workspace.botToken r') r))
    with (Workspace.isActive r).
  destruct ((Workspace.id r =? workspace_id) && Bool.eqb (Workspace.isActive r) true).
  - right. now exists r, (Workspace.botToken r').
  - destruct IH as [[H1 H2] | (r0 & token & H1 & H2)].
    + left. inversion H1 as [E1]. inversion H2 as [E2]. now rewrite E1, E2.
    + right. exists r0, token. inversion H1 as [E1]. inversion H2 as [E2].
      now rewrite E1, E2.
Qed.

(** C9. The result a read tool returns does not depend on the values of
    the [bot_token] column: on two databases that differ only there,
    list_workspaces, get_mentions, list_user_channels and
    get_posted_messages return the same payload, Slack's answers being
    taken as given. *)
Theorem read_results_independent_of_stored_token :
  forall (slack : SlackApi.Slack) (env : Env)
         (ts_toISOString : string -> Outcome string) (Date_toISOString : Z -> Outcome string)
         (workspace_id channel_id : string) (days_back : Z) (limit : nat)
         (private_only : bool) (w w' : World),
    Spec.same_but_tokens w w' ->
    Spec.answers_fixed slack ->
    fst (Index.list_workspaces w) = fst (Index.list_workspaces w')
    /\ fst (Index.get_mentions slack env ts_toISOString workspace_id channel_id
              days_back limit w)
       = fst (Index.get_mentions slack env ts_toISOString workspace_id channel_id
                days_back limit w')
    /\ fst (Index.list_user_channels slack workspace_id limit private_only w)
       = fst (Index.list_user_channels slack workspace_id limit private_only w')
    /\ fst (Index.get_posted_messages Date_toISOString workspace_id limit w)
       = fst (Index.get_posted_messages Date_toISOString workspace_id limit w').
Proof.
  intros slack env iso iso' workspace_id channel_id days_back limit private_only
    w w' Hsame Hfixed.
  pose proof (find_active_workspace_blind workspace_id w w' Hsame) as Hfind.
  destruct Hsame as [Hrows Hledger].
  split.
  { unfold Index.list_workspaces, Eff.try_catch, Eff.bind, Eff.query, Sql.select_workspaces.
    rewrite (select_blind _ (fun r => Bool.eqb (Workspace.isActive r) true)
               (fun r => (Workspace.teamName r, Workspace.description r))
               (fun _ _ => eq_refl) (fun _ _ => eq_refl) _ _ Hrows).
    destruct (List.length _ =? 0)%nat; reflexivity. }
  destruct Hfind as [[H1 H2] | (r & token & H1 & H2)].
  - repeat split.
    + now rewrite (get_mentions_not_found _ _ _ _ _ _ _ _ H1),
        (get_mentions_not_found _ _ _ _ _ _ _ _ H2).
    + unfold Index.list_user_channels, Eff.try_catch, Eff.bind. now rewrite H1, H2.
    + unfold Index.get_posted_messages, Eff.try_catch, Eff.bind. now rewrite H1, H2.
  - repeat split.
    + rewrite (get_mentions_found _ _ _ _ _ _ _ _ _ H1),
        (get_mentions_found _ _ _ _ _ _ _ _ _ H2). cbn [fst].
      change (Workspace.botToken (Spec.with_token token r)) with token.
      destruct (Hfixed (Workspace.botToken r) token) as [Hhistory _].
      rewrite Hhistory. reflexivity.
    + unfold Index.list_user_channels, Eff.try_catch.
      rewrite (bind_val _ _ _ _ _ H1), (bind_val _ _ _ _ _ H2).
      change (Workspace.botToken (Spec.with_token token r)) with token.
      destruct (Hfixed (Workspace.botToken r) token) as [_ Hlist].
      unfold Eff.bind, Eff.request, Eff.ret.
      destruct private_only; cbn [negb].
      * rewrite Hlist. destruct (SlackApi.conversations_list slack token _ _);
          [| reflexivity].
        destruct (List.length _ =? 0)%nat; reflexivity.
      * rewrite Hlist.
        destruct (SlackApi.conversations_list slack token "public_channel" limit)
          as [publicChannels | e]; [| reflexivity].
        rewrite Hlist. destruct (SlackApi.conversations_list slack token _ _);
          [| reflexivity].
        destruct (List.length _ =? 0)%nat; reflexivity.
    + unfold Index.get_posted_messages, Eff.try_catch.
      rewrite (bind_val _ _ _ _ _ H1), (bind_val _ _ _ _ _ H2).
      change (Index.posted_entry iso' (Spec.with_token token r))
        with (Index.posted_entry iso' r).
      unfold Eff.bind, Eff.query, Eff.ret, Eff.lift, Index.posted_rows. rewrite Hledger.
      destruct (List.length _ =? 0)%nat; [reflexivity |].
      destruct (Eff.map_outcome _ _); reflexivity.
Qed.

(** Team T1 under two different stored credentials. *)
Lemma read_results_independent_of_stored_token_witness :
  let other := mkWorld (mkDB [Spec.with_token "xoxb-rotated" Demo.workspace1] []) [] in
  fst (Index.list_workspaces Demo.registered) = fst (Index.list_workspaces other)
  /\ fst (Index.get_mentions Demo.slack Demo.env1 Demo.ts_toISOString "uuid-1" "C1" 1 5
            Demo.registered)
     = fst (Index.get_mentions Demo.slack Demo.env1 Demo.ts_toISOString "uuid-1" "C1" 1 5
              other)
  /\ fst (Index.list_user_channels Demo.slack "uuid-1" 5 false Demo.registered)
     = fst (Index.list_user_channels Demo.slack "uuid-1" 5 false other)
  /\ fst (Index.get_posted_messages Demo.Date_toISOString "uuid-1" 5 Demo.registered)
     = fst (Index.get_posted_messages Demo.Date_toISOString "uuid-1" 5 other).
Proof.
  intros other.
  apply (read_results_independent_of_stored_token Demo.slack Demo.env1
           Demo.ts_toISOString Demo.Date_toISOString "uuid-1" "C1" 1 5 false
           Demo.registered other).
  - split; [| reflexivity]. constructor; [reflexivity | constructor].
  - intros token token'. split; reflexivity.
Defined.

(** The listing of [PartB] reads whole rows and still returns a payload
    that does not depend on the stored credentials. *)
Lemma partB_list_workspaces_independent_of_stored_token
    (JSON_stringify : JSON -> string) (user_context : string) (w w' : World) :
  Spec.same_but_tokens w w' ->
  fst (PartB.list_workspaces JSON_stringify user_context w)
  = fst (PartB.list_workspaces JSON_stringify user_context w').
Proof.
  intros [Hrows _].
  unfold PartB.list_workspaces, Eff.try_catch, Eff.bind, Eff.query, Eff.ret,
    PartB.owned_workspaces, Sql.select_workspaces. cbn [fst].
  pose proof (select_blind _
    (fun r => (Workspace.userId r =? user_context) && Bool.eqb (Workspace.isActive r) true)
    PartB.workspace_summary (fun _ _ => eq_refl) (fun _ _ => eq_refl) _ _ Hrows) as Hmap.
  rewrite Hmap.
  apply (f_equal (@List.length JSON)) in Hmap. rewrite !length_map in Hmap.
  now rewrite Hmap.
Qed.

(** Team T1 listed for its owner under two different stored credentials. *)
Lemma partB_list_workspaces_independent_of_stored_token_witness :
  fst (PartB.list_workspaces (fun _ => "[]") "U1" Demo.registered)
  = fst (PartB.list_workspaces (fun _ => "[]") "U1"
           (mkWorld (mkDB [Spec.with_token "xoxb-rotated" Demo.workspace1] []) [])).
Proof.
  apply (partB_list_workspaces_independent_of_stored_token (fun _ => "[]") "U1"
           Demo.registered
           (mkWorld (mkDB [Spec.with_token "xoxb-rotated" Demo.workspace1] []) [])).
  split; [| reflexivity]. constructor; [reflexivity | constructor].
Defined.

(** ** C2: the credential cipher of [PartB] *)

(** A platform to run the cipher on: text and base64 are the bytes
    themselves, and the sealed data is the data followed by a tag that
    spells out the key and the nonce and ends in sixteen zero bytes.  It
    has no secrecy; it meets the contract of [PartB.Platform] and is
    authentic in the sense of [Spec.authentic], which is all the
    statements below use. *)
Module DemoPlatform.

Definition tag (key iv : list byte) : list byte :=
  (key ++ iv ++ repeat x00 16)%list.

Definition seal (key iv data : list byte) : list byte := (data ++ tag key iv)%list.

Definition unseal (key iv sealed : list byte) : Outcome (list byte) :=
  let n := (List.length sealed - List.length (tag key iv))%nat in
  if (List.length sealed <? List.length (tag key iv))%nat then Threw "OperationError"
  else if list_eq_dec byte_eq_dec (skipn n sealed) (tag key iv) then Val (firstn n sealed)
  else Threw "OperationError".

Lemma tag_length (key iv : list byte) : (16 <= List.length (tag key iv))%nat.
Proof.
  unfold tag. rewrite !length_app, repeat_length. lia.
Qed.

Lemma unseal_seal (key iv data : list byte) : unseal key iv (seal key iv data) = Val data.
Proof.
  unfold unseal, seal. rewrite length_app.
  replace (List.length data + List.length (tag key iv) - List.length (tag key iv))%nat
    with (List.length data) by lia.
  destruct (Nat.ltb_spec (List.length data + List.length (tag key iv))
              (List.length (tag key iv))) as [Hlt | _]; [lia |].
  rewrite skipn_app, skipn_all, Nat.sub_diag. cbn [skipn app].
  destruct (list_eq_dec byte_eq_dec (tag key iv) (tag key iv)) as [_ | Hne];
    [| now contradiction Hne].
  rewrite firstn_app, firstn_all, Nat.sub_diag. cbn [firstn]. now rewrite app_nil_r.
Qed.

Lemma unseal_short (key iv sealed : list byte) :
  (List.length sealed < 16)%nat -> exists e, unseal key iv sealed = Threw e.
Proof.
  intros H. unfold unseal. pose proof (tag_length key iv) as Htag.
  destruct (Nat.ltb_spec (List.length sealed) (List.length (tag key iv))) as [_ | Hge];
    [now eexists | lia].
Qed.

Lemma unseal_sealed (key iv sealed data : list byte) :
  unseal key iv sealed = Val data -> sealed = seal key iv data.
Proof.
  unfold unseal, seal.
  set (n := (List.length sealed - List.length (tag key iv))%nat).
  destruct (List.length sealed <? List.length (tag key iv))%nat; [discriminate |].
  destruct (list_eq_dec byte_eq_dec _ (tag key iv)) as [Htag | _]; [| discriminate].
  intros H. injection H as <-.
  transitivity (firstn n sealed ++ skipn n sealed)%list;
    [symmetry; apply firstn_skipn | now rewrite Htag].
Qed.

Lemma app_same_length {A : Type} (l1 l2 k1 k2 : list A) :
  (l1 ++ k1 = l2 ++ k2)%list -> List.length k1 = List.length k2 -> k1 = k2.
Proof.
  intros H Hk.
  assert (Hl : List.length l1 = List.length l2).
  { apply (f_equal (@List.length A)) in H. rewrite !length_app in H. lia. }
  apply (f_equal (skipn (List.length l1))) in H.
  rewrite skipn_app, skipn_all, Nat.sub_diag in H. rewrite Hl in H.
  rewrite skipn_app, skipn_all, Nat.sub_diag in H. exact H.
Qed.

Lemma seal_binds_key (key key' iv data data' : list byte) :
  List.length key' = List.length key ->
  seal key' iv data' = seal key iv data -> key' = key.
Proof.
  unfold seal, tag. intros Hlen H. rewrite !app_assoc in H.
  apply app_inv_tail in H. apply app_inv_tail in H.
  exact (app_same_length _ _ _ _ H Hlen).
Qed.

Definition platform : PartB.Platform :=
  PartB.mkPlatform
    list_byte_of_string
    string_of_list_byte
    string_of_list_byte
    (fun s => Val (list_byte_of_string s))
    seal
    unseal
    (fun _ => true)
    (fun s _ => string_of_list_byte_of_string s)
    (fun bytes => f_equal Val (list_byte_of_string_of_list_byte bytes))
    unseal_seal
    unseal_short.

Lemma authentic : Spec.authentic platform.
Proof. split; [exact unseal_sealed | exact seal_binds_key]. Qed.

(** Twelve bytes standing for the nonce of a request. *)
Definition nonce : list byte := repeat x2a 12.

End DemoPlatform.

Section CipherFacts.

Variable platform : PartB.Platform.

Lemma split_nonce (iv sealed : list byte) :
  List.length iv = 12%nat ->
  firstn 12 (iv ++ sealed) = iv /\ skipn 12 (iv ++ sealed) = sealed.
Proof.
  intros H. rewrite <- H. rewrite firstn_app, skipn_app, firstn_all, skipn_all, Nat.sub_diag.
  cbn. now rewrite app_nil_r.
Qed.

Lemma importKey_32 (keyData : list byte) :
  List.length keyData = 32%nat -> PartB.importKey keyData = Val keyData.
Proof. intros H. unfold PartB.importKey. now rewrite H. Qed.

(** What [decrypt] does with a blob that decodes to nonce and sealed
    data. *)
Lemma decrypt_decoded (blob key : string) (data : list byte) :
  PartB.atob platform blob = Val data ->
  List.length (PartB.TextEncoder_encode platform (PartB.key_text key)) = 32%nat ->
  PartB.decrypt platform blob key =
  match PartB.subtle_decrypt platform
          (PartB.TextEncoder_encode platform (PartB.key_text key))
          (firstn 12 data) (skipn 12 data) with
  | Threw e => Threw e
  | Val decrypted => Val (PartB.TextDecoder_decode platform decrypted)
  end.
Proof.
  intros Hblob Hkey. unfold PartB.decrypt. now rewrite Hblob, (importKey_32 _ Hkey).
Qed.

End CipherFacts.




(** ** The earlier handler texts on an inactive workspace *)

Module Earlier.

(** Team T1 switched off, its token stored as [PartB] stores it. *)
Definition sealed_token : string :=
  match PartB.encrypt DemoPlatform.platform "xoxb-1" "secret" DemoPlatform.nonce with
  | Val blob => blob
  | Threw _ => EmptyString
  end.

Definition switched_off (token : string) : World :=
  mkWorld (mkDB [Workspace.mk "uuid-1" "Acme" "T1" "https://acme.slack.com/" token
                   "U1" "UBOT" None 1700000500 1700000500 false] []) [].

Definition stringify (_ : JSON) : string := "[]".
Definition parseFloat_ge (_ : option string) (_ : Z) : bool := true.
Definition ts_toLocaleString (ts : string) : string := ts.

End Earlier.

Lemma find_workspace_by_id (r : Workspace.t) (w : World) :
  NoDup (map Workspace.id (workspaces (database w))) ->
  In r (workspaces (database w)) ->
  PartA.find_workspace (Workspace.id r) w = (Val (Some r), w).
Proof.
  intros Hnd Hin.
  unfold PartA.find_workspace, Eff.query, Sql.first_row, Sql.select_workspaces.
  replace (filter _ (workspaces (database w))) with [r]; [reflexivity |].
  symmetry. induction (workspaces (database w)) as [| x l IH]; [contradiction |].
  cbn in Hnd. inversion Hnd as [| ? ? Hx Hl]; subst. cbn [filter].
  destruct Hin as [-> | Hin].
  - rewrite String.eqb_refl. f_equal.
    apply existsb_filter_nil. apply Bool.not_true_is_false. intros Hex.
    apply existsb_exists in Hex. destruct Hex as (y & Hy & Hid).
    apply String.eqb_eq in Hid. apply Hx. rewrite <- Hid. now apply in_map.
  - assert (Hne : (Workspace.id x =? Workspace.id r) = false).
    { apply String.eqb_neq. intros E. apply Hx. rewrite E. now apply in_map. }
    rewrite Hne. now apply IH.
Qed.

(** The lookup of [PartB] does not read the active flag: for every
    workspace row that is switched off, in a table without repeated
    identifiers, get_mentions under its identifier decrypts the stored
    token and sends the search for the owner's mentions to Slack under
    it. *)
Lemma partB_get_mentions_accepts_inactive_workspace :
  forall (platform : PartB.Platform) (slack : SlackApi.Slack) (env : Env)
         (ENCRYPTION_KEY : string) (JSON_stringify : JSON -> string)
         (parseFloat_ge : option string -> Z -> bool) (days_back : Z) (limit : nat)
         (w : World) (r : Workspace.t) (token : string),
    NoDup (map Workspace.id (workspaces (database w))) ->
    In r (workspaces (database w)) ->
    Workspace.isActive r = false ->
    PartB.decrypt platform (Workspace.botToken r) ENCRYPTION_KEY = Val token ->
    slack_log (snd (PartB.get_mentions platform slack env ENCRYPTION_KEY JSON_stringify
                      parseFloat_ge (Workspace.id r) days_back limit w))
    = (slack_log w ++
       [SlackApi.search_messages_call token ("<@" ++ Workspace.userId r ++ ">") limit])%list.
Proof.
  intros platform slack env ENCRYPTION_KEY JSON_stringify parseFloat_ge days_back limit
         w r token Hnd Hin _ Htoken.
  pose proof (find_workspace_by_id r w Hnd Hin) as Hfind.
  unfold PartB.get_mentions, Eff.try_catch.
  change (PartB.find_workspace (Workspace.id r)) with (PartA.find_workspace (Workspace.id r)).
  rewrite (bind_val _ _ _ _ _ Hfind).
  unfold Eff.bind, Eff.lift, Eff.request, Eff.ret. rewrite Htoken. cbv zeta.
  destruct (SlackApi.search_messages slack token _ limit) as [answer | e]; [| reflexivity].
  destruct (SlackApi.search_ok answer); [| reflexivity].
  now destruct (SlackApi.matches answer).
Qed.

(** Team T1 switched off, its token sealed under the key secret. *)
Lemma partB_get_mentions_accepts_inactive_workspace_witness :
  slack_log (snd (PartB.get_mentions DemoPlatform.platform Demo.slack Demo.env1 "secret"
                    Earlier.stringify Earlier.parseFloat_ge "uuid-1" 1 5
                    (Earlier.switched_off Earlier.sealed_token)))
  = [SlackApi.search_messages_call "xoxb-1" "<@U1>" 5].
Proof.
  apply (partB_get_mentions_accepts_inactive_workspace DemoPlatform.platform Demo.slack
           Demo.env1 "secret" Earlier.stringify Earlier.parseFloat_ge 1 5
           (Earlier.switched_off Earlier.sealed_token)
           (Workspace.mk "uuid-1" "Acme" "T1" "https://acme.slack.com/" Earlier.sealed_token
              "U1" "UBOT" None 1700000500 1700000500 false) "xoxb-1").
  - simpl. repeat constructor. intros [].
  - now left.
  - reflexivity.
  - reflexivity.
Defined.

(** So does the lookup of [PartA]: for every workspace row that is
    switched off, in a table without repeated identifiers, get_mentions
    under its identifier requests the channel history from Slack under
    the stored token. *)
Lemma partA_get_mentions_accepts_inactive_workspace :
  forall (slack : SlackApi.Slack) (env : Env) (ts_toLocaleString : string -> string)
         (channel_id : string) (days_back : Z) (limit : nat) (w : World)
         (r : Workspace.t),
    NoDup (map Workspace.id (workspaces (database w))) ->
    In r (workspaces (database w)) ->
    Workspace.isActive r = false ->
    slack_log (snd (PartA.get_mentions slack env ts_toLocaleString (Workspace.id r)
                      channel_id days_back limit w))
    = (slack_log w ++
       [SlackApi.conversations_history_call (Workspace.botToken r)
          (PartA.history_args env channel_id days_back)])%list.
Proof.
  intros slack env ts_toLocaleString channel_id days_back limit w r Hnd Hin _.
  pose proof (find_workspace_by_id r w Hnd Hin) as Hfind.
  unfold PartA.get_mentions, Eff.try_catch.
  rewrite (bind_val _ _ _ _ _ Hfind).
  unfold Eff.bind, Eff.lift, Eff.request, Eff.ret, Eff.throw. cbv zeta.
  destruct (SlackApi.conversations_history slack _ _) as [answer | e]; [| reflexivity].
  destruct (negb (SlackApi.history_ok answer)); [reflexivity |].
  destruct (SlackApi.messages answer) as [page |]; [| reflexivity].
  now destruct (Eff.map_outcome _ _).
Qed.

(** Team T1 switched off, its token stored in the clear. *)
Lemma partA_get_mentions_accepts_inactive_workspace_witness :
  slack_log (snd (PartA.get_mentions Demo.slack Demo.env1 Earlier.ts_toLocaleString
                    "uuid-1" "C1" 1 5 (Earlier.switched_off "xoxb-1")))
  = [SlackApi.conversations_history_call "xoxb-1"
       (PartA.history_args Demo.env1 "C1" 1)].
Proof.
  apply (partA_get_mentions_accepts_inactive_workspace Demo.slack Demo.env1
           Earlier.ts_toLocaleString "C1" 1 5 (Earlier.switched_off "xoxb-1")
           (Workspace.mk "uuid-1" "Acme" "T1" "https://acme.slack.com/" "xoxb-1"
              "U1" "UBOT" None 1700000500 1700000500 false)).
  - simpl. repeat constructor. intros [].
  - now left.
  - reflexivity.
Defined.

(* ================================================================== *)
(** * Further properties of the handlers *)
(* ================================================================== *)

(** ** The registry under registration *)

Lemma map_id_update (T : string) (f : Workspace.t -> Workspace.t) (l : list Workspace.t) :
  (forall r, Workspace.id (f r) = Workspace.id r) ->
  map Workspace.id (map (fun r => if Workspace.teamId r =? T then f r else r) l)
  = map Workspace.id l.
Proof.
  intros Hf. rewrite map_map. apply map_ext. intros r.
  destruct (Workspace.teamId r =? T); [apply Hf | reflexivity].
Qed.

Lemma map_team_update (T : string) (f : Workspace.t -> Workspace.t) (l : list Workspace.t) :
  (forall r, Workspace.teamId (f r) = Workspace.teamId r) ->
  map Workspace.teamId (map (fun r => if Workspace.teamId r =? T then f r else r) l)
  = map Workspace.teamId l.
Proof.
  intros Hf. rewrite map_map. apply map_ext. intros r.
  destruct (Workspace.teamId r =? T); [apply Hf | reflexivity].
Qed.

Lemma existsb_false_not_in (u : string) (key : Workspace.t -> string)
    (l : list Workspace.t) :
  existsb (fun r => key r =? u) l = false -> ~ In u (map key l).
Proof.
  intros H Hin. apply in_map_iff in Hin. destruct Hin as (r & Hr & Hin).
  assert (existsb (fun r => key r =? u) l = true).
  { apply existsb_exists. exists r. split; [exact Hin | now apply String.eqb_eq]. }
  congruence.
Qed.

Lemma NoDup_snoc {A : Type} (l : list A) (x : A) :
  NoDup l -> ~ In x l -> NoDup (l ++ [x]).
Proof.
  intros Hl Hx. apply NoDup_app; [exact Hl | repeat constructor; intros [] |].
  intros y Hy [<- | []]. contradiction.
Qed.

(** The insert branch, whatever the database says to the new row. *)
Lemma configure_workspace_inserting (slack : SlackApi.Slack) (env : Env)
    (bot_token user_id : string) (description : option string)
    (a : SlackApi.AuthTestResponse) (name T url bot : string) (w : World) :
  SlackApi.auth_test slack bot_token = Val a ->
  Index.verified a = Some (name, T, url, bot) ->
  filter (fun r => Workspace.teamId r =? T) (workspaces (database w)) = [] ->
  Index.configure_workspace slack env bot_token user_id description w =
  match Sql.insert_workspace
          (Index.new_workspace env name T url bot_token user_id bot description)
          (database w) with
  | Val (row, d) =>
      (Val (Eff.ok_result (Index.configured_text row)),
       mkWorld d (slack_log w ++ [SlackApi.auth_test_call bot_token]))
  | Threw e =>
      (Val (Eff.error_result ("Error configuring workspace: " ++ e)),
       mkWorld (database w) (slack_log w ++ [SlackApi.auth_test_call bot_token]))
  end.
Proof.
  intros answered checked Hrows. unfold Index.configure_workspace. run_handler.
  rewrite answered, checked. cbn.
  unfold Sql.select_workspaces. rewrite Hrows. cbn.
  destruct (Sql.insert_workspace _ _) as [[row d] | e]; reflexivity.
Qed.

(** What a registration can do to the database: nothing, a rewrite in
    place of the rows of one team, or one row appended under keys that
    were unused. *)
Lemma configure_workspace_database (slack : SlackApi.Slack) (env : Env)
    (bot_token user_id : string) (description : option string) (w : World) :
  let d := database w in
  let d' := database (snd (Index.configure_workspace slack env bot_token user_id
                             description w)) in
  postedMessages d' = postedMessages d
  /\ (workspaces d' = workspaces d
      \/ (exists name T url bot,
            workspaces d'
            = map (fun r => if Workspace.teamId r =? T
                            then Index.set_on_update env name url bot_token user_id bot
                                   description r
                            else r) (workspaces d))
      \/ (exists row,
            workspaces d' = (workspaces d ++ [row])%list
            /\ ~ In (Workspace.id row) (map Workspace.id (workspaces d))
            /\ ~ In (Workspace.teamId row) (map Workspace.teamId (workspaces d)))).
Proof.
  cbv zeta.
  destruct (SlackApi.auth_test slack bot_token) as [a | e] eqn:Hauth.
  2:{ unfold Index.configure_workspace. run_handler. rewrite Hauth. cbn.
      now split; [| left]. }
  destruct (Index.verified a) as [[[[name T] url] bot] |] eqn:Hok.
  2:{ unfold Index.configure_workspace. run_handler. rewrite Hauth, Hok. cbn.
      now split; [| left]. }
  destruct (filter (fun r => Workspace.teamId r =? T) (workspaces (database w)))
    as [| r0 rest] eqn:Hrows.
  - rewrite (configure_workspace_inserting slack env bot_token user_id description
               a name T url bot w Hauth Hok Hrows).
    unfold Sql.insert_workspace.
    change (Workspace.id (Index.new_workspace env name T url bot_token user_id bot description))
      with (randomUUID env).
    change (Workspace.teamId (Index.new_workspace env name T url bot_token user_id bot
                                description)) with T.
    destruct (existsb (fun r => Workspace.id r =? randomUUID env) _) eqn:Hid; cbn;
      [now split; [| left] |].
    destruct (existsb (fun r => Workspace.teamId r =? T) _) eqn:Hteam; cbn;
      [now split; [| left] |].
    split; [reflexivity |]. right. right. eexists. split; [reflexivity |].
    split; [now apply existsb_false_not_in in Hid | now apply existsb_false_not_in in Hteam].
  - rewrite (configure_workspace_existing slack env bot_token user_id description
               a name T url bot Hauth Hok w r0 rest Hrows). cbn.
    split; [reflexivity |]. right. left. now exists name, T, url, bot.
Qed.

(** configure_workspace keeps the keys of the registry unique: whatever
    Slack answers and whatever identifier is drawn, a registry without
    two rows of one identifier or of one team stays so. *)
Theorem configure_workspace_keeps_keys_unique :
  forall (slack : SlackApi.Slack) (env : Env) (bot_token user_id : string)
         (description : option string) (w : World),
    Spec.keys_unique (database w) ->
    Spec.keys_unique
      (database (snd (Index.configure_workspace slack env bot_token user_id description w))).
Proof.
  intros slack env bot_token user_id description w [Hids Hteams].
  destruct (configure_workspace_database slack env bot_token user_id description w)
    as (_ & [Hsame | [(name & T & url & bot & Hupd) | (row & Happ & Hid & Hteam)]]);
    unfold Spec.keys_unique.
  - now rewrite Hsame.
  - rewrite Hupd, map_id_update, map_team_update by reflexivity. now split.
  - rewrite Happ, !map_app. cbn. split; now apply NoDup_snoc.
Qed.

(** Team T1 registers again; a second team would be drawn the identifier
    uuid-2. *)
Lemma configure_workspace_keeps_keys_unique_witness :
  Spec.keys_unique
    (database (snd (Index.configure_workspace Demo.slack Demo.env2 "xoxb-2" "U1" None
                      Demo.registered))).
Proof.
  apply (configure_workspace_keeps_keys_unique Demo.slack Demo.env2 "xoxb-2" "U1" None
           Demo.registered).
  split; simpl; repeat constructor; intros [].
Defined.

(** A credential that Slack does not verify is not registered: when
    [auth.test] throws, answers without [ok] or leaves out team name,
    team id, URL or user id, the tool returns an error after that one
    request and the database is as it was. *)
Theorem configure_workspace_unverified_writes_nothing :
  forall (slack : SlackApi.Slack) (env : Env) (bot_token user_id : string)
         (description : option string) (w : World),
    match SlackApi.auth_test slack bot_token with
    | Val a => Index.verified a = None
    | Threw _ => True
    end ->
    exists res,
      Index.configure_workspace slack env bot_token user_id description w
      = (Val res, mkWorld (database w) (slack_log w ++ [SlackApi.auth_test_call bot_token]))
      /\ isError res = true.
Proof.
  intros slack env bot_token user_id description w H.
  unfold Index.configure_workspace. run_handler.
  destruct (SlackApi.auth_test slack bot_token) as [a | e]; cbn.
  - rewrite H. cbn. eexists. split; reflexivity.
  - eexists. split; reflexivity.
Qed.

(** A token whose answer names no workspace. *)
Lemma configure_workspace_unverified_writes_nothing_witness :
  exists res,
    Index.configure_workspace Demo.revoked_slack Demo.env1 "xoxb-0" "U1" None Demo.empty
    = (Val res, mkWorld (database Demo.empty) [SlackApi.auth_test_call "xoxb-0"])
    /\ isError res = true.
Proof.
  apply (configure_workspace_unverified_writes_nothing Demo.revoked_slack Demo.env1
           "xoxb-0" "U1" None Demo.empty).
  reflexivity.
Defined.

Lemma filter_unique_id (P : Workspace.t -> bool) (l : list Workspace.t) (r : Workspace.t) :
  NoDup (map Workspace.id l) -> In r l -> P r = true ->
  filter (fun x => (Workspace.id x =? Workspace.id r) && P x) l = [r].
Proof.
  induction l as [| x l IH]; intros Hnd Hin HP; [contradiction |].
  cbn in Hnd. inversion Hnd as [| ? ? Hx Hl]; subst. cbn [filter].
  destruct Hin as [-> | Hin].
  - rewrite String.eqb_refl, HP. cbn. f_equal.
    apply existsb_filter_nil. apply Bool.not_true_is_false. intros Hex.
    apply existsb_exists in Hex. destruct Hex as (y & Hy & Hyp).
    apply Bool.andb_true_iff in Hyp. destruct Hyp as [Hid _]. apply String.eqb_eq in Hid.
    apply Hx. rewrite <- Hid. now apply in_map.
  - assert (Hne : (Workspace.id x =? Workspace.id r) = false).
    { apply String.eqb_neq. intros E. apply Hx. rewrite E. now apply in_map. }
    rewrite Hne. cbn. now apply IH.
Qed.

(** Registration makes the workspace resolvable: after a registration
    that Slack verifies, in a registry without repeated identifiers, the
    result states an identifier on its line [Workspace ID:], and the
    lookup the other tools start with finds, under that identifier, the
    row of the team with the credential and owner just supplied, active
    whatever it was before. *)
Theorem configure_workspace_makes_workspace_resolvable :
  forall (slack : SlackApi.Slack) (env : Env) (bot_token user_id : string)
         (description : option string) (a : SlackApi.AuthTestResponse)
         (name T url bot : string) (w : World),
    SlackApi.auth_test slack bot_token = Val a ->
    Index.verified a = Some (name, T, url, bot) ->
    NoDup (map Workspace.id (workspaces (database w))) ->
    ~ In (randomUUID env) (map Workspace.id (workspaces (database w))) ->
    exists (row : Workspace.t) (text : string) (w' : World),
      Index.configure_workspace slack env bot_token user_id description w
      = (Val (mkResult text false), w')
      /\ Spec.reports_id text (Workspace.id row)
      /\ Index.find_active_workspace (Workspace.id row) w' = (Val (Some row), w')
      /\ Workspace.teamId row = T
      /\ Workspace.botToken row = bot_token
      /\ Workspace.userId row = user_id
      /\ Workspace.isActive row = true.
Proof.
  intros slack env bot_token user_id description a name T url bot w Hauth Hok Hnd Hfresh.
  set (for_team := fun r : Workspace.t => Workspace.teamId r =? T).
  set (f := Index.set_on_update env name url bot_token user_id bot description).
  destruct (filter for_team (workspaces (database w))) as [| r0 rest] eqn:Hrows.
  - set (new := Index.new_workspace env name T url bot_token user_id bot description).
    exists new, (Index.configured_text new). eexists.
    split; [exact (configure_workspace_absent slack env bot_token user_id description
                     a name T url bot Hauth Hok w Hrows Hfresh) |].
    split; [apply configured_text_reports_id |]. split; [| now repeat split].
    unfold Index.find_active_workspace, Eff.query, Sql.first_row, Sql.select_workspaces.
    cbn [database workspaces]. fold new.
    rewrite (filter_unique_id (fun r => Bool.eqb (Workspace.isActive r) true)
               (workspaces (database w) ++ [new]) new); [reflexivity | | | reflexivity].
    + rewrite map_app. now apply NoDup_snoc.
    + apply in_or_app. right. now left.
  - assert (Hr0 : In r0 (workspaces (database w)) /\ for_team r0 = true).
    { apply filter_In. rewrite Hrows. now left. }
    destruct Hr0 as [Hin0 Hteam0].
    exists (f r0), (Index.updated_text (f r0)). eexists.
    split; [exact (configure_workspace_existing slack env bot_token user_id description
                     a name T url bot Hauth Hok w r0 rest Hrows) |].
    split; [apply (updated_text_reports_id (f r0)) |].
    split; [| split; [now apply String.eqb_eq in Hteam0 | now repeat split]].
    unfold Index.find_active_workspace, Eff.query, Sql.first_row, Sql.select_workspaces.
    cbn [database workspaces]. fold f. fold for_team.
    rewrite (filter_unique_id (fun r => Bool.eqb (Workspace.isActive r) true) _ (f r0));
      [reflexivity | | | reflexivity].
    + rewrite map_id_update by reflexivity. exact Hnd.
    + apply in_map_iff. exists r0. unfold for_team in Hteam0. rewrite Hteam0. now split.
Qed.

(** Team T1, switched off, registers again and is found. *)
Lemma configure_workspace_makes_workspace_resolvable_witness :
  Index.find_active_workspace "uuid-1" Demo.switched_off = (Val None, Demo.switched_off)
  /\ exists (row : Workspace.t) (text : string) (w' : World),
       Index.configure_workspace Demo.slack Demo.env2 "xoxb-2" "U1" None Demo.switched_off
       = (Val (mkResult text false), w')
       /\ Spec.reports_id text (Workspace.id row)
       /\ Index.find_active_workspace (Workspace.id row) w' = (Val (Some row), w')
       /\ Workspace.botToken row = "xoxb-2".
Proof.
  split; [reflexivity |].
  destruct (configure_workspace_makes_workspace_resolvable Demo.slack Demo.env2 "xoxb-2"
              "U1" None Demo.auth "Acme" "T1" "https://acme.slack.com/" "UBOT"
              Demo.switched_off)
    as (row & text & w' & Hrun & Hreports & Hfind & _ & Htoken & _).
  - reflexivity.
  - reflexivity.
  - simpl. repeat constructor. intros [].
  - simpl. intros [H | []]. discriminate.
  - exists row, text, w'. split; [exact Hrun |]. split; [exact Hreports |].
    split; [exact Hfind | exact Htoken].
Defined.

(** ** What the tools leave alone *)

(** The post once the workspace is found. *)
Lemma post_message_found (slack : SlackApi.Slack) (env : Env)
    (workspace_id channel_id message_text : string) (w : World) (workspace : Workspace.t) :
  Index.find_active_workspace workspace_id w = (Val (Some workspace), w) ->
  Index.post_message slack env workspace_id channel_id message_text w =
  let token := Workspace.botToken workspace in
  let asked := (slack_log w ++ [SlackApi.conversations_info_call token channel_id])%list in
  match SlackApi.conversations_info slack token channel_id with
  | Threw e =>
      (Val (Eff.error_result ("Error posting message: " ++ e)), mkWorld (database w) asked)
  | Val channelInfo =>
      let sent := (asked ++ [SlackApi.chat_postMessage_call token channel_id message_text
                               None])%list in
      match SlackApi.chat_postMessage slack token channel_id message_text None with
      | Threw e =>
          (Val (Eff.error_result ("Error posting message: " ++ e)), mkWorld (database w) sent)
      | Val result =>
          match Index.sent_ts result with
          | None =>
              (Val (Eff.error_result "Failed to post message to Slack"),
               mkWorld (database w) sent)
          | Some ts =>
              match Sql.insert_postedMessage
                      (Index.new_postedMessage env workspace workspace_id channel_id
                         (Index.channel_name_of channelInfo channel_id) message_text ts
                         result) (database w) with
              | Val (row, d) =>
                  (Val (Eff.ok_result
                          (Index.posted_text workspace channel_id
                             (Index.channel_name_of channelInfo channel_id) message_text
                             ts row)),
                   mkWorld d sent)
              | Threw e =>
                  (Val (Eff.error_result ("Error posting message: " ++ e)),
                   mkWorld (database w) sent)
              end
          end
      end
  end.
Proof.
  intros Hfind. unfold Index.post_message, Eff.try_catch.
  rewrite (bind_val _ _ _ _ _ Hfind).
  unfold Eff.bind, Eff.request, Eff.ret, Eff.checked_statement. cbv zeta.
  destruct (SlackApi.conversations_info slack _ _) as [channelInfo | e]; [| reflexivity].
  destruct (SlackApi.chat_postMessage slack _ _ _ _) as [result | e]; [| reflexivity].
  destruct (Index.sent_ts result) as [ts |]; [| reflexivity].
  cbn [database slack_log].
  destruct (Sql.insert_postedMessage _ _) as [[row d] | e]; reflexivity.
Qed.

Lemma post_message_not_found (slack : SlackApi.Slack) (env : Env)
    (workspace_id channel_id message_text : string) (w : World) :
  Index.find_active_workspace workspace_id w = (Val None, w) ->
  Index.post_message slack env workspace_id channel_id message_text w
  = (Val Index.not_found_result, w).
Proof.
  intros Hfind. unfold Index.post_message, Eff.try_catch.
  now rewrite (bind_val _ _ _ _ _ Hfind).
Qed.

Lemma insert_postedMessage_appends (row : PostedMessage.t) (d d' : DB)
    (row' : PostedMessage.t) :
  Sql.insert_postedMessage row d = Val (row', d') ->
  row' = row /\ workspaces d' = workspaces d
  /\ postedMessages d' = (postedMessages d ++ [row])%list.
Proof.
  unfold Sql.insert_postedMessage.
  destruct (existsb _ (postedMessages d)); [discriminate |].
  destruct (negb _); [discriminate |].
  intros H. inversion H. now repeat split.
Qed.

Lemma insert_postedMessage_accepted (row : PostedMessage.t) (d : DB) (workspace : Workspace.t) :
  ~ In (PostedMessage.id row) (map PostedMessage.id (postedMessages d)) ->
  In workspace (workspaces d) ->
  Workspace.id workspace = PostedMessage.workspaceId row ->
  Sql.insert_postedMessage row d
  = Val (row, mkDB (workspaces d) (postedMessages d ++ [row])).
Proof.
  intros Hfresh Hin Hid. unfold Sql.insert_postedMessage.
  rewrite (existsb_posted_id_fresh _ _ Hfresh).
  replace (existsb _ (workspaces d)) with true; [reflexivity |].
  symmetry. apply existsb_exists. exists workspace. split; [exact Hin |].
  now apply String.eqb_eq.
Qed.

(** The three tools of [src/src/index.ts] that read by workspace write
    nothing, whatever Slack answers and whether or not the workspace is
    found: the database after the call is the database before it; the
    history listing sends no request either. *)
Theorem index_read_tools_leave_database :
  forall (slack : SlackApi.Slack) (env : Env)
         (ts_toISOString : string -> Outcome string) (Date_toISOString : Z -> Outcome string)
         (workspace_id channel_id : string) (days_back : Z) (limit : nat)
         (private_only : bool) (w : World),
    database (snd (Index.get_mentions slack env ts_toISOString workspace_id channel_id
                     days_back limit w)) = database w
    /\ database (snd (Index.list_user_channels slack workspace_id limit private_only w))
       = database w
    /\ snd (Index.get_posted_messages Date_toISOString workspace_id limit w) = w.
Proof.
  intros slack env ts_toISOString Date_toISOString workspace_id channel_id days_back limit
         private_only w.
  destruct (find_active_workspace_pure workspace_id w) as [[workspace |] Hfind].
  - split; [| split].
    + now rewrite (get_mentions_found _ _ _ _ _ _ _ _ _ Hfind).
    + unfold Index.list_user_channels, Eff.try_catch.
      rewrite (bind_val _ _ _ _ _ Hfind).
      unfold Eff.bind, Eff.request, Eff.ret. destruct private_only; cbn [negb].
      * destruct (SlackApi.conversations_list slack _ _ _) as [r | e]; [| reflexivity].
        now destruct (_ =? 0)%nat.
      * destruct (SlackApi.conversations_list slack _ "public_channel" _) as [r | e];
          [| reflexivity].
        destruct (SlackApi.conversations_list slack _ "private_channel" _) as [r' | e];
          [| reflexivity].
        now destruct (_ =? 0)%nat.
    + unfold Index.get_posted_messages, Eff.try_catch.
      rewrite (bind_val _ _ _ _ _ Hfind).
      unfold Eff.bind, Eff.query, Eff.ret, Eff.lift.
      destruct (_ =? 0)%nat; [reflexivity |]. now destruct (Eff.map_outcome _ _).
  - split; [| split].
    + now rewrite (get_mentions_not_found _ _ _ _ _ _ _ _ Hfind).
    + unfold Index.list_user_channels, Eff.try_catch.
      now rewrite (bind_val _ _ _ _ _ Hfind).
    + unfold Index.get_posted_messages, Eff.try_catch.
      now rewrite (bind_val _ _ _ _ _ Hfind).
Qed.

(** A post is all or nothing, for every input and every answer of Slack:
    either the tool reports an error and the database is the one before
    the call, or it reports success and exactly one row has been appended
    to the ledger, for the workspace, channel and text of the call; the
    workspaces table is never written. *)
Theorem post_message_all_or_nothing :
  forall (slack : SlackApi.Slack) (env : Env)
         (workspace_id channel_id message_text : string) (w : World),
    exists (res : ToolResult) (w' : World),
      Index.post_message slack env workspace_id channel_id message_text w = (Val res, w')
      /\ ((isError res = true /\ database w' = database w)
          \/ (isError res = false
              /\ exists row,
                   database w'
                   = mkDB (workspaces (database w)) (postedMessages (database w) ++ [row])
                   /\ PostedMessage.workspaceId row = workspace_id
                   /\ PostedMessage.channelId row = channel_id
                   /\ PostedMessage.messageText row = message_text)).
Proof.
  intros slack env workspace_id channel_id message_text w.
  destruct (find_active_workspace_pure workspace_id w) as [[workspace |] Hfind].
  2:{ rewrite (post_message_not_found _ _ _ _ _ _ Hfind).
      eexists _, _. split; [reflexivity |]. left. now split. }
  rewrite (post_message_found _ _ _ _ _ _ _ Hfind). cbv zeta.
  destruct (SlackApi.conversations_info slack _ _) as [channelInfo | e].
  2:{ eexists _, _. split; [reflexivity |]. left. now split. }
  destruct (SlackApi.chat_postMessage slack _ _ _ _) as [result | e].
  2:{ eexists _, _. split; [reflexivity |]. left. now split. }
  destruct (Index.sent_ts result) as [ts |].
  2:{ eexists _, _. split; [reflexivity |]. left. now split. }
  destruct (Sql.insert_postedMessage _ _) as [[row d] | e] eqn:Hinsert.
  2:{ eexists _, _. split; [reflexivity |]. left. now split. }
  apply insert_postedMessage_appends in Hinsert. destruct Hinsert as (-> & Hws & Hpm).
  eexists _, _. split; [reflexivity |]. right. split; [reflexivity |].
  exists (Index.new_postedMessage env workspace workspace_id channel_id
            (Index.channel_name_of channelInfo channel_id) message_text ts result).
  split; [| now repeat split].
  cbn [database]. destruct d as [ws pm]. cbn in Hws, Hpm. now rewrite Hws, Hpm.
Qed.

(** ** The REST endpoint *)

(** The endpoint [/api/post-message] of [src/src/index.ts] does to the
    world what the post_message tool does: for a body with three
    non-empty fields the two leave the same database and the same log of
    Slack requests, and the endpoint answers 200 exactly when the tool
    reports no error; its other answers are 404 and 500. *)
Theorem rest_post_message_agrees_with_tool :
  forall (slack : SlackApi.Slack) (env : Env) (now_toISOString : Z -> string)
         (workspace_id channel_id message_text : string) (w : World),
    JS.truthy workspace_id = true ->
    JS.truthy channel_id = true ->
    JS.truthy message_text = true ->
    exists (response : Rest.Response) (res : ToolResult) (w' : World),
      Rest.post_message slack env now_toISOString
        (Val (Rest.mkBody (Some workspace_id) (Some channel_id) (Some message_text))) w
      = (Val response, w')
      /\ Index.post_message slack env workspace_id channel_id message_text w = (Val res, w')
      /\ (Rest.status response = 200%nat <-> isError res = false)
      /\ (Rest.status response = 200%nat \/ Rest.status response = 404%nat
          \/ Rest.status response = 500%nat).
Proof.
  intros slack env now_toISOString workspace_id channel_id message_text w Hw Hc Hm.
  unfold Rest.post_message, Eff.try_catch.
  unfold Eff.bind at 1. unfold Eff.lift at 1.
  cbn [Rest.workspace_id Rest.channel_id Rest.message_text].
  rewrite Hw, Hc, Hm. cbn [andb negb].
  destruct (find_active_workspace_pure workspace_id w) as [[workspace |] Hfind].
  2:{ rewrite (post_message_not_found _ _ _ _ _ _ Hfind).
      rewrite (bind_val _ _ _ _ _ Hfind). unfold Eff.ret.
      eexists _, _, _. split; [reflexivity |]. split; [reflexivity |]. cbn.
      split; [split; discriminate | right; now left]. }
  rewrite (post_message_found _ _ _ _ _ _ _ Hfind). cbv zeta.
  rewrite (bind_val _ _ _ _ _ Hfind).
  unfold Eff.bind, Eff.request, Eff.ret, Eff.checked_statement.
  destruct (SlackApi.conversations_info slack _ _) as [channelInfo | e].
  2:{ eexists _, _, _. split; [reflexivity |]. split; [reflexivity |]. cbn.
      split; [split; discriminate | now right; right]. }
  destruct (SlackApi.chat_postMessage slack _ _ _ _) as [result | e].
  2:{ eexists _, _, _. split; [reflexivity |]. split; [reflexivity |]. cbn.
      split; [split; discriminate | now right; right]. }
  destruct (Index.sent_ts result) as [ts |].
  2:{ eexists _, _, _. split; [reflexivity |]. split; [reflexivity |]. cbn.
      split; [split; discriminate | now right; right]. }
  cbn [database slack_log].
  destruct (Sql.insert_postedMessage _ _) as [[row d] | e].
  - eexists _, _, _. split; [reflexivity |]. split; [reflexivity |]. cbn.
    split; [split; reflexivity | now left].
  - eexists _, _, _. split; [reflexivity |]. split; [reflexivity |]. cbn.
    split; [split; discriminate | now right; right].
Qed.

Lemma rest_post_message_agrees_with_tool_witness :
  exists (response : Rest.Response) (res : ToolResult) (w' : World),
    Rest.post_message Demo.slack Demo.env2 Demo.now_toISOString
      (Val (Rest.mkBody (Some "uuid-1") (Some "C1") (Some "hello"))) Demo.registered
    = (Val response, w')
    /\ Index.post_message Demo.slack Demo.env2 "uuid-1" "C1" "hello" Demo.registered
       = (Val res, w')
    /\ (Rest.status response = 200%nat <-> isError res = false)
    /\ (Rest.status response = 200%nat \/ Rest.status response = 404%nat
        \/ Rest.status response = 500%nat).
Proof.
  apply (rest_post_message_agrees_with_tool Demo.slack Demo.env2 Demo.now_toISOString
           "uuid-1" "C1" "hello" Demo.registered); reflexivity.
Defined.

(** A body that cannot be parsed, or in which one of the three fields is
    absent or empty, is answered 500 respectively 400 before anything is
    looked up: the world is the one before the request, with no request
    sent to Slack and nothing written. *)
Theorem rest_post_message_rejects_incomplete_body :
  forall (slack : SlackApi.Slack) (env : Env) (now_toISOString : Z -> string)
         (request_body : Outcome Rest.PostBody) (w : World),
    match request_body with
    | Threw _ => True
    | Val fields =>
        JS.truthy_opt (Rest.workspace_id fields) && JS.truthy_opt (Rest.channel_id fields)
        && JS.truthy_opt (Rest.message_text fields) = false
    end ->
    exists response,
      Rest.post_message slack env now_toISOString request_body w = (Val response, w)
      /\ Rest.status response
         = match request_body with Threw _ => 500%nat | Val _ => 400%nat end.
Proof.
  intros slack env now_toISOString [[wid ch text] | e] w H;
    unfold Rest.post_message, Eff.try_catch, Eff.bind, Eff.lift, Eff.ret.
  2:{ eexists. split; reflexivity. }
  cbn [Rest.workspace_id Rest.channel_id Rest.message_text] in *.
  destruct wid as [wid |], ch as [ch |], text as [text |];
    try (eexists; split; reflexivity).
  unfold JS.truthy_opt in H. rewrite H. eexists. split; reflexivity.
Qed.

Lemma rest_post_message_rejects_incomplete_body_witness :
  exists response,
    Rest.post_message Demo.slack Demo.env2 Demo.now_toISOString
      (Val (Rest.mkBody (Some "uuid-1") (Some "C1") (Some EmptyString))) Demo.registered
    = (Val response, Demo.registered)
    /\ Rest.status response = 400%nat.
Proof.
  apply (rest_post_message_rejects_incomplete_body Demo.slack Demo.env2
           Demo.now_toISOString
           (Val (Rest.mkBody (Some "uuid-1") (Some "C1") (Some EmptyString)))
           Demo.registered).
  reflexivity.
Defined.

(** ** Mentions: empty results, failed retrieval, timestamps *)


Lemma map_outcome_threw {A B : Type} (f : A -> Outcome B) (l : list A) (x : A) (e : string) :
  In x l -> f x = Threw e -> exists e', Eff.map_outcome f l = Threw e'.
Proof.
  induction l as [| y l IH]; intros Hin Hx; [contradiction |].
  cbn. destruct Hin as [-> | Hin].
  - rewrite Hx. eauto.
  - destruct (f y) as [b | e0]; [| eauto].
    destruct (IH Hin Hx) as [e' ->]. eauto.
Qed.



(** One hit whose timestamp the runtime cannot print as a date loses the
    whole answer: when a message among those kept carries a non-empty
    timestamp on which the date conversion throws, get_mentions returns
    the error "Error getting mentions: ..." and none of the other hits. *)
Theorem get_mentions_undatable_hit_fails_call :
  forall (slack : SlackApi.Slack) (env : Env) (ts_toISOString : string -> Outcome string)
         (workspace_id channel_id : string) (days_back : Z) (limit : nat) (w : World)
         (workspace : Workspace.t) (history : SlackApi.HistoryResponse)
         (page : list SlackApi.Message) (m : SlackApi.Message) (t e : string),
    Index.find_active_workspace workspace_id w = (Val (Some workspace), w) ->
    SlackApi.conversations_history slack (Workspace.botToken workspace)
      (Index.history_args env channel_id days_back) = Val history ->
    SlackApi.history_ok history = true ->
    SlackApi.messages history = Some page ->
    In m (Index.select_mentions (Workspace.userId workspace) limit page) ->
    SlackApi.msg_ts m = Some t ->
    JS.truthy t = true ->
    ts_toISOString t = Threw e ->
    exists e',
      fst (Index.get_mentions slack env ts_toISOString workspace_id channel_id days_back
             limit w)
      = Val (Eff.error_result ("Error getting mentions: " ++ e')).
Proof.
  intros slack env ts_toISOString workspace_id channel_id days_back limit w workspace
         history page m t e Hfind Hhistory Hok Hpage Hin Hts Htruthy Hthrow.
  rewrite (get_mentions_found _ _ _ _ _ _ _ _ _ Hfind), Hhistory, Hok, Hpage. cbn [fst].
  destruct (map_outcome_threw (Index.to_mention ts_toISOString workspace channel_id)
              _ m e Hin) as [e' ->]; [| eauto].
  unfold Index.to_mention. now rewrite Hts, Htruthy, Hthrow.
Qed.

Lemma get_mentions_undatable_hit_fails_call_witness :
  exists e',
    fst (Index.get_mentions Demo.undated_slack Demo.env2 Demo.strict_toISOString
           "uuid-1" "C1" 1 5 Demo.registered)
    = Val (Eff.error_result ("Error getting mentions: " ++ e')).
Proof.
  apply (get_mentions_undatable_hit_fails_call Demo.undated_slack Demo.env2
           Demo.strict_toISOString "uuid-1" "C1" 1 5 Demo.registered Demo.workspace1
           (SlackApi.mkHistory true (Some [Demo.message "<@U1> ping" "soon"]) false None)
           [Demo.message "<@U1> ping" "soon"] (Demo.message "<@U1> ping" "soon")
           "soon" "Invalid time value");
    try reflexivity.
  vm_compute. now left.
Defined.

Lemma replace_dot_first (a b : string) :
  Spec.dotless a = true -> JS.replace_dot (a ++ "." ++ b) = a ++ b.
Proof.
  unfold Spec.dotless. induction a as [| c a IH]; intros H; [reflexivity |].
  cbn [list_ascii_of_string existsb] in H.
  apply Bool.negb_true_iff in H. apply Bool.orb_false_iff in H. destruct H as [Hc Ha].
  cbn [String.append JS.replace_dot]. rewrite Ascii.eqb_sym, Hc. f_equal. apply IH.
  now apply Bool.negb_true_iff.
Qed.

(** The link of a mention is built from the timestamp with its first dot
    removed, and only the first: for a timestamp [a.b] with no dot in
    [a], the link ends in [p] followed by [a] and [b] as they are. *)
Theorem mention_permalink_drops_first_dot :
  forall (ts_toISOString : string -> Outcome string) (workspace : Workspace.t)
         (channel_id : string) (msg : SlackApi.Message) (a b : string)
         (m : Index.Mention),
    SlackApi.msg_ts msg = Some (a ++ "." ++ b) ->
    Spec.dotless a = true ->
    Index.to_mention ts_toISOString workspace channel_id msg = Val m ->
    Index.mention_permalink m
    = Workspace.workspaceUrl workspace ++ "archives/" ++ channel_id ++ "/p" ++ a ++ b.
Proof.
  intros ts_toISOString workspace channel_id msg a b m Hts Ha.
  unfold Index.to_mention. rewrite Hts.
  destruct (if JS.truthy _ then _ else _) as [timestamp | e]; [| discriminate].
  intros H. injection H as <-. cbn [Index.mention_permalink].
  now rewrite <- (replace_dot_first a b Ha).
Qed.

Lemma mention_permalink_drops_first_dot_witness :
  Index.mention_permalink
    (Index.mkMention "ping" "U2" "at 1700000200.000.100"
       "https://acme.slack.com/archives/C1/p1700000200000.100")
  = Workspace.workspaceUrl Demo.workspace1 ++ "archives/" ++ "C1" ++ "/p" ++ "1700000200"
    ++ "000.100".
Proof.
  apply (mention_permalink_drops_first_dot Demo.ts_toISOString Demo.workspace1 "C1"
           (Demo.message "ping" "1700000200.000.100") "1700000200" "000.100");
    reflexivity.
Defined.

(** ** Posting into a channel Slack does not describe *)

Lemma channel_name_unresolved (info : SlackApi.InfoResponse) (channel_id : string) :
  SlackApi.info_ok info = false
  \/ SlackApi.info_channel info = None
  \/ (exists ch, SlackApi.info_channel info = Some ch
                 /\ JS.truthy_opt (SlackApi.ch_name ch) = false) ->
  Index.channel_name_of info channel_id = channel_id.
Proof.
  unfold Index.channel_name_of. intros [H | [H | (ch & H & Hname)]].
  - now rewrite H.
  - rewrite H. now destruct (SlackApi.info_ok info).
  - rewrite H. destruct (SlackApi.info_ok info); [| reflexivity].
    unfold JS.or_else. destruct (SlackApi.ch_name ch) as [n |]; [| reflexivity].
    cbn in Hname. now rewrite Hname.
Qed.

(** The channel lookup of post_message only serves the name: when
    conversations.info is answered without a channel, or with a channel
    that has no name (a direct message), the message is sent all the
    same, and a send that Slack confirms is recorded with the channel
    identifier in place of the channel name. *)
Theorem post_message_unresolved_channel_recorded_by_id :
  forall (slack : SlackApi.Slack) (env : Env)
         (workspace_id channel_id message_text : string) (w : World)
         (workspace : Workspace.t) (info : SlackApi.InfoResponse)
         (result : SlackApi.PostMessageResponse) (ts : string),
    Index.find_active_workspace workspace_id w = (Val (Some workspace), w) ->
    SlackApi.conversations_info slack (Workspace.botToken workspace) channel_id = Val info ->
    SlackApi.info_ok info = true ->
    SlackApi.info_channel info = None
    \/ (exists ch, SlackApi.info_channel info = Some ch
                   /\ (SlackApi.ch_name ch = None \/ SlackApi.ch_name ch = Some EmptyString)) ->
    SlackApi.chat_postMessage slack (Workspace.botToken workspace) channel_id message_text
      None = Val result ->
    Index.sent_ts result = Some ts ->
    ~ In (randomUUID env) (map PostedMessage.id (postedMessages (database w))) ->
    exists (row : PostedMessage.t) (res : ToolResult),
      Index.post_message slack env workspace_id channel_id message_text w
      = (Val res,
         mkWorld
           (mkDB (workspaces (database w)) (postedMessages (database w) ++ [row]))
           (slack_log w ++
            [SlackApi.conversations_info_call (Workspace.botToken workspace) channel_id;
             SlackApi.chat_postMessage_call (Workspace.botToken workspace) channel_id
               message_text None]))
      /\ isError res = false
      /\ PostedMessage.channelName row = channel_id
      /\ PostedMessage.channelId row = channel_id
      /\ PostedMessage.messageTs row = ts.
Proof.
  intros slack env workspace_id channel_id message_text w workspace info result ts
         Hfind Hinfo _ Hunresolved Hpost Hts Hfresh.
  assert (Hname : Index.channel_name_of info channel_id = channel_id).
  { apply channel_name_unresolved. right.
    destruct Hunresolved as [H | (ch & H & Hname)]; [now left | right].
    exists ch. split; [exact H |]. now destruct Hname as [-> | ->]. }
  rewrite (post_message_found _ _ _ _ _ _ _ Hfind). cbv zeta.
  rewrite Hinfo, Hpost, Hts, Hname.
  destruct (find_active_workspace_some _ _ _ Hfind) as (Hin & Hid & _).
  rewrite (insert_postedMessage_accepted
             (Index.new_postedMessage env workspace workspace_id channel_id channel_id
                message_text ts result) (database w) workspace Hfresh Hin Hid).
  eexists _, _. rewrite <- app_assoc. split; [reflexivity |]. now repeat split.
Qed.

(** A message to the direct-message channel D1. *)
Lemma post_message_unresolved_channel_recorded_by_id_witness :
  exists (row : PostedMessage.t) (res : ToolResult),
    Index.post_message Demo.unnamed_channel_slack Demo.env2 "uuid-1" "D1" "hello"
      Demo.registered
    = (Val res,
       mkWorld
         (mkDB [Demo.workspace1] ([] ++ [row]))
         ([] ++ [SlackApi.conversations_info_call "xoxb-1" "D1";
                 SlackApi.chat_postMessage_call "xoxb-1" "D1" "hello" None]))
    /\ isError res = false
    /\ PostedMessage.channelName row = "D1"
    /\ PostedMessage.channelId row = "D1"
    /\ PostedMessage.messageTs row = "1700000400.000200".
Proof.
  apply (post_message_unresolved_channel_recorded_by_id Demo.unnamed_channel_slack
           Demo.env2 "uuid-1" "D1" "hello" Demo.registered Demo.workspace1
           (SlackApi.mkInfo true (Some (SlackApi.mkChannel (Some "D1") None None None)))
           (SlackApi.mkPost true (Some "1700000400.000200")
              (Some (SlackApi.mkPostedInfo (Some "m-1") (Some "1700000400.000200"))) None)
           "1700000400.000200"); try reflexivity.
  - right. eexists. split; [reflexivity | now left].
  - simpl. intros [].
Defined.

(** ** A post and the history that follows *)

Lemma find_active_workspace_after_post (workspace_id : string) (w : World)
    (found : option Workspace.t) (ledger : list PostedMessage.t)
    (log : list SlackApi.Call) :
  Index.find_active_workspace workspace_id w = (Val found, w) ->
  Index.find_active_workspace workspace_id
    (mkWorld (mkDB (workspaces (database w)) ledger) log)
  = (Val found, mkWorld (mkDB (workspaces (database w)) ledger) log).
Proof.
  unfold Index.find_active_workspace, Eff.query, Sql.select_workspaces. cbn [database workspaces].
  intros H. injection H as <-. reflexivity.
Qed.

(** The creation time post_message leaves to the column default is what
    get_posted_messages has to print: when the runtime's date conversion
    throws on it, a post that Slack confirmed makes the next
    get_posted_messages of that workspace, under a limit that admits all
    its rows, answer with the error "Error getting posted messages: ..."
    in place of the history. *)
Theorem posted_message_with_unprintable_date_fails_history :
  forall (slack : SlackApi.Slack) (env : Env) (Date_toISOString : Z -> Outcome string)
         (workspace_id channel_id message_text : string) (w : World)
         (workspace : Workspace.t) (info : SlackApi.InfoResponse)
         (result : SlackApi.PostMessageResponse) (ts e : string) (limit : nat),
    Index.find_active_workspace workspace_id w = (Val (Some workspace), w) ->
    SlackApi.conversations_info slack (Workspace.botToken workspace) channel_id = Val info ->
    SlackApi.chat_postMessage slack (Workspace.botToken workspace) channel_id message_text
      None = Val result ->
    Index.sent_ts result = Some ts ->
    ~ In (randomUUID env) (map PostedMessage.id (postedMessages (database w))) ->
    Date_toISOString (CURRENT_TIMESTAMP env) = Threw e ->
    (List.length (filter (fun m => (PostedMessage.workspaceId m =? workspace_id)%string)
                    (postedMessages (database w))) < limit)%nat ->
    exists (posted : ToolResult) (w' : World) (e' : string),
      Index.post_message slack env workspace_id channel_id message_text w
      = (Val posted, w')
      /\ isError posted = false
      /\ Index.get_posted_messages Date_toISOString workspace_id limit w'
         = (Val (mkResult ("Error getting posted messages: " ++ e') true), w').
Proof.
  intros slack env Date_toISOString workspace_id channel_id message_text w workspace info
         result ts e limit Hfind Hinfo Hpost Hts Hfresh Hdate Hlimit.
  rewrite (post_message_found _ _ _ _ _ _ _ Hfind). cbv zeta.
  rewrite Hinfo, Hpost, Hts.
  destruct (find_active_workspace_some _ _ _ Hfind) as (Hin & Hid & _).
  set (row := Index.new_postedMessage env workspace workspace_id channel_id
                (Index.channel_name_of info channel_id) message_text ts result).
  rewrite (insert_postedMessage_accepted row (database w) workspace Hfresh Hin Hid).
  set (rows := Index.posted_rows workspace_id limit
                 (mkDB (workspaces (database w)) (postedMessages (database w) ++ [row]))).
  assert (Hrow : In row rows).
  { unfold rows, Index.posted_rows, Sql.limit_offset. cbn [skipn postedMessages].
    rewrite filter_app. cbn [filter].
    change (PostedMessage.workspaceId row) with workspace_id. rewrite String.eqb_refl.
    rewrite firstn_all2.
    - apply (Permutation_in _ (Permutation_sym (orderBy_perm _))).
      apply in_or_app. right. now left.
    - rewrite (Permutation_length (orderBy_perm _)), length_app. cbn [List.length]. lia. }
  assert (Hentry : Index.posted_entry Date_toISOString workspace row = Threw e).
  { unfold Index.posted_entry.
    change (PostedMessage.createdAt row) with (CURRENT_TIMESTAMP env). now rewrite Hdate. }
  destruct (map_outcome_threw (Index.posted_entry Date_toISOString workspace) rows row e
              Hrow Hentry) as [e' He'].
  eexists _, _, e'. split; [reflexivity |]. split; [reflexivity |].
  unfold Index.get_posted_messages, Eff.try_catch.
  rewrite (bind_val _ _ _ _ _
             (find_active_workspace_after_post workspace_id w (Some workspace) _ _ Hfind)).
  unfold Eff.bind, Eff.query, Eff.ret, Eff.lift. cbn [database]. fold rows.
  destruct rows as [| m rest]; [contradiction |]. cbn [List.length Nat.eqb].
  now rewrite He'.
Qed.

(** A first message for team T1, under a runtime that does not print the
    creation time it is stored with. *)
Lemma posted_message_with_unprintable_date_fails_history_witness :
  exists (posted : ToolResult) (w' : World) (e' : string),
    Index.post_message Demo.slack Demo.env2 "uuid-1" "C1" "hello" Demo.registered
    = (Val posted, w')
    /\ isError posted = false
    /\ Index.get_posted_messages Demo.invalid_toISOString "uuid-1" 50 w'
       = (Val (mkResult ("Error getting posted messages: " ++ e') true), w').
Proof.
  apply (posted_message_with_unprintable_date_fails_history Demo.slack Demo.env2
           Demo.invalid_toISOString "uuid-1" "C1" "hello" Demo.registered Demo.workspace1
           (SlackApi.mkInfo true
              (Some (SlackApi.mkChannel (Some "C1") (Some "general") (Some true)
                       (Some false))))
           (SlackApi.mkPost true (Some "1700000400.000200")
              (Some (SlackApi.mkPostedInfo (Some "m-1") (Some "1700000400.000200"))) None)
           "1700000400.000200" "Invalid time value" 50); try reflexivity.
  - simpl. intros [].
  - simpl. lia.
Defined.

(** ** Channel listing: what is asked of Slack *)

(** The requests of list_user_channels, for a workspace that is found
    and a limit of at least one (the least the tool's schema admits):
    every request is a channel listing under the workspace's credential
    that asks for at least one and at most [limit] channels; with
    [private_only] it is the one request for private channels, with the
    limit as given, and public channels are not asked for. *)
Theorem list_user_channels_request_limits :
  forall (slack : SlackApi.Slack) (workspace_id : string) (limit : nat)
         (private_only : bool) (w : World) (workspace : Workspace.t),
    Index.find_active_workspace workspace_id w = (Val (Some workspace), w) ->
    (1 <= limit)%nat ->
    exists calls,
      slack_log (snd (Index.list_user_channels slack workspace_id limit private_only w))
      = (slack_log w ++ calls)%list
      /\ Forall (fun c => exists types k,
                   c = SlackApi.conversations_list_call (Workspace.botToken workspace) types k
                   /\ (1 <= k <= limit)%nat) calls
      /\ (private_only = true ->
          calls = [SlackApi.conversations_list_call (Workspace.botToken workspace)
                     "private_channel" limit]).
Proof.
  intros slack workspace_id limit private_only w workspace Hfind Hlimit.
  unfold Index.list_user_channels, Eff.try_catch.
  rewrite (bind_val _ _ _ _ _ Hfind).
  unfold Eff.bind, Eff.request, Eff.ret. destruct private_only; cbn [negb].
  - eexists. split; [| split; [| reflexivity]].
    + destruct (SlackApi.conversations_list slack _ _ _) as [r | e]; [| reflexivity].
      now destruct (_ =? 0)%nat.
    + constructor; [| constructor]. eexists _, _. split; [reflexivity | lia].
  - destruct (SlackApi.conversations_list slack _ "public_channel" _) as [r | e].
    + eexists. split; [| split; [| discriminate]].
      * cbn [slack_log database].
        destruct (SlackApi.conversations_list slack _ "private_channel" _) as [r' | e];
          [destruct (_ =? 0)%nat |]; cbn [snd slack_log]; rewrite <- app_assoc;
          reflexivity.
      * constructor; [| constructor; [| constructor]].
        -- eexists _, _. split; [reflexivity | lia].
        -- eexists _, _. split; [reflexivity | lia].
    + eexists. split; [reflexivity | split; [| discriminate]].
      constructor; [| constructor]. eexists _, _. split; [reflexivity | lia].
Qed.

Lemma list_user_channels_request_limits_witness :
  exists calls,
    slack_log (snd (Index.list_user_channels Demo.slack "uuid-1" 10 true Demo.registered))
    = (slack_log Demo.registered ++ calls)%list
    /\ Forall (fun c => exists types k,
                 c = SlackApi.conversations_list_call (Workspace.botToken Demo.workspace1)
                       types k
                 /\ (1 <= k <= 10)%nat) calls
    /\ (true = true ->
        calls = [SlackApi.conversations_list_call (Workspace.botToken Demo.workspace1)
                   "private_channel" 10]).
Proof.
  apply (list_user_channels_request_limits Demo.slack "uuid-1" 10 true Demo.registered
           Demo.workspace1); [reflexivity | lia].
Defined.

(** A listing without channels is not an error: when every channel
    listing is answered without a channels field, or with an empty one,
    list_user_channels reports "No channels found" and no error. *)
Theorem list_user_channels_without_channels_is_no_error :
  forall (slack : SlackApi.Slack) (workspace_id : string) (limit : nat)
         (private_only : bool) (w : World) (workspace : Workspace.t),
    Index.find_active_workspace workspace_id w = (Val (Some workspace), w) ->
    (forall types k, exists r,
        SlackApi.conversations_list slack (Workspace.botToken workspace) types k = Val r
        /\ SlackApi.list_ok r = true
        /\ (SlackApi.channels r = None \/ SlackApi.channels r = Some [])) ->
    fst (Index.list_user_channels slack workspace_id limit private_only w)
    = Val (mkResult "No channels found" false).
Proof.
  intros slack workspace_id limit private_only w workspace Hfind Hlists.
  assert (Hrows : forall type r,
             SlackApi.channels r = None \/ SlackApi.channels r = Some [] ->
             Index.channel_rows type r = []).
  { intros type r [H | H]; unfold Index.channel_rows; rewrite H;
      now destruct (SlackApi.list_ok r). }
  unfold Index.list_user_channels, Eff.try_catch.
  rewrite (bind_val _ _ _ _ _ Hfind).
  unfold Eff.bind, Eff.request, Eff.ret. destruct private_only; cbn [negb].
  - destruct (Hlists "private_channel" limit) as (r & -> & _ & Hr).
    now rewrite (Hrows _ _ Hr).
  - destruct (Hlists "public_channel" limit) as (r & -> & _ & Hr).
    rewrite (Hrows _ _ Hr). cbn [List.length app].
    destruct (Hlists "private_channel" (Nat.max 1 (limit - 0))) as (r' & -> & _ & Hr').
    now rewrite (Hrows _ _ Hr').
Qed.

Lemma list_user_channels_without_channels_is_no_error_witness :
  fst (Index.list_user_channels Demo.unlisted_slack "uuid-1" 10 false Demo.registered)
  = Val (mkResult "No channels found" false).
Proof.
  apply (list_user_channels_without_channels_is_no_error Demo.unlisted_slack "uuid-1" 10
           false Demo.registered Demo.workspace1); [reflexivity |].
  intros types k. eexists. split; [reflexivity |]. split; [reflexivity | now left].
Defined.

(* ================================================================== *)
(** * Further properties of the first text of [src/unnamed/part_000] *)
(* ================================================================== *)

Lemma insert_ws_desc_perm (x : Workspace.t) (l : list Workspace.t) :
  Permutation (Sql.insert_ws_desc x l) (x :: l).
Proof.
  induction l as [| y l IH]; cbn; [reflexivity |].
  destruct (Workspace.createdAt x <? Workspace.createdAt y)%Z; [| reflexivity].
  rewrite IH. apply perm_swap.
Qed.

Lemma orderBy_ws_perm (l : list Workspace.t) :
  Permutation (Sql.orderBy_ws_createdAt_desc l) l.
Proof.
  induction l as [| x l IH]; cbn; [reflexivity |].
  rewrite insert_ws_desc_perm. now constructor.
Qed.

Lemma insert_ws_desc_sorted (x : Workspace.t) (l : list Workspace.t) :
  Spec.workspaces_newest_first l -> Spec.workspaces_newest_first (Sql.insert_ws_desc x l).
Proof.
  unfold Spec.workspaces_newest_first. induction l as [| y l IH]; intros Hs; cbn.
  - repeat constructor.
  - inversion Hs as [| ? ? Htail Hhead]; subst.
    destruct (Workspace.createdAt x <? Workspace.createdAt y)%Z eqn:E.
    + apply Z.ltb_lt in E. constructor; [now apply IH |].
      destruct l as [| z l]; cbn.
      * constructor. lia.
      * destruct (Workspace.createdAt x <? Workspace.createdAt z)%Z;
          constructor; [now inversion Hhead | lia].
    + apply Z.ltb_ge in E. constructor; [exact Hs |]. constructor. lia.
Qed.

Lemma orderBy_ws_sorted (l : list Workspace.t) :
  Spec.workspaces_newest_first (Sql.orderBy_ws_createdAt_desc l).
Proof.
  induction l as [| x l IH]; cbn; [constructor | now apply insert_ws_desc_sorted].
Qed.

(** list_workspaces of the first text lists the active workspaces, each
    once, from the newest to the oldest: the rows it prints are a
    rearrangement of the active rows of the table, in descending order of
    creation time; the text is built from these rows alone, and the call
    leaves the world as it was. *)
Theorem partA_list_workspaces_newest_first :
  forall (w : World),
    Permutation (PartA.listed_workspaces (database w))
      (filter (fun r => Bool.eqb (Workspace.isActive r) true) (workspaces (database w)))
    /\ Spec.workspaces_newest_first (PartA.listed_workspaces (database w))
    /\ PartA.list_workspaces w
       = (Val (Eff.ok_result
                 (match PartA.listed_workspaces (database w) with
                  | [] => "No workspaces configured. Use configure_workspace to add a workspace."
                  | rows => "Configured Workspaces:" ++ JS.LF ++ JS.LF ++
                            JS.join JS.LF (map PartA.workspace_line rows)
                  end)), w).
Proof.
  intros w. split; [apply orderBy_ws_perm |]. split; [apply orderBy_ws_sorted |].
  unfold PartA.list_workspaces, Eff.try_catch, Eff.bind, Eff.query, Eff.ret.
  now destruct (PartA.listed_workspaces (database w)).
Qed.

(** ** Channel listing of the first text *)

Lemma In_slice_to {A : Type} (n : nat) (l : list A) (x : A) :
  In x (JS.slice_to n l) -> In x l.
Proof.
  unfold JS.slice_to. revert l. induction n as [| n IH]; intros [| y l]; cbn; try tauto.
  intros [-> | H]; [now left | right; now apply IH].
Qed.

(** list_user_channels of the first text sends one request, for the
    channel types the flag selects, and lists only channels the bot is a
    member of: when Slack answers with its channels, the tool prints the
    lines of at most [limit] of them, each one a channel Slack returned
    that is marked as joined, and private when [private_only] is set;
    when fewer than [limit] are printed, every such channel is among
    them. *)
Theorem partA_list_user_channels_members_only :
  forall (slack : SlackApi.Slack) (topic_value : SlackApi.Channel -> option string)
         (workspace_id : string) (limit : nat) (private_only : bool) (w : World)
         (workspace : Workspace.t) (answer : SlackApi.ListResponse)
         (channels : list SlackApi.Channel),
    PartA.find_workspace workspace_id w = (Val (Some workspace), w) ->
    SlackApi.conversations_list slack (Workspace.botToken workspace)
      (if private_only then "private_channel" else "public_channel,private_channel") limit
    = Val answer ->
    SlackApi.list_ok answer = true ->
    SlackApi.channels answer = Some channels ->
    exists listed : list SlackApi.Channel,
      PartA.list_user_channels slack topic_value workspace_id limit private_only w
      = (Val (mkResult
                match listed with
                | [] => if private_only
                        then "No private channels found that the bot is a member of."
                        else "No channels found that the bot is a member of."
                | _ => "Channels (" ++ JS.string_of_nat (List.length listed) ++ "):" ++
                       JS.LF ++ JS.LF ++
                       JS.join JS.LF (map (PartA.channel_line topic_value) listed)
                end false),
         mkWorld (database w)
           (slack_log w ++
            [SlackApi.conversations_list_call (Workspace.botToken workspace)
               (if private_only then "private_channel"
                else "public_channel,private_channel") limit]))
      /\ (List.length listed <= limit)%nat
      /\ (forall c, In c listed ->
                    In c channels
                    /\ SlackApi.is_member c = Some true
                    /\ (private_only = true -> SlackApi.is_private c = Some true))
      /\ ((List.length listed < limit)%nat ->
          forall c, In c channels ->
                    SlackApi.is_member c = Some true ->
                    (private_only = true -> SlackApi.is_private c = Some true) ->
                    In c listed).
Proof.
  intros slack topic_value workspace_id limit private_only w workspace answer channels
         Hfind Hanswer Hok Hchannels.
  exists (PartA.listed_channels private_only limit channels).
  split; [| split; [| split]].
  - unfold PartA.list_user_channels, Eff.try_catch.
    rewrite (bind_val _ _ _ _ _ Hfind).
    unfold Eff.bind, Eff.request, Eff.ret, Eff.throw, PartA.channel_types.
    rewrite Hanswer, Hok, Hchannels. cbn [negb].
    now destruct (PartA.listed_channels private_only limit channels).
  - unfold PartA.listed_channels, JS.slice_to. rewrite length_firstn. lia.
  - intros c Hc. unfold PartA.listed_channels in Hc.
    apply In_slice_to in Hc. apply filter_In in Hc. destruct Hc as [Hc Hmember].
    apply filter_In in Hc. destruct Hc as [Hc Hprivate].
    split; [exact Hc |]. split.
    + destruct (SlackApi.is_member c) as [[|] |]; now try discriminate.
    + intros ->. destruct (SlackApi.is_private c) as [[|] |]; now try discriminate.
  - unfold PartA.listed_channels, JS.slice_to. intros Hfew c Hc Hmember Hprivate.
    rewrite length_firstn in Hfew. rewrite firstn_all2 by lia.
    apply filter_In. split; [| now rewrite Hmember].
    apply filter_In. split; [exact Hc |].
    destruct private_only; [| reflexivity]. now rewrite (Hprivate eq_refl).
Qed.

(** Three channels, of which one is joined and private. *)
Lemma partA_list_user_channels_members_only_witness :
  exists listed : list SlackApi.Channel,
    PartA.list_user_channels Demo.three_channel_slack (fun _ => None) "uuid-1" 10 true
      Demo.switched_off
    = (Val (mkResult
              match listed with
              | [] => "No private channels found that the bot is a member of."
              | _ => "Channels (" ++ JS.string_of_nat (List.length listed) ++ "):" ++
                     JS.LF ++ JS.LF ++
                     JS.join JS.LF (map (PartA.channel_line (fun _ => None)) listed)
              end false),
       mkWorld (database Demo.switched_off)
         (slack_log Demo.switched_off ++
          [SlackApi.conversations_list_call (Workspace.botToken Demo.workspace1_off)
             "private_channel" 10]))
    /\ (List.length listed <= 10)%nat
    /\ (forall c, In c listed ->
                  In c Demo.three_channels
                  /\ SlackApi.is_member c = Some true
                  /\ (true = true -> SlackApi.is_private c = Some true))
    /\ ((List.length listed < 10)%nat ->
        forall c, In c Demo.three_channels ->
                  SlackApi.is_member c = Some true ->
                  (true = true -> SlackApi.is_private c = Some true) ->
                  In c listed).
Proof.
  apply (partA_list_user_channels_members_only Demo.three_channel_slack (fun _ => None)
           "uuid-1" 10 true Demo.switched_off Demo.workspace1_off
           (SlackApi.mkList true (Some Demo.three_channels)) Demo.three_channels);
    reflexivity.
Defined.

(** ** Posting in the first text *)

(** The first text posts only into a channel Slack describes: when the
    channel lookup throws, as the client does for a channel Slack does
    not know, post_message reports "Error posting message: ..."; when it
    is answered without a channel, post_message reports
    "Channel not found ..."; either way it is an error, no message is
    sent and nothing is written. *)
Theorem partA_post_message_stops_without_channel :
  forall (slack : SlackApi.Slack) (env : Env)
         (workspace_id channel_id message_text : string) (w : World)
         (workspace : Workspace.t),
    PartA.find_workspace workspace_id w = (Val (Some workspace), w) ->
    match SlackApi.conversations_info slack (Workspace.botToken workspace) channel_id with
    | Threw e =>
        PartA.post_message slack env workspace_id channel_id message_text w
        = (Val (mkResult ("Error posting message: " ++ e) true),
           mkWorld (database w)
             (slack_log w ++
              [SlackApi.conversations_info_call (Workspace.botToken workspace) channel_id]))
    | Val info =>
        SlackApi.info_ok info = true ->
        SlackApi.info_channel info = None ->
        PartA.post_message slack env workspace_id channel_id message_text w
        = (Val (mkResult "Channel not found or bot doesn't have access to this channel."
                  true),
           mkWorld (database w)
             (slack_log w ++
              [SlackApi.conversations_info_call (Workspace.botToken workspace) channel_id]))
    end.
Proof.
  intros slack env workspace_id channel_id message_text w workspace Hfind.
  unfold PartA.post_message, Eff.try_catch.
  rewrite (bind_val _ _ _ _ _ Hfind).
  unfold Eff.bind, Eff.request, Eff.ret.
  destruct (SlackApi.conversations_info slack _ channel_id) as [info | e];
    [| reflexivity].
  intros Hok Hnone. now rewrite Hok, Hnone.
Qed.

(** A channel Slack does not know, and a lookup answered without a
    channel. *)
Lemma partA_post_message_stops_without_channel_witness :
  PartA.post_message Demo.unknown_channel_slack Demo.env2 "uuid-1" "C9" "hello"
    Demo.registered
  = (Val (mkResult ("Error posting message: " ++ "An API error occurred: channel_not_found")
            true),
     mkWorld (database Demo.registered)
       (slack_log Demo.registered ++
        [SlackApi.conversations_info_call (Workspace.botToken Demo.workspace1) "C9"]))
  /\ PartA.post_message Demo.no_channel_slack Demo.env2 "uuid-1" "C9" "hello"
       Demo.registered
     = (Val (mkResult "Channel not found or bot doesn't have access to this channel."
               true),
        mkWorld (database Demo.registered)
          (slack_log Demo.registered ++
           [SlackApi.conversations_info_call (Workspace.botToken Demo.workspace1) "C9"])).
Proof.
  split.
  - apply (partA_post_message_stops_without_channel Demo.unknown_channel_slack Demo.env2
             "uuid-1" "C9" "hello" Demo.registered Demo.workspace1).
    reflexivity.
  - apply (partA_post_message_stops_without_channel Demo.no_channel_slack Demo.env2
             "uuid-1" "C9" "hello" Demo.registered Demo.workspace1); reflexivity.
Defined.

(* ================================================================== *)
(** * The active flag in the two texts of [src/unnamed/part_000] *)
(* ================================================================== *)

(** The handlers of both texts look a workspace up by its identifier
    alone.  That they behave alike on worlds that differ in the
    [is_active] column is shown piece by piece: each operation of the
    effect monad carries the relation from its parts to the whole. *)
Section Flagless.

Context {A B : Type}.

Lemma agree_ret (V : A -> A -> Prop) (a a' : A) :
  V a a' -> Spec.agree V (Eff.ret a) (Eff.ret a').
Proof. intros H w w' HR. now split. Qed.

Lemma agree_throw (V : A -> A -> Prop) (e : string) :
  Spec.agree V (Eff.throw e) (Eff.throw e).
Proof. intros w w' HR. now split. Qed.

Lemma agree_lift (o : Outcome A) : Spec.agree eq (Eff.lift o) (Eff.lift o).
Proof. intros w w' HR. split; [now destruct o | exact HR]. Qed.

Lemma agree_request (c : SlackApi.Call) (o : Outcome A) :
  Spec.agree eq (Eff.request c o) (Eff.request c o).
Proof.
  intros w w' (Hws & Hpm & Hlog). split; [now destruct o |].
  unfold Eff.request. cbn. repeat split; [exact Hws | exact Hpm | now rewrite Hlog].
Qed.

Lemma agree_bind (V : A -> A -> Prop) (V' : B -> B -> Prop) (m m' : Eff.M A)
    (k k' : A -> Eff.M B) :
  Spec.agree V m m' ->
  (forall a a', V a a' -> Spec.agree V' (k a) (k' a')) ->
  Spec.agree V' (Eff.bind m k) (Eff.bind m' k').
Proof.
  intros Hm Hk w w' HR. destruct (Hm w w' HR) as [Hv HR1]. unfold Eff.bind.
  destruct (m w) as [[a | e] w1], (m' w') as [[a' | e'] w1']; cbn in Hv, HR1;
    try contradiction.
  - now apply Hk.
  - now split.
Qed.

Lemma agree_try_catch (V : A -> A -> Prop) (m m' : Eff.M A) (h h' : string -> Eff.M A) :
  Spec.agree V m m' ->
  (forall e, Spec.agree V (h e) (h' e)) ->
  Spec.agree V (Eff.try_catch m h) (Eff.try_catch m' h').
Proof.
  intros Hm Hh w w' HR. destruct (Hm w w' HR) as [Hv HR1]. unfold Eff.try_catch.
  destruct (m w) as [[a | e] w1], (m' w') as [[a' | e'] w1']; cbn in Hv, HR1;
    try contradiction.
  - now split.
  - subst e'. now apply Hh.
Qed.

Lemma agree_ledger_query (q : DB -> A) :
  (forall d d', postedMessages d = postedMessages d' -> q d = q d') ->
  Spec.agree eq (Eff.query q) (Eff.query q).
Proof.
  intros Hq w w' HR. split; [| exact HR]. cbn. destruct HR as (_ & Hpm & _).
  now apply Hq.
Qed.

End Flagless.

Lemma agree_same_run {A : Type} (m : Eff.M A) (w w' : World) :
  Spec.agree eq m m -> Spec.same_but_active w w' -> Spec.same_run m w w'.
Proof.
  intros Hm HR. destruct (Hm w w' HR) as [Hv HR1]. split; [| exact HR1].
  destruct (fst (m w)) as [a | e], (fst (m w')) as [a' | e']; try contradiction;
    now subst.
Qed.

Lemma agree_find_workspace (workspace_id : string) :
  Spec.agree Spec.reflagged (PartA.find_workspace workspace_id)
    (PartA.find_workspace workspace_id).
Proof.
  intros w w' HR. split; [| exact HR]. destruct HR as (Hws & _).
  unfold PartA.find_workspace, Eff.query, Sql.first_row, Sql.select_workspaces. cbn [fst].
  induction Hws as [| r r' l l' Hr _ IH]; [exact I |].
  cbn [filter]. rewrite Hr.
  change (Workspace.id (Spec.with_active (Workspace.isActive r') r)) with (Workspace.id r).
  destruct (Workspace.id r =? workspace_id); [| exact IH].
  cbn. now exists (Workspace.isActive r').
Qed.

Lemma existsb_id_reflagged (x : string) (l l' : list Workspace.t) :
  Forall2 (fun r r' => r' = Spec.with_active (Workspace.isActive r') r) l l' ->
  existsb (fun r => Workspace.id r =? x) l = existsb (fun r => Workspace.id r =? x) l'.
Proof.
  induction 1 as [| r r' l l' Hr _ IH]; [reflexivity |].
  cbn. rewrite Hr, IH. reflexivity.
Qed.

Lemma agree_insert_postedMessage (row : PostedMessage.t) :
  Spec.agree eq (Eff.checked_statement (Sql.insert_postedMessage row))
    (Eff.checked_statement (Sql.insert_postedMessage row)).
Proof.
  intros w w' (Hws & Hpm & Hlog).
  unfold Eff.checked_statement, Sql.insert_postedMessage.
  rewrite <- Hpm, <- (existsb_id_reflagged _ _ _ Hws).
  destruct (existsb _ (postedMessages (database w))); [now repeat split |].
  destruct (negb _); [now repeat split |].
  cbn. repeat split; assumption.
Qed.

(** A handler reads of the row it found the credential, the owner and the
    URL; it goes on in the same way from a row under another flag. *)
Ltac same_row :=
  match goal with
  | |- Spec.agree eq ?m _ => change (Spec.agree eq m m)
  end.

Ltac found_workspace :=
  apply agree_try_catch; [| intros e; now apply agree_ret];
  eapply agree_bind; [apply agree_find_workspace |];
  intros [r |] [r' |] Hrow; cbn in Hrow; try contradiction; [| now apply agree_ret];
  destruct Hrow as [b ->]; same_row.

Lemma partA_get_mentions_flagless (slack : SlackApi.Slack) (env : Env)
    (ts_toLocaleString : string -> string) (workspace_id channel_id : string)
    (days_back : Z) (limit : nat) :
  Spec.agree eq
    (PartA.get_mentions slack env ts_toLocaleString workspace_id channel_id days_back limit)
    (PartA.get_mentions slack env ts_toLocaleString workspace_id channel_id days_back limit).
Proof.
  unfold PartA.get_mentions. found_workspace. cbv zeta.
  eapply agree_bind; [apply agree_request |]. intros result ? <-.
  destruct (negb (SlackApi.history_ok result)); [now apply agree_ret |].
  destruct (SlackApi.messages result) as [page |]; [| apply agree_throw].
  eapply agree_bind; [apply agree_lift |]. intros mentions ? <-. now apply agree_ret.
Qed.

Lemma partA_list_user_channels_flagless (slack : SlackApi.Slack)
    (topic_value : SlackApi.Channel -> option string) (workspace_id : string)
    (limit : nat) (private_only : bool) :
  Spec.agree eq
    (PartA.list_user_channels slack topic_value workspace_id limit private_only)
    (PartA.list_user_channels slack topic_value workspace_id limit private_only).
Proof.
  unfold PartA.list_user_channels. found_workspace. cbv zeta.
  eapply agree_bind; [apply agree_request |]. intros result ? <-.
  destruct (negb (SlackApi.list_ok result)); [now apply agree_ret |].
  destruct (SlackApi.channels result) as [all_channels |]; [| apply agree_throw].
  destruct (_ =? 0)%nat; now apply agree_ret.
Qed.

Lemma partA_post_message_flagless (slack : SlackApi.Slack) (env : Env)
    (workspace_id channel_id message_text : string) :
  Spec.agree eq
    (PartA.post_message slack env workspace_id channel_id message_text)
    (PartA.post_message slack env workspace_id channel_id message_text).
Proof.
  unfold PartA.post_message. found_workspace. cbv zeta.
  eapply agree_bind; [apply agree_request |]. intros channelInfo ? <-.
  destruct (SlackApi.info_ok channelInfo); [| now apply agree_ret].
  destruct (SlackApi.info_channel channelInfo) as [channel |]; [| now apply agree_ret].
  eapply agree_bind; [apply agree_request |]. intros result ? <-.
  destruct (negb (SlackApi.post_ok result)); [now apply agree_ret |].
  destruct (SlackApi.message result) as [posted |]; [| apply agree_throw].
  eapply agree_bind; [apply agree_lift |]. intros ts ? <-.
  eapply agree_bind; [apply agree_insert_postedMessage |]. intros postedMessage ? <-.
  now apply agree_ret.
Qed.

Lemma partA_get_posted_messages_flagless (Date_toLocaleString : Z -> string)
    (workspace_id : string) (limit : nat) :
  Spec.agree eq
    (PartA.get_posted_messages Date_toLocaleString workspace_id limit)
    (PartA.get_posted_messages Date_toLocaleString workspace_id limit).
Proof.
  unfold PartA.get_posted_messages. found_workspace.
  eapply agree_bind.
  { apply agree_ledger_query. intros d d' Hpm. unfold PartA.posted_rows. now rewrite Hpm. }
  intros messages ? <-. destruct (_ =? 0)%nat; now apply agree_ret.
Qed.

Lemma partB_get_mentions_flagless (platform : PartB.Platform) (slack : SlackApi.Slack)
    (env : Env) (ENCRYPTION_KEY : string) (JSON_stringify : JSON -> string)
    (parseFloat_ge : option string -> Z -> bool) (workspace_id : string)
    (days_back : Z) (limit : nat) :
  Spec.agree eq
    (PartB.get_mentions platform slack env ENCRYPTION_KEY JSON_stringify parseFloat_ge
       workspace_id days_back limit)
    (PartB.get_mentions platform slack env ENCRYPTION_KEY JSON_stringify parseFloat_ge
       workspace_id days_back limit).
Proof.
  unfold PartB.get_mentions. found_workspace.
  eapply agree_bind; [apply agree_lift |]. intros botToken ? <-. cbv zeta.
  eapply agree_bind; [apply agree_request |]. intros searchResult ? <-.
  destruct (SlackApi.search_ok searchResult); [| now apply agree_ret].
  destruct (SlackApi.matches searchResult); now apply agree_ret.
Qed.

Lemma partB_list_user_channels_flagless (platform : PartB.Platform) (slack : SlackApi.Slack)
    (ENCRYPTION_KEY : string) (JSON_stringify : JSON -> string)
    (purpose_value : SlackApi.Channel -> option string) (workspace_id : string)
    (limit : nat) (include_private : bool) :
  Spec.agree eq
    (PartB.list_user_channels platform slack ENCRYPTION_KEY JSON_stringify purpose_value
       workspace_id limit include_private)
    (PartB.list_user_channels platform slack ENCRYPTION_KEY JSON_stringify purpose_value
       workspace_id limit include_private).
Proof.
  unfold PartB.list_user_channels. found_workspace.
  eapply agree_bind; [apply agree_lift |]. intros botToken ? <-.
  eapply agree_bind; [apply agree_request |]. intros publicChannels ? <-.
  eapply agree_bind with (V := eq).
  { destruct include_private; [| now apply agree_ret].
    eapply agree_bind; [apply agree_request |]. intros privateChannels ? <-.
    now apply agree_ret. }
  intros private ? <-. now apply agree_ret.
Qed.

Lemma partB_post_message_flagless (platform : PartB.Platform) (slack : SlackApi.Slack)
    (env : Env) (ENCRYPTION_KEY workspace_id channel_id message_text : string)
    (thread_ts : option string) :
  Spec.agree eq
    (PartB.post_message platform slack env ENCRYPTION_KEY workspace_id channel_id
       message_text thread_ts)
    (PartB.post_message platform slack env ENCRYPTION_KEY workspace_id channel_id
       message_text thread_ts).
Proof.
  unfold PartB.post_message. found_workspace.
  eapply agree_bind; [apply agree_lift |]. intros botToken ? <-.
  eapply agree_bind; [apply agree_request |]. intros channelInfo ? <-. cbv zeta.
  eapply agree_bind; [apply agree_request |]. intros result ? <-.
  destruct (negb (SlackApi.post_ok result)); [now apply agree_ret |].
  eapply agree_bind; [apply agree_lift |]. intros ts ? <-.
  eapply agree_bind; [apply agree_insert_postedMessage |]. intros postedMessage ? <-.
  now apply agree_ret.
Qed.

(** No tool of the two texts of [src/unnamed/part_000] that starts from a
    workspace identifier reads the active flag: run from two worlds that
    differ at most in the [is_active] column, each of them gives the same
    result, sends the same requests to Slack and writes the same ledger
    rows.  Switching a workspace off changes nothing for these tools. *)
Theorem earlier_tools_ignore_active_flag :
  forall (platform : PartB.Platform) (slack : SlackApi.Slack) (env : Env)
         (ENCRYPTION_KEY : string) (JSON_stringify : JSON -> string)
         (parseFloat_ge : option string -> Z -> bool)
         (purpose_value topic_value : SlackApi.Channel -> option string)
         (ts_toLocaleString : string -> string) (Date_toLocaleString : Z -> string)
         (workspace_id channel_id message_text : string) (thread_ts : option string)
         (days_back : Z) (limit : nat) (flag : bool) (w w' : World),
    Spec.same_but_active w w' ->
    (Spec.same_run (PartA.get_mentions slack env ts_toLocaleString workspace_id channel_id
                      days_back limit) w w'
     /\ Spec.same_run (PartA.list_user_channels slack topic_value workspace_id limit flag)
          w w'
     /\ Spec.same_run (PartA.post_message slack env workspace_id channel_id message_text)
          w w'
     /\ Spec.same_run (PartA.get_posted_messages Date_toLocaleString workspace_id limit)
          w w')
    /\ (Spec.same_run (PartB.get_mentions platform slack env ENCRYPTION_KEY JSON_stringify
                         parseFloat_ge workspace_id days_back limit) w w'
        /\ Spec.same_run (PartB.list_user_channels platform slack ENCRYPTION_KEY
                            JSON_stringify purpose_value workspace_id limit flag) w w'
        /\ Spec.same_run (PartB.post_message platform slack env ENCRYPTION_KEY workspace_id
                            channel_id message_text thread_ts) w w').
Proof.
  intros platform slack env ENCRYPTION_KEY JSON_stringify parseFloat_ge purpose_value
         topic_value ts_toLocaleString Date_toLocaleString workspace_id channel_id
         message_text thread_ts days_back limit flag w w' HR.
  split; [split; [| split; [| split]] | split; [| split]];
    apply agree_same_run; try exact HR.
  - apply partA_get_mentions_flagless.
  - apply partA_list_user_channels_flagless.
  - apply partA_post_message_flagless.
  - apply partA_get_posted_messages_flagless.
  - apply partB_get_mentions_flagless.
  - apply partB_list_user_channels_flagless.
  - apply partB_post_message_flagless.
Qed.

Lemma earlier_tools_ignore_active_flag_witness :
  Spec.same_but_active Demo.registered Demo.switched_off
  /\ Spec.same_run (PartA.get_mentions Demo.slack Demo.env2 Earlier.ts_toLocaleString
                      "uuid-1" "C1" 1 5) Demo.registered Demo.switched_off
  /\ Spec.same_run (PartA.post_message Demo.slack Demo.env2 "uuid-1" "C1" "hello")
       Demo.registered Demo.switched_off.
Proof.
  assert (HR : Spec.same_but_active Demo.registered Demo.switched_off).
  { split; [| now split]. constructor; [reflexivity | constructor]. }
  split; [exact HR |].
  destruct (earlier_tools_ignore_active_flag DemoPlatform.platform Demo.slack Demo.env2
              "secret" Earlier.stringify Earlier.parseFloat_ge (fun _ => None)
              (fun _ => None) Earlier.ts_toLocaleString Demo.Date_toLocaleString
              "uuid-1" "C1" "hello" None 1 5 false Demo.registered Demo.switched_off HR)
    as [(Hmentions & _ & Hpost & _) _].
  now split.
Defined.

(* ================================================================== *)
(** * Further properties of the second text of [src/unnamed/part_000] *)
(* ================================================================== *)

(** ** The key text of the cipher *)

Lemma length_append (a b : string) :
  String.length (a ++ b) = (String.length a + String.length b)%nat.
Proof. induction a as [| c a IH]; cbn; [reflexivity | now rewrite IH]. Qed.

Lemma length_repeat_char (c : ascii) (n : nat) : String.length (JS.repeat_char c n) = n.
Proof. induction n as [| n IH]; cbn; [reflexivity | now rewrite IH]. Qed.

Lemma length_slice0 (n : nat) (s : string) :
  String.length (JS.slice0 n s) = Nat.min n (String.length s).
Proof.
  revert s. induction n as [| n IH]; intros [| c s]; cbn; try reflexivity.
  now rewrite IH.
Qed.

Lemma slice0_short (n : nat) (s : string) :
  (String.length s <= n)%nat -> JS.slice0 n s = s.
Proof.
  revert s. induction n as [| n IH]; intros [| c s] H; cbn in *; try reflexivity; try lia.
  rewrite IH; [reflexivity | lia].
Qed.

Lemma slice0_app (n : nat) (s rest : string) :
  (n <= String.length s)%nat -> JS.slice0 n (s ++ rest) = JS.slice0 n s.
Proof.
  revert s. induction n as [| n IH]; intros [| c s] H; cbn in *; try reflexivity; try lia.
  rewrite IH; [reflexivity | lia].
Qed.

Lemma append_empty (s : string) : s ++ EmptyString = s.
Proof. induction s as [| c s IH]; cbn; [reflexivity | now rewrite IH]. Qed.

(** The text the AES key is imported from has 32 characters whatever the
    configured key: a longer key is cut, a shorter one filled with the
    character 0.  Deriving it twice changes nothing, and what follows the
    32nd character of the configured key has no part in it. *)
Theorem key_text_has_32_characters :
  forall (key : string),
    String.length (PartB.key_text key) = 32%nat
    /\ PartB.key_text (PartB.key_text key) = PartB.key_text key
    /\ forall rest, (32 <= String.length key)%nat ->
                    PartB.key_text (key ++ rest) = PartB.key_text key.
Proof.
  intros key.
  assert (Hlen : String.length (PartB.key_text key) = 32%nat).
  { unfold PartB.key_text, JS.padEnd.
    rewrite length_append, length_repeat_char, length_slice0. lia. }
  split; [exact Hlen |]. split.
  - unfold PartB.key_text at 1. rewrite slice0_short by lia.
    unfold JS.padEnd. rewrite Hlen. cbn [Nat.sub JS.repeat_char]. apply append_empty.
  - intros rest H. unfold PartB.key_text. now rewrite slice0_app.
Qed.

(** ** Registration seals the credential *)

Section Sealing.

Variable platform : PartB.Platform.

Lemma encrypt_opens (text key : string) (iv : list byte) :
  PartB.scalar platform text = true ->
  List.length iv = 12%nat ->
  List.length (PartB.TextEncoder_encode platform (PartB.key_text key)) = 32%nat ->
  exists blob,
    PartB.encrypt platform text key iv = Val blob
    /\ PartB.decrypt platform blob key = Val text.
Proof.
  intros Hscalar Hiv Hkey. unfold PartB.encrypt. rewrite (importKey_32 _ Hkey).
  eexists. split; [reflexivity |].
  rewrite (decrypt_decoded platform _ key _ (PartB.atob_btoa platform _) Hkey).
  destruct (split_nonce iv (PartB.subtle_encrypt platform
              (PartB.TextEncoder_encode platform (PartB.key_text key)) iv
              (PartB.TextEncoder_encode platform text)) Hiv) as [-> ->].
  now rewrite PartB.decrypt_encrypt, PartB.decode_encode.
Qed.

Lemma new_workspace_columns (env : Env) (a : SlackApi.AuthTestResponse)
    (T blob : string) (description : option string) (row : Workspace.t) :
  PartB.new_workspace env a T blob description = Val row ->
  Workspace.teamId row = T /\ Workspace.botToken row = blob.
Proof.
  unfold PartB.new_workspace, PartB.bound.
  destruct (SlackApi.team a); [| discriminate].
  destruct (SlackApi.url a); [| discriminate].
  destruct (SlackApi.user_id a); [| discriminate].
  destruct (SlackApi.bot_id a); [| discriminate].
  intros H. injection H as <-. now split.
Qed.

Lemma insert_workspace_appends (row row' : Workspace.t) (d d' : DB) :
  Sql.insert_workspace row d = Val (row', d') ->
  row' = row /\ workspaces d' = (workspaces d ++ [row])%list.
Proof.
  unfold Sql.insert_workspace.
  destruct (existsb _ (workspaces d)); [discriminate |].
  destruct (existsb _ (workspaces d)); [discriminate |].
  intros H. injection H as <- <-. now split.
Qed.

(** The registration of the second text once Slack has verified the token
    and the token is sealed. *)
Lemma partB_configure_workspace_registering (slack : SlackApi.Slack) (env : Env)
    (ENCRYPTION_KEY : string) (iv : list byte) (bot_token : string)
    (description : option string) (a : SlackApi.AuthTestResponse) (T blob : string)
    (w : World) :
  SlackApi.auth_test slack bot_token = Val a ->
  SlackApi.auth_ok a = true ->
  SlackApi.team_id a = Some T ->
  PartB.encrypt platform bot_token ENCRYPTION_KEY iv = Val blob ->
  PartB.configure_workspace platform slack env ENCRYPTION_KEY iv bot_token description w =
  let asked := (slack_log w ++ [SlackApi.auth_test_call bot_token])%list in
  match filter (fun r => Workspace.teamId r =? T) (workspaces (database w)) with
  | r0 :: _ =>
      (Val (Eff.ok_result
              (PartB.configured_text (PartB.set_on_update env a blob description r0))),
       mkWorld
         (mkDB (map (fun r => if Workspace.teamId r =? T
                              then PartB.set_on_update env a blob description r
                              else r) (workspaces (database w)))
               (postedMessages (database w)))
         asked)
  | [] =>
      match PartB.new_workspace env a T blob description with
      | Threw e =>
          (Val (Eff.error_result ("Error configuring workspace: " ++ e)),
           mkWorld (database w) asked)
      | Val row =>
          match Sql.insert_workspace row (database w) with
          | Val (r, d) => (Val (Eff.ok_result (PartB.configured_text r)), mkWorld d asked)
          | Threw e =>
              (Val (Eff.error_result ("Error configuring workspace: " ++ e)),
               mkWorld (database w) asked)
          end
      end
  end.
Proof.
  intros Hauth Hok Hteam Hsealed. unfold PartB.configure_workspace, Eff.try_catch.
  rewrite (bind_val _ _ w (mkWorld (database w)
             (slack_log w ++ [SlackApi.auth_test_call bot_token])) a)
    by (unfold Eff.request; now rewrite Hauth).
  rewrite Hok. cbn [negb].
  rewrite (bind_val _ _ _ _ blob) by (unfold Eff.lift; now rewrite Hsealed).
  rewrite (bind_val _ _ _ _ T) by (unfold Eff.lift, PartB.bound; now rewrite Hteam).
  unfold Eff.bind at 1. unfold Eff.query at 1. unfold Sql.first_row, Sql.select_workspaces.
  cbn [database workspaces slack_log]. cbv zeta.
  destruct (filter _ (workspaces (database w))) as [| r0 rest] eqn:Hrows; cbn [hd_error].
  - unfold Eff.bind, Eff.lift, Eff.checked_statement, Eff.ret.
    destruct (PartB.new_workspace env a T blob description) as [row | e]; [| reflexivity].
    cbn [database slack_log].
    destruct (Sql.insert_workspace row (database w)) as [[r d] | e]; reflexivity.
  - unfold Eff.bind, Eff.statement, Eff.ret, Sql.update_workspaces.
    cbn [database workspaces slack_log]. rewrite Hrows. reflexivity.
Qed.

End Sealing.

(** What a registration stored can be opened again: when the second text
    registers a token that Slack verifies, under a key whose text encodes
    to 32 bytes and with a 12-byte nonce, and reports success, the row it
    reports belongs to the verified team, and the credential column of
    every row of that team decrypts under the configured key to the token
    that was registered. *)
Theorem partB_registered_token_decrypts_back :
  forall (platform : PartB.Platform) (slack : SlackApi.Slack) (env : Env)
         (ENCRYPTION_KEY : string) (iv : list byte) (bot_token : string)
         (description : option string) (a : SlackApi.AuthTestResponse) (T : string)
         (res : ToolResult) (w : World),
    SlackApi.auth_test slack bot_token = Val a ->
    SlackApi.auth_ok a = true ->
    SlackApi.team_id a = Some T ->
    PartB.scalar platform bot_token = true ->
    List.length iv = 12%nat ->
    List.length (PartB.TextEncoder_encode platform (PartB.key_text ENCRYPTION_KEY))
    = 32%nat ->
    fst (PartB.configure_workspace platform slack env ENCRYPTION_KEY iv bot_token
           description w) = Val res ->
    isError res = false ->
    let rows := workspaces (database (snd
      (PartB.configure_workspace platform slack env ENCRYPTION_KEY iv bot_token
         description w))) in
    (exists r, In r rows /\ Workspace.teamId r = T
               /\ res = Eff.ok_result (PartB.configured_text r))
    /\ forall r, In r rows -> Workspace.teamId r = T ->
                 PartB.decrypt platform (Workspace.botToken r) ENCRYPTION_KEY
                 = Val bot_token.
Proof.
  intros platform slack env ENCRYPTION_KEY iv bot_token description a T res w
         Hauth Hok Hteam Hscalar Hiv Hkey.
  destruct (encrypt_opens platform bot_token ENCRYPTION_KEY iv Hscalar Hiv Hkey)
    as (blob & Hsealed & Hopens).
  rewrite (partB_configure_workspace_registering platform slack env ENCRYPTION_KEY iv
             bot_token description a T blob w Hauth Hok Hteam Hsealed).
  cbv zeta.
  destruct (filter (fun r => Workspace.teamId r =? T) (workspaces (database w)))
    as [| r0 rest] eqn:Hrows.
  - destruct (PartB.new_workspace env a T blob description) as [row | e] eqn:Hnew.
    2:{ cbn. intros H. injection H as <-. discriminate. }
    destruct (new_workspace_columns env a T blob description row Hnew) as [HT Hblob].
    destruct (Sql.insert_workspace row (database w)) as [[r d] | e] eqn:Hinsert.
    2:{ cbn. intros H. injection H as <-. discriminate. }
    destruct (insert_workspace_appends _ _ _ _ Hinsert) as [-> Hws].
    cbn [fst snd database]. intros H _. injection H as <-. rewrite Hws. split.
    + exists row. split; [apply in_or_app; right; now left | now split].
    + intros r Hin Hr. apply in_app_or in Hin. destruct Hin as [Hin | [<- | []]].
      * exfalso. assert (Hf : In r []); [| exact Hf].
        rewrite <- Hrows. apply (filter_In (fun r => Workspace.teamId r =? T)).
        split; [exact Hin | now apply String.eqb_eq].
      * now rewrite Hblob.
  - assert (Hr0 : In r0 (workspaces (database w)) /\ (Workspace.teamId r0 =? T) = true).
    { apply (filter_In (fun r => Workspace.teamId r =? T)). rewrite Hrows. now left. }
    destruct Hr0 as [Hin0 HT0].
    cbn [fst snd database workspaces]. intros H _. injection H as <-. split.
    + exists (PartB.set_on_update env a blob description r0).
      split; [| split; [now apply String.eqb_eq in HT0 | reflexivity]].
      apply in_map_iff. exists r0. now rewrite HT0.
    + intros r Hin Hr. apply in_map_iff in Hin. destruct Hin as (r1 & <- & Hin1).
      destruct (Workspace.teamId r1 =? T) eqn:E.
      * exact Hopens.
      * apply String.eqb_neq in E. contradiction.
Qed.

Lemma partB_registered_token_decrypts_back_witness :
  let rows := workspaces (database (snd
    (PartB.configure_workspace DemoPlatform.platform Demo.slack Demo.env2 "secret"
       DemoPlatform.nonce "xoxb-2" None Demo.registered))) in
  (exists r, In r rows /\ Workspace.teamId r = "T1"
             /\ Eff.ok_result (PartB.configured_text
                  (PartB.set_on_update Demo.env2 Demo.auth
                     (match PartB.encrypt DemoPlatform.platform "xoxb-2" "secret"
                              DemoPlatform.nonce with
                      | Val blob => blob
                      | Threw _ => EmptyString
                      end) None Demo.workspace1))
                = Eff.ok_result (PartB.configured_text r))
  /\ forall r, In r rows -> Workspace.teamId r = "T1" ->
               PartB.decrypt DemoPlatform.platform (Workspace.botToken r) "secret"
               = Val "xoxb-2".
Proof.
  apply (partB_registered_token_decrypts_back DemoPlatform.platform Demo.slack Demo.env2
           "secret" DemoPlatform.nonce "xoxb-2" None Demo.auth "T1");
    reflexivity.
Defined.

(** ** A credential that does not open *)

(** A stored credential that does not decrypt under the configured key
    ends every tool that needs it before Slack is contacted: get_mentions,
    list_user_channels and post_message of the second text report the
    decryption error, send no request and write nothing. *)
Theorem partB_undecryptable_token_is_fatal :
  forall (platform : PartB.Platform) (slack : SlackApi.Slack) (env : Env)
         (ENCRYPTION_KEY : string) (JSON_stringify : JSON -> string)
         (parseFloat_ge : option string -> Z -> bool)
         (purpose_value : SlackApi.Channel -> option string)
         (workspace_id channel_id message_text : string) (thread_ts : option string)
         (days_back : Z) (limit : nat) (include_private : bool) (w : World)
         (workspace : Workspace.t) (e : string),
    PartB.find_workspace workspace_id w = (Val (Some workspace), w) ->
    PartB.decrypt platform (Workspace.botToken workspace) ENCRYPTION_KEY = Threw e ->
    PartB.get_mentions platform slack env ENCRYPTION_KEY JSON_stringify parseFloat_ge
      workspace_id days_back limit w
    = (Val (Eff.error_result ("Error getting mentions: " ++ e)), w)
    /\ PartB.list_user_channels platform slack ENCRYPTION_KEY JSON_stringify purpose_value
         workspace_id limit include_private w
       = (Val (Eff.error_result ("Error listing channels: " ++ e)), w)
    /\ PartB.post_message platform slack env ENCRYPTION_KEY workspace_id channel_id
         message_text thread_ts w
       = (Val (Eff.error_result ("Error posting message: " ++ e)), w).
Proof.
  intros platform slack env ENCRYPTION_KEY JSON_stringify parseFloat_ge purpose_value
         workspace_id channel_id message_text thread_ts days_back limit include_private w
         workspace e Hfind Hlocked.
  split; [| split].
  - unfold PartB.get_mentions, Eff.try_catch. rewrite (bind_val _ _ _ _ _ Hfind).
    unfold Eff.bind, Eff.lift. now rewrite Hlocked.
  - unfold PartB.list_user_channels, Eff.try_catch. rewrite (bind_val _ _ _ _ _ Hfind).
    unfold Eff.bind, Eff.lift. now rewrite Hlocked.
  - unfold PartB.post_message, Eff.try_catch. rewrite (bind_val _ _ _ _ _ Hfind).
    unfold Eff.bind, Eff.lift. now rewrite Hlocked.
Qed.

(** A token stored as the first text stores it, in the clear, does not
    open. *)
Lemma partB_undecryptable_token_is_fatal_witness :
  PartB.get_mentions DemoPlatform.platform Demo.slack Demo.env2 "secret" Earlier.stringify
    Earlier.parseFloat_ge "uuid-1" 1 5 Demo.registered
  = (Val (Eff.error_result ("Error getting mentions: " ++ "OperationError")),
     Demo.registered)
  /\ PartB.list_user_channels DemoPlatform.platform Demo.slack "secret" Earlier.stringify
       (fun _ => None) "uuid-1" 10 true Demo.registered
     = (Val (Eff.error_result ("Error listing channels: " ++ "OperationError")),
        Demo.registered)
  /\ PartB.post_message DemoPlatform.platform Demo.slack Demo.env2 "secret" "uuid-1" "C1"
       "hello" None Demo.registered
     = (Val (Eff.error_result ("Error posting message: " ++ "OperationError")),
        Demo.registered).
Proof.
  apply (partB_undecryptable_token_is_fatal DemoPlatform.platform Demo.slack Demo.env2
           "secret" Earlier.stringify Earlier.parseFloat_ge (fun _ => None)
           "uuid-1" "C1" "hello" None 1 5 true Demo.registered Demo.workspace1
           "OperationError"); reflexivity.
Defined.

(** ** A search without matches *)

(** The second text reports a search that came back without matches with
    the words it has for a failed one, and without error: when
    search.messages is answered without its matches, get_mentions reports
    "No mentions found or search failed", after the one search request
    under the decrypted token. *)
Theorem partB_get_mentions_without_matches_is_no_error :
  forall (platform : PartB.Platform) (slack : SlackApi.Slack) (env : Env)
         (ENCRYPTION_KEY : string) (JSON_stringify : JSON -> string)
         (parseFloat_ge : option string -> Z -> bool) (workspace_id : string)
         (days_back : Z) (limit : nat) (w : World) (workspace : Workspace.t)
         (token : string) (answer : SlackApi.SearchResponse),
    PartB.find_workspace workspace_id w = (Val (Some workspace), w) ->
    PartB.decrypt platform (Workspace.botToken workspace) ENCRYPTION_KEY = Val token ->
    SlackApi.search_messages slack token ("<@" ++ Workspace.userId workspace ++ ">") limit
    = Val answer ->
    SlackApi.search_ok answer = true ->
    SlackApi.matches answer = None ->
    PartB.get_mentions platform slack env ENCRYPTION_KEY JSON_stringify parseFloat_ge
      workspace_id days_back limit w
    = (Val (mkResult "No mentions found or search failed" false),
       mkWorld (database w)
         (slack_log w ++
          [SlackApi.search_messages_call token
             ("<@" ++ Workspace.userId workspace ++ ">") limit])).
Proof.
  intros platform slack env ENCRYPTION_KEY JSON_stringify parseFloat_ge workspace_id
         days_back limit w workspace token answer Hfind Htoken Hsearch Hok Hnone.
  unfold PartB.get_mentions, Eff.try_catch. rewrite (bind_val _ _ _ _ _ Hfind).
  unfold Eff.bind, Eff.lift, Eff.request, Eff.ret. rewrite Htoken. cbv zeta.
  now rewrite Hsearch, Hok, Hnone.
Qed.

Lemma partB_get_mentions_without_matches_is_no_error_witness :
  PartB.get_mentions DemoPlatform.platform Demo.unsearchable_slack Demo.env2 "secret"
    Earlier.stringify Earlier.parseFloat_ge "uuid-1" 1 5
    (Earlier.switched_off Earlier.sealed_token)
  = (Val (mkResult "No mentions found or search failed" false),
     mkWorld (database (Earlier.switched_off Earlier.sealed_token))
       (slack_log (Earlier.switched_off Earlier.sealed_token) ++
        [SlackApi.search_messages_call "xoxb-1" ("<@" ++ "U1" ++ ">") 5])).
Proof.
  apply (partB_get_mentions_without_matches_is_no_error DemoPlatform.platform
           Demo.unsearchable_slack Demo.env2 "secret" Earlier.stringify
           Earlier.parseFloat_ge "uuid-1" 1 5 (Earlier.switched_off Earlier.sealed_token)
           (Workspace.mk "uuid-1" "Acme" "T1" "https://acme.slack.com/" Earlier.sealed_token
              "U1" "UBOT" None 1700000500 1700000500 false)
           "xoxb-1" (SlackApi.mkSearch true None)); reflexivity.
Defined.

(** ** The active flag under a registration of the second text *)

Lemma same_flags_refl (l : list Workspace.t) :
  Forall2 (fun r r' => Workspace.id r' = Workspace.id r
                       /\ Workspace.isActive r' = Workspace.isActive r) l l.
Proof. induction l; constructor; auto. Qed.

Lemma partB_configure_workspace_refused (platform : PartB.Platform)
    (slack : SlackApi.Slack) (env : Env) (ENCRYPTION_KEY : string) (iv : list byte)
    (bot_token : string) (description : option string) (w : World) :
  match SlackApi.auth_test slack bot_token with
  | Threw _ => True
  | Val a =>
      SlackApi.auth_ok a = false
      \/ (exists e, PartB.encrypt platform bot_token ENCRYPTION_KEY iv = Threw e)
      \/ SlackApi.team_id a = None
  end ->
  database (snd (PartB.configure_workspace platform slack env ENCRYPTION_KEY iv bot_token
                   description w)) = database w.
Proof.
  unfold PartB.configure_workspace, Eff.try_catch.
  unfold Eff.bind at 1. unfold Eff.request at 1.
  destruct (SlackApi.auth_test slack bot_token) as [a | e]; [| reflexivity].
  destruct (SlackApi.auth_ok a); cbn [negb]; [| reflexivity].
  unfold Eff.bind at 1. unfold Eff.lift at 1.
  destruct (PartB.encrypt platform bot_token ENCRYPTION_KEY iv) as [blob | e];
    [| reflexivity].
  unfold Eff.bind at 1. unfold Eff.lift at 1. unfold PartB.bound at 1.
  destruct (SlackApi.team_id a) as [T |]; [| reflexivity].
  intros [H | [[e H] | H]]; discriminate.
Qed.

(** A registration of the second text writes no active flag: whatever
    Slack answers, every row of the table is still there afterwards under
    its identifier and with the flag it had, so that a workspace that was
    switched off stays switched off when its team registers again; at
    most one row is added, and that one is active. *)
Lemma partB_update_keeps_active_flag :
  forall (platform : PartB.Platform) (slack : SlackApi.Slack) (env : Env)
         (ENCRYPTION_KEY : string) (iv : list byte) (bot_token : string)
         (description : option string) (w : World),
    exists kept added : list Workspace.t,
      workspaces (database (snd (PartB.configure_workspace platform slack env
                                   ENCRYPTION_KEY iv bot_token description w)))
      = (kept ++ added)%list
      /\ Forall2 (fun r r' => Workspace.id r' = Workspace.id r
                              /\ Workspace.isActive r' = Workspace.isActive r)
           (workspaces (database w)) kept
      /\ (added = [] \/ exists row, added = [row] /\ Workspace.isActive row = true).
Proof.
  intros platform slack env ENCRYPTION_KEY iv bot_token description w.
  assert (Hsame : database (snd (PartB.configure_workspace platform slack env
                                   ENCRYPTION_KEY iv bot_token description w))
                  = database w ->
                  exists kept added : list Workspace.t,
                    workspaces (database (snd (PartB.configure_workspace platform slack env
                                   ENCRYPTION_KEY iv bot_token description w)))
                    = (kept ++ added)%list
                    /\ Forall2 (fun r r' => Workspace.id r' = Workspace.id r
                                            /\ Workspace.isActive r' = Workspace.isActive r)
                         (workspaces (database w)) kept
                    /\ (added = [] \/ exists row, added = [row]
                                                  /\ Workspace.isActive row = true)).
  { intros ->. exists (workspaces (database w)), [].
    split; [now rewrite app_nil_r |]. split; [apply same_flags_refl | now left]. }
  destruct (SlackApi.auth_test slack bot_token) as [a | e] eqn:Hauth.
  2:{ apply Hsame, partB_configure_workspace_refused. now rewrite Hauth. }
  destruct (SlackApi.auth_ok a) eqn:Hok.
  2:{ apply Hsame, partB_configure_workspace_refused. rewrite Hauth. now left. }
  destruct (PartB.encrypt platform bot_token ENCRYPTION_KEY iv) as [blob | e] eqn:Hsealed.
  2:{ apply Hsame, partB_configure_workspace_refused. rewrite Hauth. right. left.
      now exists e. }
  destruct (SlackApi.team_id a) as [T |] eqn:Hteam.
  2:{ apply Hsame, partB_configure_workspace_refused. rewrite Hauth. now right; right. }
  clear Hsame.
  rewrite (partB_configure_workspace_registering platform slack env ENCRYPTION_KEY iv
             bot_token description a T blob w Hauth Hok Hteam Hsealed).
  cbv zeta.
  destruct (filter (fun r => Workspace.teamId r =? T) (workspaces (database w)))
    as [| r0 rest].
  - destruct (PartB.new_workspace env a T blob description) as [row | e] eqn:Hnew.
    2:{ exists (workspaces (database w)), [].
        split; [now rewrite app_nil_r |]. split; [apply same_flags_refl | now left]. }
    destruct (Sql.insert_workspace row (database w)) as [[r d] | e] eqn:Hinsert.
    2:{ exists (workspaces (database w)), [].
        split; [now rewrite app_nil_r |]. split; [apply same_flags_refl | now left]. }
    destruct (insert_workspace_appends _ _ _ _ Hinsert) as [-> Hws].
    exists (workspaces (database w)), [row]. cbn [snd database].
    split; [exact Hws |]. split; [apply same_flags_refl |].
    right. exists row. split; [reflexivity |].
    unfold PartB.new_workspace, PartB.bound in Hnew.
    destruct (SlackApi.team a); [| discriminate].
    destruct (SlackApi.url a); [| discriminate].
    destruct (SlackApi.user_id a); [| discriminate].
    destruct (SlackApi.bot_id a); [| discriminate].
    injection Hnew as <-. reflexivity.
  - eexists _, []. cbn [snd database workspaces].
    split; [now rewrite app_nil_r |]. split; [| now left].
    induction (workspaces (database w)) as [| r l IH]; cbn [map]; constructor;
      [| exact IH].
    now destruct (Workspace.teamId r =? T).
Qed.
